(** * AgriUnity front end: a shallow embedding of the client-side logic

  The development follows the JavaScript sources of the single-page
  application:

  - [Js]               the fragment of JavaScript values the modules below
                       rely on (template stringification, truthiness,
                       [Object.values], [Array.prototype.flat], [join]);
  - [Api]              [frontend/src/api.js], the [authFetch] helper;
  - [Store]            [frontend/src/store.js], the zustand session store;
  - [GroupRoom]        the message merge of [GroupRoom.jsx] ([fetchAll]);
  - [FarmerDashboard]  the listing form of [FarmerDashboard.jsx];
  - [WorkflowEngine]   the simulated stage engine ([WorkflowEngine.js]);
  - [AIAgentSystem]    the conversation-context log of [AIAgentSystem.js].

  Promises are modelled by their settlement ([Resolved] / [Rejected]),
  side effects by explicit traces, timers by a queue of pending callbacks,
  and the wall clock and [Math.random] by explicit arguments. *)

From Stdlib Require Import ZArith QArith Qabs Lia String Ascii List DecimalString.
From Stdlib Require Import Sorted Permutation.
From stdpp Require Import gmap strings list fin_maps.
Import ListNotations.

Set Warnings "-register-all".
Open Scope string_scope.
Open Scope list_scope.
Open Scope Z_scope.

(* ===================================================================== *)
(** * JavaScript values                                                   *)
(* ===================================================================== *)

Module Js.

(** Decimal rendering of an integer, as [String(n)] gives for an integral
    JavaScript number. *)
Definition decimal (z : Z) : string := NilZero.string_of_int (Z.to_int z).

(** Primitive values as they occur in loosely typed message fields.
    Numbers are restricted to integers: the code below never does
    arithmetic on fractional values of these fields. *)
Inductive Scalar : Type :=
| SUndefined
| SNull
| SBool (b : bool)
| SNum (n : Z)
| SStr (s : string).

(** [ToString], as applied by a template literal [`${v}`]. *)
Definition scalarToString (v : Scalar) : string :=
  match v with
  | SUndefined => "undefined"
  | SNull => "null"
  | SBool true => "true"
  | SBool false => "false"
  | SNum n => decimal n
  | SStr s => s
  end.

(** [ToBoolean]. *)
Definition truthy (v : Scalar) : bool :=
  match v with
  | SUndefined | SNull => false
  | SBool b => b
  | SNum n => negb (n =? 0)
  | SStr s => negb (String.eqb s "")
  end.

(** [a || b] on values. *)
Definition or_else (a b : Scalar) : Scalar := if truthy a then a else b.

(** [a === b] on primitives. *)
Definition strictEq (a b : Scalar) : bool :=
  match a, b with
  | SUndefined, SUndefined => true
  | SNull, SNull => true
  | SBool x, SBool y => Bool.eqb x y
  | SNum x, SNum y => x =? y
  | SStr x, SStr y => String.eqb x y
  | _, _ => false
  end.

(** What [JSON.parse] (hence [response.json()]) can produce.  An object is
    kept as the list of its own enumerable properties in JavaScript's
    enumeration order, which is the order [Object.values] follows. *)
Inductive JSON : Type :=
| JNull
| JBool (b : bool)
| JNum (n : Z)
| JStr (s : string)
| JArr (items : list JSON)
| JObj (props : list (string * JSON)).

(** [ToString] on a parsed value.  An array prints as its elements joined
    by commas, where [null] elements print as the empty string; an object
    prints as ["[object Object]"]. *)
Fixpoint toString (v : JSON) : string :=
  match v with
  | JNull => "null"
  | JBool true => "true"
  | JBool false => "false"
  | JNum n => decimal n
  | JStr s => s
  | JArr items =>
      String.concat ","
        (List.map (fun e => match e with JNull => "" | _ => toString e end) items)
  | JObj _ => "[object Object]"
  end.

(** The string an element contributes to [Array.prototype.join]. *)
Definition joinItem (e : JSON) : string :=
  match e with JNull => "" | _ => toString e end.

(** [arr.join(sep)]. *)
Definition join (sep : string) (arr : list JSON) : string :=
  String.concat sep (List.map joinItem arr).

(** [arr.flat()]: one level of nested arrays is spliced in. *)
Definition flat (arr : list JSON) : list JSON :=
  List.concat (List.map (fun e => match e with JArr xs => xs | _ => [e] end) arr).

(** The characters of a string as one-character strings. *)
Fixpoint chars (s : string) : list JSON :=
  match s with
  | EmptyString => []
  | String c rest => JStr (String c EmptyString) :: chars rest
  end.

(** [Object.values(v)]; [None] stands for the [TypeError] raised on
    [null]. *)
Definition objectValues (v : JSON) : option (list JSON) :=
  match v with
  | JNull => None
  | JBool _ | JNum _ => Some []
  | JStr s => Some (chars s)
  | JArr items => Some items
  | JObj props => Some (List.map snd props)
  end.

(** A JavaScript number as far as ordering needs it: an integer, or [NaN]
    ([None]). *)
Definition Number : Type := option Z.

(** [a - b] on numbers. *)
Definition sub (a b : Number) : Number :=
  match a, b with
  | Some x, Some y => Some (x - y)
  | _, _ => None
  end.

(** Whether a comparator result asks for its first argument to be placed
    after the second: [v > 0].  [NaN] and [0] both mean "leave as is". *)
Definition placedAfter (v : Number) : bool :=
  match v with
  | Some z => 0 <? z
  | None => false
  end.

Section Sort.
Context {A : Type}.
Variable comparefn : A -> A -> Number.

(** Insertion of [x], which preceded every element of the sorted list [l]
    in the original array: it moves right only past elements it has to
    follow, so equal elements keep their original order. *)
Fixpoint insertSorted (x : A) (l : list A) : list A :=
  match l with
  | [] => [x]
  | y :: ys =>
      if placedAfter (comparefn x y) then y :: insertSorted x ys
      else x :: y :: ys
  end.

(** [arr.sort(comparefn)].  ECMAScript requires the sort to be stable, so
    for a consistent comparator every engine returns this list; for an
    inconsistent one (a comparator that yields [NaN]) the order is
    implementation-defined and this is one admissible outcome. *)
Fixpoint sort (l : list A) : list A :=
  match l with
  | [] => []
  | x :: xs => insertSorted x (sort xs)
  end.

End Sort.

End Js.

(* ===================================================================== *)
(** * frontend/src/api.js                                                 *)
(* ===================================================================== *)

Module Api.
Import Js.

(** The [body] of a fetch option bag. *)
Inductive Body : Type :=
| BodyAbsent
| BodyText (s : string)
| BodyFormData (fields : list (string * string)).

(** [options.body instanceof FormData]. *)
Definition instanceofFormData (b : Body) : bool :=
  match b with BodyFormData _ => true | _ => false end.

Record Options : Type := mkOptions {
  opt_method : option string;
  opt_body : Body;
  opt_headers : option (gmap string string)
}.

(** The third argument of [authFetch] as the caller passes it. *)
Inductive OptionsArg : Type :=
| OptUndefined
| OptNull
| OptObject (o : Options).

Definition emptyOptions : Options :=
  {| opt_method := None; opt_body := BodyAbsent; opt_headers := None |}.

Record Config : Type := mkConfig {
  cfg_method : option string;
  cfg_body : Body;
  cfg_headers : gmap string string
}.

Record Response : Type := mkResponse {
  status : Z;
  (** the settlement of [response.json()]: [None] when it rejects *)
  json : option JSON
}.

(** [response.ok]. *)
Definition ok (r : Response) : bool := (200 <=? status r) && (status r <=? 299).

Inductive Thrown : Type :=
| ErrError (message : string)   (* [new Error(message)] *)
| ErrTypeError                  (* raised by the runtime *)
| ErrJson                       (* the rejection of [response.json()] *)
| ErrFetch.                     (* the rejection of [fetch] *)

Inductive Outcome : Type :=
| Resolved (v : JSON)
| Rejected (e : Thrown).

Inductive Effect : Type :=
| EFetch (url : string) (cfg : Config)
| EJson.

Definition isFormData (options : OptionsArg) : bool :=
  match options with
  | OptObject o => instanceofFormData (opt_body o)
  | _ => false
  end.

Definition defaultHeaders (token : Scalar) (formData : bool) : gmap string string :=
  <["Authorization" := "Token " +:+ scalarToString token]>
    (if formData then ∅ else {["Content-Type" := "application/json"]}).

(** [{...defaultHeaders, ...options.headers}] *)
Definition mergeHeaders (defaults : gmap string string)
    (extra : option (gmap string string)) : gmap string string :=
  match extra with
  | Some h => h ∪ defaults
  | None => defaults
  end.

(** The [config] object; [None] when building it raises (reading
    [headers] of [null]). *)
Definition buildConfig (token : Scalar) (options : OptionsArg) : option Config :=
  let defaults := defaultHeaders token (isFormData options) in
  match options with
  | OptNull => None
  | OptUndefined =>
      Some {| cfg_method := None; cfg_body := BodyAbsent;
              cfg_headers := mergeHeaders defaults (opt_headers emptyOptions) |}
  | OptObject o =>
      Some {| cfg_method := opt_method o; cfg_body := opt_body o;
              cfg_headers := mergeHeaders defaults (opt_headers o) |}
  end.

Definition fallbackMessage : string := "An API error occurred.".

(** [s || 'An API error occurred.'] *)
Definition orFallback (s : string) : string :=
  if String.eqb s "" then fallbackMessage else s.

(** [Object.values(errorData).flat().join(' ') || '...'] *)
Definition errorMessage (errorData : JSON) : option string :=
  match objectValues errorData with
  | None => None
  | Some vals => Some (orFallback (join " " (flat vals)))
  end.

(** Everything after [await fetch(url, config)]. *)
Definition handleResponse (r : Response) : list Effect * Outcome :=
  if negb (ok r) then
    match json r with
    | None =>
        ([EJson], Rejected (ErrError ("HTTP error! status: " +:+ decimal (status r))))
    | Some errorData =>
        match errorMessage errorData with
        | Some m => ([EJson], Rejected (ErrError m))
        | None => ([EJson], Rejected ErrTypeError)
        end
    end
  else if status r =? 204 then ([], Resolved JNull)
  else
    match json r with
    | Some v => ([EJson], Resolved v)
    | None => ([EJson], Rejected ErrJson)
    end.

(** The error body the backend contract describes: an object mapping
    field names to arrays of message strings. *)
Definition fieldErrors (fields : list (string * list string)) : JSON :=
  JObj (List.map (fun field => (fst field, JArr (List.map JStr (snd field)))) fields).


(** The requests among the effects of a call. *)
Definition requests (effs : list Effect) : list (string * Config) :=
  flat_map (fun e => match e with
                     | EFetch url cfg => [(url, cfg)]
                     | EJson => []
                     end) effs.

(** The network: what [fetch] settles to ([None]: it rejects). *)
Definition Network : Type := string -> Config -> option Response.

Definition authFetch (net : Network) (url : string) (token : Scalar)
    (options : OptionsArg) : list Effect * Outcome :=
  match buildConfig token options with
  | None => ([], Rejected ErrTypeError)
  | Some config =>
      match net url config with
      | None => ([EFetch url config], Rejected ErrFetch)
      | Some response =>
          let '(effs, out) := handleResponse response in
          (EFetch url config :: effs, out)
      end
  end.

End Api.

(* ===================================================================== *)
(** * frontend/src/store.js                                               *)
(* ===================================================================== *)

Module Store.

Section UserStore.

(** The JavaScript values callers hand to the store (user objects, token
    strings); the store never inspects them. *)
Variable Value : Type.

Inductive Action : Type :=
| ASetUser
| ALogout.

(** What a property of the store's state object holds. *)
Inductive Slot : Type :=
| Null
| Held (v : Value)
| Fn (a : Action).

(** zustand's [set(partial)]: the partial object is merged over the
    current state, key by key.  The [persist] middleware, which mirrors
    the state into local storage under ['user-storage'], is left out. *)
Definition set (partial state : gmap string Slot) : gmap string Slot :=
  partial ∪ state.

(** The state the creator function returns. *)
Definition initialState : gmap string Slot :=
  <["user" := Null]> (<["token" := Null]>
    (<["setUser" := Fn ASetUser]> (<["logout" := Fn ALogout]> ∅))).

(** [setUser: (user, token) => set({ user, token })] *)
Definition setUser (user token : Slot) (state : gmap string Slot) : gmap string Slot :=
  set (<["user" := user]> (<["token" := token]> ∅)) state.

(** [logout: () => set({ user: null, token: null })] *)
Definition logout (state : gmap string Slot) : gmap string Slot :=
  set (<["user" := Null]> (<["token" := Null]> ∅)) state.

(** The state object with the pair [(u, t)] in its two data properties. *)
Definition holding (u t : Slot) : gmap string Slot :=
  <["user" := u]> (<["token" := t]> initialState).

(** The states the store can be in: the initial one, and whatever the two
    actions make of a reachable state. *)
Inductive reachable : gmap string Slot -> Prop :=
| reach_init : reachable initialState
| reach_setUser u t st : reachable st -> reachable (setUser u t st)
| reach_logout st : reachable st -> reachable (logout st).

End UserStore.

Arguments Null {Value}.
Arguments Held {Value} v.
Arguments Fn {Value} a.
Arguments set {Value} partial state.
Arguments initialState {Value}.
Arguments setUser {Value} user token state.
Arguments logout {Value} state.
Arguments holding {Value} u t.
Arguments reachable {Value} _.

End Store.

(* ===================================================================== *)
(** * frontend/src/GroupRoom.jsx: the merge in fetchAll                   *)
(* ===================================================================== *)

Module GroupRoom.
Import Js.

(** An entry of the group chat endpoint. *)
Record ChatMsg : Type := mkChatMsg {
  cm_id : Scalar;
  cm_content : Scalar;
  cm_sender_name : Scalar;
  cm_is_ai_agent : Scalar;
  cm_created_at : Scalar
}.

(** An entry of the negotiation-history endpoint. *)
Record HistoryMsg : Type := mkHistoryMsg {
  hm_id : Scalar;
  hm_content : Scalar;
  hm_sender : Scalar;
  hm_is_ai_agent : Scalar;
  hm_timestamp : Scalar;
  hm_type : Scalar
}.

(** An entry of the merged list handed to [setMessages]. *)
Record Message : Type := mkMessage {
  id : string;
  content : Scalar;
  sender_name : Scalar;
  is_ai_agent : Scalar;
  timestamp : Scalar;
  type : string
}.

(** The chat response: [null], an object with a [messages] property (which
    may be missing), or a bare array. *)
Inductive ChatResponse : Type :=
| ChatNull
| ChatWrapped (messages : option (list ChatMsg))
| ChatArray (l : list ChatMsg).

(** [msgs?.messages || msgs || []]; [None] when the value obtained is not
    an array, so that [forEach] raises and [fetchAll] sets nothing. *)
Definition chatMessagesOf (msgs : ChatResponse) : option (list ChatMsg) :=
  match msgs with
  | ChatNull => Some []
  | ChatWrapped (Some l) => Some l
  | ChatWrapped None => None
  | ChatArray l => Some l
  end.

(** A value of the [history] object: an array of entries or anything
    else. *)
Inductive DateGroup : Type :=
| GroupArray (l : list HistoryMsg)
| GroupOther.

(** The negotiation-history response, [history] in the order
    [Object.values] enumerates it. *)
Record NegotiationHistory : Type := mkNegotiationHistory {
  history : option (list (string * DateGroup))
}.

(** The flattening loop over [Object.values(negotiationHistory.history)]. *)
Definition flattenHistory (negotiationHistory : option NegotiationHistory)
    : list HistoryMsg :=
  match negotiationHistory with
  | Some {| history := Some groups |} =>
      fold_left
        (fun all dateGroup =>
           match snd dateGroup with
           | GroupArray l => all ++ l
           | GroupOther => all
           end)
        groups []
  | _ => []
  end.

Definition formatChat (msg : ChatMsg) : Message :=
  {| id := "chat_" +:+ scalarToString (cm_id msg);
     content := cm_content msg;
     sender_name := or_else (cm_sender_name msg) (SStr "Unknown");
     is_ai_agent := or_else (cm_is_ai_agent msg) (SBool false);
     timestamp := cm_created_at msg;
     type := "chat" |}.

(** [msg.type === 'negotiation_message' || msg.type === 'poll'] *)
Definition isNegotiationOrPoll (msg : HistoryMsg) : bool :=
  strictEq (hm_type msg) (SStr "negotiation_message")
  || strictEq (hm_type msg) (SStr "poll").

Definition formatHistory (msg : HistoryMsg) : Message :=
  {| id := "history_" +:+ scalarToString (hm_id msg);
     content := hm_content msg;
     sender_name :=
       if strictEq (hm_sender msg) (SStr "AI Agent") then SStr "AI Agent"
       else if strictEq (hm_sender msg) (SStr "buyer123") then SStr "You"
       else hm_sender msg;
     is_ai_agent :=
       or_else (hm_is_ai_agent msg) (SBool (strictEq (hm_sender msg) (SStr "AI Agent")));
     timestamp := hm_timestamp msg;
     type := "negotiation" |}.

Section Merge.

(** The time value of [new Date(s)]: milliseconds since the epoch, or
    [NaN] for a string the engine cannot read as a date. *)
Variable dateParse : string -> Number.

(** The number a timestamp becomes in [timeA - timeB]: strings go through
    [new Date], other values through [ToNumber]. *)
Definition timeValue (t : Scalar) : Number :=
  match t with
  | SStr s => dateParse s
  | SNum n => Some n
  | SNull => Some 0
  | SBool true => Some 1
  | SBool false => Some 0
  | SUndefined => None
  end.

(** The comparator passed to [allMessages.sort]. *)
Definition compareTimestamps (a b : Message) : Number :=
  sub (timeValue (timestamp a)) (timeValue (timestamp b)).

(** [allMessages] before sorting. *)
Definition collectMessages (chatMessages : list ChatMsg)
    (allHistoryMessages : list HistoryMsg) : list Message :=
  List.map formatChat chatMessages
  ++ List.map formatHistory (List.filter isNegotiationOrPoll allHistoryMessages).

(** The list [fetchAll] hands to [setMessages]. *)
Definition mergeMessages (chatMessages : list ChatMsg)
    (allHistoryMessages : list HistoryMsg) : list Message :=
  sort compareTimestamps (collectMessages chatMessages allHistoryMessages).

(** [a] is not later than [b]: both timestamps denote a time, and the
    first is at most the second. *)
Definition notLater (a b : Message) : Prop :=
  match timeValue (timestamp a), timeValue (timestamp b) with
  | Some x, Some y => x <= y
  | _, _ => False
  end.



(** From the two responses to the message list; [None] when [fetchAll]
    raises before [setMessages]. *)
Definition fetchAllMessages (msgs : ChatResponse)
    (negotiationHistory : option NegotiationHistory) : option (list Message) :=
  match chatMessagesOf msgs with
  | Some chatMessages =>
      Some (mergeMessages chatMessages (flattenHistory negotiationHistory))
  | None => None
  end.

End Merge.

End GroupRoom.

(* ===================================================================== *)
(** * frontend/src/FarmerDashboard.jsx: the listing form                  *)
(* ===================================================================== *)

Module FarmerDashboard.
Import Js.

(** The form state of the component and the error line under the form
    (the thrown value whose [message] is shown). *)
Record FormState : Type := mkFormState {
  selectedCrop : string;
  quantity : string;
  selectedGrade : string;
  formError : option Api.Thrown
}.

(** What the user can observe of a handler run, in order. *)
Inductive UiEvent : Type :=
| PreventDefault
| Request (url : string) (cfg : Api.Config)
| Alert (text : string).

(** ** [parseInt(s, 10)]

    Leading white space is skipped as far as it is ASCII, and the digits
    are read as the integer they write.  The code gets the nearest
    floating-point number instead, which is that integer up to [2^53] in
    absolute value, and it also skips the white space outside ASCII. *)

Definition isWhiteSpace (c : ascii) : bool :=
  match nat_of_ascii c with
  | 9%nat | 10%nat | 11%nat | 12%nat | 13%nat | 32%nat => true
  | _ => false
  end.

Fixpoint skipWhiteSpace (s : string) : string :=
  match s with
  | String c rest => if isWhiteSpace c then skipWhiteSpace rest else s
  | EmptyString => s
  end.

Definition digitOf (c : ascii) : option Z :=
  let n := Z.of_nat (nat_of_ascii c) in
  if (48 <=? n) && (n <=? 57) then Some (n - 48) else None.

(** The longest prefix of decimal digits, read as a number; the
    accumulator is [None] until a digit has been seen. *)
Fixpoint leadingDigits (s : string) (acc : option Z) : option Z :=
  match s with
  | String c rest =>
      match digitOf c with
      | Some d => leadingDigits rest (Some (10 * default 0 acc + d))
      | None => acc
      end
  | EmptyString => acc
  end.

Definition parseInt10 (s : string) : Number :=
  match skipWhiteSpace s with
  | String "-" rest => Z.opp <$> leadingDigits rest None
  | String "+" rest => leadingDigits rest None
  | t => leadingDigits t None
  end.

(** The string a number becomes when appended to a [FormData]: its
    decimal digits, as the code writes every integer up to [2^53] in
    absolute value. *)
Definition numberToString (n : Number) : string :=
  match n with
  | Some z => decimal z
  | None => "NaN"
  end.

(** ** The form controls as the JSX declares them *)

(** The index of the option a controlled [<select value=...>] shows: the
    first option carrying that value, the first option of all when none
    does. *)
Fixpoint selectedIndex (optionValues : list string) (value : string) : nat :=
  match optionValues with
  | [] => 0%nat
  | v :: rest =>
      if String.eqb v value then 0%nat
      else
        if existsb (String.eqb value) rest then S (selectedIndex rest value)
        else 0%nat
  end.

(** A required single [<select>] whose first option has the empty value
    (its placeholder label option) is missing its value exactly when that
    first option is the selected one. *)
Definition selectValueMissing (optionValues : list string) (value : string) : bool :=
  Nat.eqb (selectedIndex optionValues value) 0.

Definition gradeOptions : list string :=
  [""; "FAQ"; "Medium"; "Large"; "Local"; "Non-FAQ"; "Ref grade-1"; "Ref grade-2"].

Section ListingForm.

(** [VITE_API_BASE_URL], or the empty string. *)
Variable API_BASE : string.
(** The answers of the backend. *)
Variable net : Api.Network.
(** The session token read from the store. *)
Variable token : Scalar.
(** The names of the crops offered by the crop [<select>]. *)
Variable crops : list string.
(** Whether the browser accepts the text of the quantity field
    ([type="number" required min="1"]). *)
Variable quantityInputValid : string -> bool.

Definition cropOptions : list string := "" :: crops.

(** The browser's constraint validation of the three controls, all of
    which are declared [required]. *)
Definition checkValidity (st : FormState) : bool :=
  negb (selectValueMissing cropOptions (selectedCrop st))
  && quantityInputValid (quantity st)
  && negb (selectValueMissing gradeOptions (selectedGrade st)).

Definition requestsOf (effs : list Api.Effect) : list UiEvent :=
  flat_map (fun e => match e with
                     | Api.EFetch url cfg => [Request url cfg]
                     | Api.EJson => []
                     end) effs.

(** The two requests [fetchData] starts on the harvest tab. *)
Definition fetchData : list UiEvent :=
  requestsOf (fst (Api.authFetch net (API_BASE +:+ "/api/products/crops/") token Api.OptUndefined))
  ++ requestsOf (fst (Api.authFetch net (API_BASE +:+ "/api/products/my-listings/") token Api.OptUndefined)).

Definition listingFormData (st : FormState) : list (string * string) :=
  [("crop_name", selectedCrop st);
   ("quantity_kg", numberToString (parseInt10 (quantity st)));
   ("grade", selectedGrade st)].

Definition listingRequestOptions (st : FormState) : Api.OptionsArg :=
  Api.OptObject
    {| Api.opt_method := Some "POST";
       Api.opt_body := Api.BodyFormData (listingFormData st);
       Api.opt_headers :=
         Some {["Authorization" := "Token " +:+ scalarToString token]} |}.

(** The [onSubmit] handler of the form. *)
Definition handleSubmitListing (st : FormState) : list UiEvent * FormState :=
  let st0 := {| selectedCrop := selectedCrop st; quantity := quantity st;
                selectedGrade := selectedGrade st; formError := None |} in
  let '(effs, outcome) :=
    Api.authFetch net (API_BASE +:+ "/api/products/list-product/") token
      (listingRequestOptions st) in
  match outcome with
  | Api.Resolved _ =>
      (PreventDefault :: requestsOf effs
         ++ Alert "Listing created successfully!" :: fetchData,
       {| selectedCrop := ""; quantity := ""; selectedGrade := "";
          formError := None |})
  | Api.Rejected err =>
      (PreventDefault :: requestsOf effs,
       {| selectedCrop := selectedCrop st0; quantity := quantity st0;
          selectedGrade := selectedGrade st0; formError := Some err |})
  end.

(** The user activates the submit button.  The form is not [noValidate],
    so the browser validates the controls first and dispatches the submit
    event, hence runs the handler, only when all of them are valid. *)
Definition submitForm (st : FormState) : list UiEvent * FormState :=
  if checkValidity st then handleSubmitListing st else ([], st).

(** A [POST] to the listing endpoint. *)
Definition isListingPost (ev : UiEvent) : bool :=
  match ev with
  | Request url cfg =>
      String.eqb url (API_BASE +:+ "/api/products/list-product/")
      && match Api.cfg_method cfg with
         | Some m => String.eqb m "POST"
         | None => false
         end
  | _ => false
  end.

Definition isRequest (ev : UiEvent) : bool :=
  match ev with Request _ _ => true | _ => false end.

End ListingForm.

End FarmerDashboard.

(* ===================================================================== *)
(** * WorkflowEngine.js: the simulated stage engine                       *)
(* ===================================================================== *)

Module WorkflowEngine.

(** ** Values held in the deal group

    The deal group is whatever object the backend returned: a bag of
    properties.  A property that is absent reads as [undefined], which is
    [None] throughout.  Numbers are exact rationals ([None] is [NaN]); the
    rounding of IEEE doubles and the sign of zero are not represented.
    Array-valued properties are left out: the engine reads none. *)
Inductive Val : Type :=
| VNull
| VBool (b : bool)
| VNum (n : option Q)
| VStr (s : string)
| VDate (t : option Z)
| VObj (fields : gmap string Val).

(** [ToBoolean] *)
Definition truthy (v : option Val) : bool :=
  match v with
  | None | Some VNull => false
  | Some (VBool b) => b
  | Some (VNum None) => false
  | Some (VNum (Some q)) => negb (Qeq_bool q 0%Q)
  | Some (VStr s) => negb (String.eqb s "")
  | Some (VDate _) | Some (VObj _) => true
  end.

(** [a || b] *)
Definition orElse (a b : option Val) : option Val := if truthy a then a else b.

(** [o.k] and [o?.k] for an [o] that is not [null] or [undefined] in the
    first case. *)
Definition prop (o : option Val) (k : string) : option Val :=
  match o with
  | Some (VObj fields) => fields !! k
  | _ => None
  end.

(** [v === 'text'] *)
Definition isString (v : option Val) (text : string) : bool :=
  match v with
  | Some (VStr s) => String.eqb s text
  | _ => false
  end.

(** [v === true] *)
Definition isTrue (v : option Val) : bool :=
  match v with
  | Some (VBool true) => true
  | _ => false
  end.

(** The result of a division: finite, infinite or [NaN]. *)
Inductive Quotient : Type :=
| QNaN
| QInf (positive : bool)
| QFin (q : Q).

Definition div (a b : option Q) : Quotient :=
  match a, b with
  | Some x, Some y =>
      if Qeq_bool y 0%Q then
        if Qeq_bool x 0%Q then QNaN else QInf (Qle_bool 0%Q x)
      else QFin (x / y)%Q
  | _, _ => QNaN
  end.

(** [a >= q] and [a <= q] for a quotient [a]. *)
Definition atLeast (a : Quotient) (q : Q) : bool :=
  match a with
  | QFin x => Qle_bool q x
  | QInf positive => positive
  | QNaN => false
  end.

Definition atMost (a : Quotient) (q : Q) : bool :=
  match a with
  | QFin x => Qle_bool x q
  | QInf positive => negb positive
  | QNaN => false
  end.

Definition subN (a b : option Q) : option Q :=
  match a, b with Some x, Some y => Some (x - y)%Q | _, _ => None end.

Definition mulN (a b : option Q) : option Q :=
  match a, b with Some x, Some y => Some (x * y)%Q | _, _ => None end.

Definition absN (a : option Q) : option Q := Qabs <$> a.

(** [a >= b] on numbers. *)
Definition geN (a b : option Q) : bool :=
  match a, b with Some x, Some y => Qle_bool y x | _, _ => false end.

(** What the engine takes from its surroundings in one timer task or
    call: the clock, the successive results of [Math.random], and the two
    string readers of the JavaScript runtime. *)
Record Env : Type := mkEnv {
  now : Z;
  random : nat -> Q;
  stringToNumber : string -> option Q;
  dateParse : string -> option Z
}.

(** [ToNumber] *)
Definition toNumber (env : Env) (v : option Val) : option Q :=
  match v with
  | None => None
  | Some VNull => Some 0%Q
  | Some (VBool true) => Some 1%Q
  | Some (VBool false) => Some 0%Q
  | Some (VNum n) => n
  | Some (VStr s) => stringToNumber env s
  | Some (VDate t) => inject_Z <$> t
  | Some (VObj _) => None
  end.

(** [TimeClip]: a time value lies within 8.64e15 ms of the epoch;
    anything beyond makes an invalid date. *)
Definition timeClip (t : Z) : option Z :=
  if Z.abs t <=? 8640000000000000 then Some t else None.

(** The time value of [new Date(v)]. *)
Definition newDate (env : Env) (v : option Val) : option Z :=
  match v with
  | None => None
  | Some VNull => Some 0
  | Some (VBool true) => Some 1
  | Some (VBool false) => Some 0
  | Some (VNum n) =>
      match n with
      | Some q => timeClip (Z.quot (Qnum q) (Z.pos (Qden q)))
      | None => None
      end
  | Some (VStr s) => dateParse env s
  | Some (VDate t) => t
  | Some (VObj _) => None
  end.

(** ** The engine's own records *)

Record HistoryEntry : Type := mkHistoryEntry {
  he_stage : Val;
  he_timestamp : Z;
  he_reason : string
}.

(** A piece of a message text: literal text, an interpolated number, or a
    date printed by [toLocaleDateString]. *)
Inductive MsgPart : Type :=
| Text (s : string)
| NumberText (n : option Q)
| LocaleDate (t : Z).

Record PendingAction : Type := mkPendingAction {
  pa_type : string;
  pa_data : gmap string Val;
  pa_priority : string;
  pa_message : list MsgPart;
  pa_id : Q;
  pa_timestamp : Z;
  pa_status : string
}.

(** The functions the engine hands to [setTimeout] and [setInterval]. *)
Inductive Callback : Type :=
| CbAutomationTick
| CbMarketAnalysis
| CbAssignHub
| CbCreateEscrow
| CbShipmentTick
| CbCoordinateDelivery
| CbConfirmReceipt
| CbProcessPayment
| CbReleaseEscrow.

(** An entry of the timer table; its position in the table is its
    handle. *)
Record Timer : Type := mkTimer {
  delay : Z;
  repeats : bool;
  callback : Callback;
  active : bool
}.

(** What leaves the engine: console events of [logWorkflowEvent] (type and
    stage; the text is not kept) and the calls of the two callbacks of its
    owner, [onStateChange] and [onActionRequired], which are taken to
    return without touching the engine or its deal group. *)
Inductive Emission : Type :=
| Log (type : string) (stage : Val)
| StateChange (stage : Val) (history : list HistoryEntry)
| ActionRequired (action : PendingAction).

Record Engine : Type := mkEngine {
  dealGroup : gmap string Val;
  user : gmap string Val;
  currentStage : Val;
  stageHistory : list HistoryEntry;
  pendingActions : list PendingAction;
  workflowTimer : option nat;
  autoProgressEnabled : bool;
  timers : list Timer;
  emitted : list Emission
}.

Definition withDealGroup (dg : gmap string Val) (e : Engine) : Engine :=
  mkEngine dg (user e) (currentStage e) (stageHistory e) (pendingActions e)
    (workflowTimer e) (autoProgressEnabled e) (timers e) (emitted e).

Definition withCurrentStage (s : Val) (e : Engine) : Engine :=
  mkEngine (dealGroup e) (user e) s (stageHistory e) (pendingActions e)
    (workflowTimer e) (autoProgressEnabled e) (timers e) (emitted e).

Definition withStageHistory (h : list HistoryEntry) (e : Engine) : Engine :=
  mkEngine (dealGroup e) (user e) (currentStage e) h (pendingActions e)
    (workflowTimer e) (autoProgressEnabled e) (timers e) (emitted e).

Definition withPendingActions (p : list PendingAction) (e : Engine) : Engine :=
  mkEngine (dealGroup e) (user e) (currentStage e) (stageHistory e) p
    (workflowTimer e) (autoProgressEnabled e) (timers e) (emitted e).

Definition withWorkflowTimer (t : option nat) (e : Engine) : Engine :=
  mkEngine (dealGroup e) (user e) (currentStage e) (stageHistory e) (pendingActions e)
    t (autoProgressEnabled e) (timers e) (emitted e).

Definition withAutoProgress (b : bool) (e : Engine) : Engine :=
  mkEngine (dealGroup e) (user e) (currentStage e) (stageHistory e) (pendingActions e)
    (workflowTimer e) b (timers e) (emitted e).

Definition withTimers (t : list Timer) (e : Engine) : Engine :=
  mkEngine (dealGroup e) (user e) (currentStage e) (stageHistory e) (pendingActions e)
    (workflowTimer e) (autoProgressEnabled e) t (emitted e).

Definition emit (x : Emission) (e : Engine) : Engine :=
  mkEngine (dealGroup e) (user e) (currentStage e) (stageHistory e) (pendingActions e)
    (workflowTimer e) (autoProgressEnabled e) (timers e) (emitted e ++ [x]).

(** [this.dealGroup.k = v] *)
Definition setField (k : string) (v : Val) (e : Engine) : Engine :=
  withDealGroup (<[k := v]> (dealGroup e)) e.

(** [logWorkflowEvent(type, ...)] *)
Definition logWorkflowEvent (type : string) (e : Engine) : Engine :=
  emit (Log type (currentStage e)) e.

Definition setTimeout (cb : Callback) (ms : Z) (e : Engine) : Engine :=
  withTimers (timers e ++ [mkTimer ms false cb true]) e.

Definition setInterval (cb : Callback) (ms : Z) (e : Engine) : Engine :=
  withTimers (timers e ++ [mkTimer ms true cb true]) e.

(** ** The rule table *)

Record StageRules : Type := mkStageRules {
  autoActions : option (list string);
  triggers : option (list string);
  nextStage : option string;
  conditions : option (list string)
}.

(** The property names every object inherits from [Object.prototype]:
    looking one of them up in the rule table yields an object that is not
    a rule and has none of a rule's properties. *)
Definition inheritedKeys : list string :=
  ["constructor"; "__proto__"; "hasOwnProperty"; "isPrototypeOf";
   "propertyIsEnumerable"; "toLocaleString"; "toString"; "valueOf";
   "__defineGetter__"; "__defineSetter__"; "__lookupGetter__";
   "__lookupSetter__"].

(** [initializeAutomationRules()], read at a key. *)
Definition rulesFor (stage : string) : option StageRules :=
  if String.eqb stage "NEGOTIATING" then
    Some (mkStageRules
      (Some ["check_poll_status"; "suggest_counter_offers"; "market_analysis"])
      (Some ["poll_expired"; "consensus_reached"; "deadline_approaching"])
      (Some "ACCEPTED")
      (Some ["poll_consensus"; "price_agreement"; "quantity_confirmed"]))
  else if String.eqb stage "ACCEPTED" then
    Some (mkStageRules
      (Some ["assign_logistics_hub"; "create_escrow_contract"; "notify_buyer"])
      (Some ["escrow_deposited"; "hub_assigned"; "collection_scheduled"])
      (Some "IN_TRANSIT")
      (Some ["escrow_confirmed"; "logistics_ready"; "collection_confirmed"]))
  else if String.eqb stage "IN_TRANSIT" then
    Some (mkStageRules
      (Some ["track_shipment"; "update_status"; "coordinate_delivery"])
      (Some ["shipment_picked"; "in_transit"; "delivery_imminent"])
      (Some "DELIVERED")
      (Some ["shipment_confirmed"; "delivery_scheduled"; "receipt_ready"]))
  else if String.eqb stage "DELIVERED" then
    Some (mkStageRules
      (Some ["confirm_receipt"; "process_payment"; "release_escrow"])
      (Some ["receipt_confirmed"; "payment_processed"; "escrow_released"])
      (Some "COMPLETED")
      (Some ["receipt_verified"; "payment_completed"; "escrow_cleared"]))
  else if existsb (String.eqb stage) inheritedKeys then
    Some (mkStageRules None None None None)
  else None.

(** [this.automationRules[this.currentStage]]: a stage that is not a
    string is turned into a property key that names no rule. *)
Definition automationRules (stage : Val) : option StageRules :=
  match stage with
  | VStr s => rulesFor s
  | _ => None
  end.

(** ** The condition checks

    The arithmetic of the checks is exact.  The code computes in
    floating point, which gives the same answers on whole numbers of
    moderate size and can give other answers on decimal fractions. *)

Definition checkPollConsensus (env : Env) (e : Engine) : bool :=
  let poll := dealGroup e !! "active_poll" in
  if negb (truthy poll) then false
  else
    let totalVotes := orElse (prop poll "total_votes") (Some (VNum (Some 0%Q))) in
    let requiredVotes :=
      orElse (dealGroup e !! "members_count") (Some (VNum (Some 1%Q))) in
    atLeast (div (toNumber env totalVotes) (toNumber env requiredVotes)) (3 # 4).

Definition checkPriceAgreement (env : Env) (e : Engine) : bool :=
  let targetPrice := dealGroup e !! "target_price_per_kg" in
  let currentOffer := prop (dealGroup e !! "current_offer") "price_per_kg" in
  if negb (truthy targetPrice) || negb (truthy currentOffer) then false
  else
    let priceDifference :=
      div (absN (subN (toNumber env currentOffer) (toNumber env targetPrice)))
          (toNumber env targetPrice) in
    atMost priceDifference (1 # 10).

Definition checkQuantityConfirmed (env : Env) (e : Engine) : bool :=
  let requiredQuantity := dealGroup e !! "total_quantity_kg" in
  let confirmedQuantity :=
    orElse (dealGroup e !! "confirmed_quantity_kg") (Some (VNum (Some 0%Q))) in
  geN (toNumber env confirmedQuantity)
      (mulN (toNumber env requiredQuantity) (Some (9 # 10))).

Definition checkEscrowConfirmed (e : Engine) : bool :=
  isString (dealGroup e !! "escrow_status") "CONFIRMED".

Definition checkLogisticsReady (e : Engine) : bool :=
  isString (dealGroup e !! "logistics_status") "READY".

Definition checkCollectionConfirmed (e : Engine) : bool :=
  isString (dealGroup e !! "collection_status") "CONFIRMED".

Definition checkShipmentConfirmed (e : Engine) : bool :=
  isString (dealGroup e !! "shipment_status") "CONFIRMED".

Definition checkDeliveryScheduled (e : Engine) : bool :=
  isTrue (dealGroup e !! "delivery_scheduled").

Definition checkReceiptVerified (e : Engine) : bool :=
  isString (dealGroup e !! "receipt_status") "VERIFIED".

Definition checkPaymentCompleted (e : Engine) : bool :=
  isString (dealGroup e !! "payment_status") "COMPLETED".

Definition checkEscrowCleared (e : Engine) : bool :=
  isString (dealGroup e !! "escrow_status") "RELEASED".

(** The [switch] inside [checkStageConditions]. *)
Definition conditionResult (env : Env) (e : Engine) (condition : string) : bool :=
  if String.eqb condition "poll_consensus" then checkPollConsensus env e
  else if String.eqb condition "price_agreement" then checkPriceAgreement env e
  else if String.eqb condition "quantity_confirmed" then checkQuantityConfirmed env e
  else if String.eqb condition "escrow_confirmed" then checkEscrowConfirmed e
  else if String.eqb condition "logistics_ready" then checkLogisticsReady e
  else if String.eqb condition "collection_confirmed" then checkCollectionConfirmed e
  else if String.eqb condition "shipment_confirmed" then checkShipmentConfirmed e
  else if String.eqb condition "delivery_scheduled" then checkDeliveryScheduled e
  else if String.eqb condition "receipt_verified" then checkReceiptVerified e
  else if String.eqb condition "payment_completed" then checkPaymentCompleted e
  else if String.eqb condition "escrow_cleared" then checkEscrowCleared e
  else false.

Definition checkStageConditions (env : Env) (e : Engine)
    (conditions : option (list string)) : bool :=
  match conditions with
  | None | Some [] => true
  | Some l => forallb (conditionResult env e) l
  end.

(** ** Pending actions *)

Definition addPendingAction (env : Env) (type : string) (data : gmap string Val)
    (priority : string) (message : list MsgPart) (e : Engine) : Engine :=
  let action :=
    mkPendingAction type data priority message
      (inject_Z (now env) + random env (length (pendingActions e)))%Q
      (now env) "pending" in
  logWorkflowEvent "ACTION_ADDED"
    (emit (ActionRequired action)
       (withPendingActions (pendingActions e ++ [action]) e)).

(** [priorityOrder[p]] *)
Definition priorityOrder (p : string) : Js.Number :=
  if String.eqb p "high" then Some 3
  else if String.eqb p "medium" then Some 2
  else if String.eqb p "low" then Some 1
  else None.

Definition comparePriority (a b : PendingAction) : Js.Number :=
  Js.sub (priorityOrder (pa_priority b)) (priorityOrder (pa_priority a)).

Definition checkPendingActions (e : Engine) : Engine :=
  if Nat.eqb (length (pendingActions e)) 0 then e
  else
    let e1 := logWorkflowEvent "PENDING_ACTIONS_CHECK" e in
    withPendingActions (Js.sort comparePriority (pendingActions e1)) e1.

Definition notifyPollDeadline (env : Env) (e : Engine) : Engine :=
  addPendingAction env "POLL_DEADLINE_APPROACHING"
    {["hoursLeft" := VNum (Some 2%Q)]} "high"
    [Text "Poll deadline approaching! Please vote within 2 hours."] e.

(** ** Auto-actions that only touch the engine *)

Definition suggestCounterOffers (env : Env) (e : Engine) : Engine :=
  if negb (isString (user e !! "role") "FARMER") then e
  else
    let currentOffer := dealGroup e !! "current_offer" in
    match currentOffer with
    | None => e
    | Some offer =>
        if negb (truthy currentOffer) then e
        else
          let targetPrice := dealGroup e !! "target_price_per_kg" in
          let suggestedPrice := mulN (toNumber env targetPrice) (Some (21 # 20)) in
          addPendingAction env "COUNTER_OFFER_SUGGESTION"
            (<["suggestedPrice" := VNum suggestedPrice]>
               (<["currentOffer" := offer]> ∅))
            "high"
            [Text "Consider making a counter offer of â‚¹";
             NumberText suggestedPrice; Text "/kg"]
            (logWorkflowEvent "COUNTER_OFFER_SUGGESTION" e)
    end.

Definition performMarketAnalysis (e : Engine) : Engine :=
  setTimeout CbMarketAnalysis 2000 (logWorkflowEvent "MARKET_ANALYSIS" e).

Definition assignLogisticsHub (e : Engine) : Engine :=
  setTimeout CbAssignHub 1500 (logWorkflowEvent "LOGISTICS_HUB_ASSIGNMENT" e).

Definition createEscrowContract (e : Engine) : Engine :=
  setTimeout CbCreateEscrow 2000 (logWorkflowEvent "ESCROW_CONTRACT_CREATION" e).

Definition notifyBuyer (env : Env) (e : Engine) : Engine :=
  let e1 := logWorkflowEvent "BUYER_NOTIFICATION" e in
  addPendingAction env "BUYER_NOTIFICATION"
    (<["stage" := currentStage e1]> (<["action" := VStr "required"]> ∅))
    "medium" [Text "Buyer notified of stage progression"] e1.

Definition trackShipment (e : Engine) : Engine :=
  setInterval CbShipmentTick 30000 (logWorkflowEvent "SHIPMENT_TRACKING" e).

Definition updateStatus (e : Engine) : Engine :=
  let e1 := logWorkflowEvent "STATUS_UPDATE" e in
  emit (StateChange (currentStage e1) (stageHistory e1)) e1.

Definition coordinateDelivery (e : Engine) : Engine :=
  setTimeout CbCoordinateDelivery 1000 (logWorkflowEvent "DELIVERY_COORDINATION" e).

Definition confirmReceipt (e : Engine) : Engine :=
  setTimeout CbConfirmReceipt 1500 (logWorkflowEvent "RECEIPT_CONFIRMATION" e).

Definition processPayment (e : Engine) : Engine :=
  setTimeout CbProcessPayment 2000 (logWorkflowEvent "PAYMENT_PROCESSING" e).

Definition releaseEscrow (e : Engine) : Engine :=
  setTimeout CbReleaseEscrow 1500 (logWorkflowEvent "ESCROW_RELEASE" e).

(** ** Stage progression

    [analyzeCurrentStage] and [progressToNextStage] call each other.  The
    functions below take the analysis of the next stage as the argument
    [analyze]; [analyzeCurrentStage] closes the loop.  A result of [None]
    means the recursion budget ran out. *)

Section Progression.

Variable analyze : Engine -> option Engine.
Variable env : Env.

Definition progressToNextStage (e : Engine) : option Engine :=
  match automationRules (currentStage e) with
  | None => Some e
  | Some currentRules =>
      match nextStage currentRules with
      | None => Some e
      | Some next =>
          let e1 := logWorkflowEvent "STAGE_PROGRESSION" e in
          let e2 :=
            withStageHistory
              (stageHistory e1
               ++ [mkHistoryEntry (currentStage e1) (now env) "Automated progression"])
              e1 in
          let e3 := withCurrentStage (VStr next) e2 in
          let e4 := emit (StateChange (currentStage e3) (stageHistory e3)) e3 in
          analyze e4
      end
  end.

Definition handlePollExpiry (e : Engine) : option Engine :=
  let e1 := logWorkflowEvent "POLL_EXPIRY_HANDLED" e in
  if checkPollConsensus env e1 then
    progressToNextStage (logWorkflowEvent "CONSENSUS_REACHED" e1)
  else
    Some (addPendingAction env "POLL_EXPIRED_NO_CONSENSUS"
            {["reason" := VStr "No consensus reached"]} "high"
            [Text "Poll expired without consensus. Deal may need renegotiation."]
            (logWorkflowEvent "NO_CONSENSUS" e1)).

(** [now > expiry] *)
Definition pollExpired (e : Engine) : bool :=
  match newDate env (prop (dealGroup e !! "active_poll") "expires_at") with
  | Some expiry => expiry <? now env
  | None => false
  end.

(** [hoursLeft <= 2] *)
Definition pollDeadlineNear (e : Engine) : bool :=
  match newDate env (prop (dealGroup e !! "active_poll") "expires_at") with
  | Some expiry =>
      Qle_bool (inject_Z (expiry - now env) / inject_Z (1000 * 60 * 60))%Q 2%Q
  | None => false
  end.

Definition checkPollStatus (e : Engine) : option Engine :=
  if negb (truthy (dealGroup e !! "active_poll")) then Some e
  else if pollExpired e then
    handlePollExpiry (logWorkflowEvent "POLL_EXPIRED" e)
  else if pollDeadlineNear e then
    Some (notifyPollDeadline env (logWorkflowEvent "POLL_DEADLINE_APPROACHING" e))
  else Some e.

(** One round of the [forEach] in [executeAutoActions]. *)
Definition executeAutoAction (action : string) (e : Engine) : option Engine :=
  let e1 := logWorkflowEvent "AUTO_ACTION" e in
  if String.eqb action "check_poll_status" then checkPollStatus e1
  else if String.eqb action "suggest_counter_offers" then Some (suggestCounterOffers env e1)
  else if String.eqb action "market_analysis" then Some (performMarketAnalysis e1)
  else if String.eqb action "assign_logistics_hub" then Some (assignLogisticsHub e1)
  else if String.eqb action "create_escrow_contract" then Some (createEscrowContract e1)
  else if String.eqb action "notify_buyer" then Some (notifyBuyer env e1)
  else if String.eqb action "track_shipment" then Some (trackShipment e1)
  else if String.eqb action "update_status" then Some (updateStatus e1)
  else if String.eqb action "coordinate_delivery" then Some (coordinateDelivery e1)
  else if String.eqb action "confirm_receipt" then Some (confirmReceipt e1)
  else if String.eqb action "process_payment" then Some (processPayment e1)
  else if String.eqb action "release_escrow" then Some (releaseEscrow e1)
  else Some e1.

Fixpoint forEachAction (actions : list string) (e : Engine) : option Engine :=
  match actions with
  | [] => Some e
  | action :: rest =>
      match executeAutoAction action e with
      | Some e1 => forEachAction rest e1
      | None => None
      end
  end.

Definition executeAutoActions (actions : option (list string)) (e : Engine)
    : option Engine :=
  match actions with
  | None => Some e
  | Some l => forEachAction l e
  end.

(** The body of [analyzeCurrentStage]. *)
Definition analyzeStage (e : Engine) : option Engine :=
  match automationRules (currentStage e) with
  | None => Some e
  | Some stageRules =>
      let e1 := logWorkflowEvent "STAGE_ANALYSIS" e in
      if checkStageConditions env e1 (conditions stageRules) then
        progressToNextStage (logWorkflowEvent "CONDITIONS_MET" e1)
      else
        match executeAutoActions (autoActions stageRules) e1 with
        | Some e2 => Some (checkPendingActions e2)
        | None => None
        end
  end.

End Progression.

(** [analyzeCurrentStage()], with a budget for the nested analyses. *)
Fixpoint analyzeCurrentStage (fuel : nat) (env : Env) (e : Engine) : option Engine :=
  match fuel with
  | O => None
  | S fuel' => analyzeStage (analyzeCurrentStage fuel' env) env e
  end.

(** ** Timers *)

Definition startAutomationTimer (e : Engine) : Engine :=
  withWorkflowTimer (Some (length (timers e))) (setInterval CbAutomationTick 30000 e).

(** [clearInterval(handle)] *)
Definition clearInterval (handle : nat) (e : Engine) : Engine :=
  withTimers
    (alter (fun t => mkTimer (delay t) (repeats t) (callback t) false) handle (timers e))
    e.

Definition stopAutomationTimer (e : Engine) : Engine :=
  match workflowTimer e with
  | Some handle => withWorkflowTimer None (clearInterval handle e)
  | None => e
  end.

(** What a timer callback does when the browser runs it. *)
Definition runCallback (fuel : nat) (env : Env) (cb : Callback) (e : Engine)
    : option Engine :=
  match cb with
  | CbAutomationTick =>
      if autoProgressEnabled e then analyzeCurrentStage fuel env e else Some e
  | CbMarketAnalysis =>
      Some (addPendingAction env "MARKET_INSIGHTS"
              (<["marketTrend" := VStr "stable"]>
                 (<["priceRange" := VStr "â‚¹45-55/kg"]> ∅))
              "medium"
              [Text "Market analysis shows stable prices in â‚¹45-55/kg range"]
              (logWorkflowEvent "MARKET_ANALYSIS_COMPLETE" e))
  | CbAssignHub =>
      let e1 := logWorkflowEvent "LOGISTICS_HUB_ASSIGNED" e in
      let e2 := setField "logistics_status" (VStr "READY") e1 in
      let e3 := setField "assigned_hub" (VStr "Central Hub - Mumbai") e2 in
      Some (addPendingAction env "HUB_ASSIGNED"
              (<["hub" := VStr "Central Hub - Mumbai"]>
                 (<["location" := VStr "Mumbai"]> ∅))
              "high"
              [Text "Logistics hub assigned: Central Hub - Mumbai"] e3)
  | CbCreateEscrow =>
      let e1 := logWorkflowEvent "ESCROW_CONTRACT_CREATED" e in
      let e2 := setField "escrow_status" (VStr "PENDING") e1 in
      let data : gmap string Val := {["contractId" := VStr "ESC-2024-001"]} in
      Some (addPendingAction env "ESCROW_CONTRACT_READY"
              (match dealGroup e2 !! "total_value" with
               | Some amount => <["amount" := amount]> data
               | None => data
               end)
              "high"
              [Text "Escrow contract ready for buyer confirmation"] e2)
  | CbShipmentTick =>
      let e1 := logWorkflowEvent "SHIPMENT_STATUS_UPDATE" e in
      let e2 := setField "shipment_status" (VStr "IN_TRANSIT") e1 in
      let e3 :=
        setField "estimated_delivery"
          (VDate (Some (now env + 24 * 60 * 60 * 1000))) e2 in
      Some (emit (StateChange (currentStage e3) (stageHistory e3)) e3)
  | CbCoordinateDelivery =>
      let e1 := logWorkflowEvent "DELIVERY_COORDINATED" e in
      let e2 := setField "delivery_scheduled" (VBool true) e1 in
      let date := now env + 2 * 24 * 60 * 60 * 1000 in
      let e3 := setField "delivery_date" (VDate (Some date)) e2 in
      Some (addPendingAction env "DELIVERY_SCHEDULED"
              {["deliveryDate" := VDate (Some date)]} "high"
              [Text "Delivery scheduled for "; LocaleDate date] e3)
  | CbConfirmReceipt =>
      let e1 := logWorkflowEvent "RECEIPT_CONFIRMED" e in
      let e2 := setField "receipt_status" (VStr "VERIFIED") e1 in
      Some (addPendingAction env "RECEIPT_VERIFIED"
              {["receiptId" := VStr "RCP-2024-001"]} "high"
              [Text "Receipt verified successfully"] e2)
  | CbProcessPayment =>
      let e1 := logWorkflowEvent "PAYMENT_PROCESSED" e in
      let e2 := setField "payment_status" (VStr "COMPLETED") e1 in
      Some (addPendingAction env "PAYMENT_COMPLETED"
              {["transactionId" := VStr "TXN-2024-001"]} "high"
              [Text "Payment processed successfully"] e2)
  | CbReleaseEscrow =>
      let e1 := logWorkflowEvent "ESCROW_RELEASED" e in
      let e2 := setField "escrow_status" (VStr "RELEASED") e1 in
      Some (addPendingAction env "ESCROW_RELEASED"
              {["releaseId" := VStr "REL-2024-001"]} "high"
              [Text "Escrow released to farmers"] e2)
  end.

(** ** Construction and the remaining methods *)

(** [dealGroup?.status || 'NEGOTIATING'] *)
Definition initialStage (dealGroup : gmap string Val) : Val :=
  match orElse (dealGroup !! "status") (Some (VStr "NEGOTIATING")) with
  | Some v => v
  | None => VStr "NEGOTIATING"
  end.

(** [new WorkflowEngine(dealGroup, user, ...)] *)
Definition construct (fuel : nat) (env : Env) (dealGroup user : gmap string Val)
    : option Engine :=
  let e0 :=
    mkEngine dealGroup user (initialStage dealGroup) [] [] None true [] [] in
  match analyzeCurrentStage fuel env (logWorkflowEvent "WORKFLOW_INITIALIZED" e0) with
  | Some e1 => Some (startAutomationTimer e1)
  | None => None
  end.

(** ** The vocabulary of the stage-order properties *)

(** The fixed linear order of the stages:
    NEGOTIATING, ACCEPTED, IN_TRANSIT, DELIVERED, COMPLETED. *)
Definition linearSuccessor (stage : string) : option string :=
  if String.eqb stage "NEGOTIATING" then Some "ACCEPTED"
  else if String.eqb stage "ACCEPTED" then Some "IN_TRANSIT"
  else if String.eqb stage "IN_TRANSIT" then Some "DELIVERED"
  else if String.eqb stage "DELIVERED" then Some "COMPLETED"
  else None.

(** Every condition the rule table lists for the current stage evaluates
    to [true]. *)
Definition allConditionsHold (env : Env) (e : Engine) : Prop :=
  exists rules conds,
    automationRules (currentStage e) = Some rules
    /\ conditions rules = Some conds
    /\ Forall (fun c => conditionResult env e c = true) conds.

(** The deal group has an active poll that has expired and on which
    consensus was reached. *)
Definition expiredPollWithConsensus (env : Env) (e : Engine) : Prop :=
  truthy (dealGroup e !! "active_poll") = true
  /\ pollExpired env e = true
  /\ checkPollConsensus env e = true.

(** What allows the engine to leave its current stage. *)
Definition mayAdvance (env : Env) (e : Engine) : Prop :=
  allConditionsHold env e
  \/ (currentStage e = VStr "NEGOTIATING" /\ expiredPollWithConsensus env e).

(** [left] lists, in order, the stages left on the way from [from] to
    [to]: each was left for its immediate successor in the linear order,
    at a moment it could be left. *)
Fixpoint advances (env : Env) (e : Engine) (from : Val) (left : list Val) (to : Val)
    : Prop :=
  match left with
  | [] => to = from
  | stage :: rest =>
      stage = from
      /\ exists name next,
          from = VStr name
          /\ linearSuccessor name = Some next
          /\ mayAdvance env (withCurrentStage from e)
          /\ advances env e (VStr next) rest to
  end.

(** What decides about transitions and what records them. *)
Definition core (e : Engine) : gmap string Val * Val * list HistoryEntry :=
  (dealGroup e, currentStage e, stageHistory e).

(** From [e] to [e'] the deal group is untouched, and the stage history
    grew by the stages left on the way to the current stage of [e']. *)
Definition followsOrder (env : Env) (e e' : Engine) : Prop :=
  dealGroup e' = dealGroup e
  /\ exists h,
      stageHistory e' = stageHistory e ++ h
      /\ advances env e (currentStage e) (List.map he_stage h) (currentStage e').

(** A bound on the nested analyses a stage can set off, itself
    included: the number of stages from it to the end of the order. *)
Definition analysisDepth (stage : Val) : nat :=
  match stage with
  | VStr s =>
      if String.eqb s "NEGOTIATING" then 5
      else if String.eqb s "ACCEPTED" then 4
      else if String.eqb s "IN_TRANSIT" then 3
      else if String.eqb s "DELIVERED" then 2
      else 1
  | _ => 1
  end.

(** ** Sample data *)

(** Noon of 1 May 2024 (UTC) on the clock; the runtime reads one date
    string, an hour earlier. *)
Definition sampleEnv : Env :=
  mkEnv 1714564800000 (fun k => (1 # Pos.of_succ_nat (S k))%Q) (fun _ => None)
    (fun s => if String.eqb s "2024-05-01T11:00:00Z" then Some 1714561200000
              else None).

(** A deal group whose poll expired with all four members in favour, and
    for which no price has been agreed. *)
Definition expiredPollGroup : gmap string Val :=
  <["id" := VNum (Some 12%Q)]>
    (<["status" := VStr "NEGOTIATING"]>
       (<["members_count" := VNum (Some 4%Q)]>
          (<["active_poll" :=
               VObj (<["total_votes" := VNum (Some 4%Q)]>
                       (<["expires_at" := VStr "2024-05-01T11:00:00Z"]> ∅))]> ∅))).

(** A deal group that meets the three conditions of NEGOTIATING: an offer
    of 52 on a target of 50, and 950 of 1000 kg confirmed. *)
Definition agreedGroup : gmap string Val :=
  <["target_price_per_kg" := VNum (Some 50%Q)]>
    (<["current_offer" := VObj {["price_per_kg" := VNum (Some 52%Q)]}]>
       (<["total_quantity_kg" := VNum (Some 1000%Q)]>
          (<["confirmed_quantity_kg" := VNum (Some 950%Q)]> expiredPollGroup))).

(** The same deal group with escrow, logistics and collection settled as
    well. *)
Definition settledGroup : gmap string Val :=
  <["escrow_status" := VStr "CONFIRMED"]>
    (<["logistics_status" := VStr "READY"]>
       (<["collection_status" := VStr "CONFIRMED"]> agreedGroup)).

(** An engine in stage NEGOTIATING that has not done anything yet. *)
Definition negotiating (dealGroup : gmap string Val) : Engine :=
  mkEngine dealGroup {["role" := VStr "FARMER"]} (VStr "NEGOTIATING")
    [] [] None true [] [].

Definition setAutoProgress (enabled : bool) (e : Engine) : Engine :=
  logWorkflowEvent "AUTO_PROGRESS_TOGGLED" (withAutoProgress enabled e).

Definition destroy (e : Engine) : Engine :=
  logWorkflowEvent "WORKFLOW_DESTROYED" (stopAutomationTimer e).

End WorkflowEngine.

(* ===================================================================== *)
(** * AIAgentSystem.js: the conversation-context log                      *)
(* ===================================================================== *)

Module AIAgentSystem.

(** [stageGuidance[stage]] of [initializeResponseTemplates()]. *)
Definition stageGuidance (stage : string) : option (list string) :=
  if String.eqb stage "NEGOTIATING" then
    Some ["We're in the negotiation phase. Consider these factors for the best deal:";
          "During negotiations, focus on price, quality, and delivery terms.";
          "Remember: a good deal benefits both parties. Let's find the sweet spot!"]
  else if String.eqb stage "ACCEPTED" then
    Some ["Great! Deal accepted. Now let's handle logistics and payments.";
          "Excellent! The hard part is done. Let's get your produce moving.";
          "Perfect! Now we ensure smooth delivery and payment processing."]
  else if String.eqb stage "IN_TRANSIT" then
    Some ["Your produce is on the move! Let's track its journey.";
          "Shipment in progress! We'll keep you updated on delivery status.";
          "Transportation active! Estimated delivery: {delivery_date}."]
  else if String.eqb stage "DELIVERED" then
    Some ["Delivery completed! Time to confirm receipt and process payment.";
          "Great news! Your produce has arrived. Let's finalize everything.";
          "Delivery successful! Now let's complete the payment process."]
  else None.

Section Agent.

(** The message objects handed in by the chat view, the replies the agent
    builds, and everything outside the agent that a call can observe (the
    clock, [Math.random], the deal group and the workflow status). *)
Variables UserMessage Reply World : Type.

(** [Date.now()] *)
Variable clock : World -> Z.
(** [Math.floor(Math.random() * n)] *)
Variable randomIndex : World -> nat -> nat.
(** [generateResponse(analyzeIntent(userMessage.content), userMessage)]
    for a message whose [content] is a string; it reads the deal group and
    the workflow status, never the context. *)
Variable generateResponse : World -> UserMessage -> Reply.

Inductive Data : Type :=
| UserData (m : UserMessage)
| ReplyData (r : Reply)
| GuidanceData (stage content : string).

Record ContextEntry : Type := mkContextEntry {
  ce_type : string;
  ce_data : Data;
  ce_timestamp : Z
}.

(** [arr.slice(-n)] *)
Definition sliceLast (n : nat) (arr : list ContextEntry) : list ContextEntry :=
  drop (length arr - n) arr.

(** [addToContext(type, data)] on [this.conversationContext]. *)
Definition addToContext (w : World) (type : string) (data : Data)
    (conversationContext : list ContextEntry) : list ContextEntry :=
  let pushed := conversationContext ++ [mkContextEntry type data (clock w)] in
  if (50 <? length pushed)%nat then sliceLast 50 pushed else pushed.

(** The last element of [ctx.filter(c => c.type === 'stage_guidance')]. *)
Definition lastGuidance (ctx : list ContextEntry) : option ContextEntry :=
  last (List.filter (fun c => String.eqb (ce_type c) "stage_guidance") ctx).

Definition shouldProvideGuidance (w : World) (ctx : list ContextEntry) : bool :=
  match lastGuidance ctx with
  | None => true
  | Some g => (10 * 60 * 1000 <? clock w - ce_timestamp g)%Z
  end.

(** [generateStageGuidance(stage)]: nothing is recorded for a stage
    without templates.  None of the stage templates contains the
    placeholder [{stage}], so [processTemplate] returns the template. *)
Definition generateStageGuidance (w : World) (stage : string)
    (ctx : list ContextEntry) : list ContextEntry :=
  match stageGuidance stage with
  | None => ctx
  | Some templates =>
      match templates !! randomIndex w (length templates) with
      | Some content => addToContext w "stage_guidance" (GuidanceData stage content) ctx
      | None => ctx
      end
  end.

(** [checkWorkflowProgress()], for the stage the workflow engine reports;
    the notifications about pending actions do not touch the context. *)
Definition checkWorkflowProgress (w : World) (stage : string)
    (ctx : list ContextEntry) : list ContextEntry :=
  if shouldProvideGuidance w ctx then generateStageGuidance w stage ctx else ctx.

Definition processUserMessage (w : World) (userMessage : UserMessage)
    (ctx : list ContextEntry) : list ContextEntry :=
  let ctx1 := addToContext w "user_message" (UserData userMessage) ctx in
  let response := generateResponse w userMessage in
  addToContext w "ai_response" (ReplyData response) ctx1.

(** The public operations of the class, as far as the context goes. *)
Inductive Op : Type :=
| AddToContext (type : string) (data : Data)
| ProcessUserMessage (m : UserMessage)
| GenerateStageGuidance (stage : string)
| CheckWorkflowProgress (stage : string)
| GenerateWelcomeMessage
| CheckMarketConditions
| CheckDeadlines
| GetAIStatus
| UpdateUserPreferences
| Destroy.

(** One call, made in the surroundings [w]. *)
Definition step (w : World) (op : Op) (ctx : list ContextEntry) : list ContextEntry :=
  match op with
  | AddToContext type data => addToContext w type data ctx
  | ProcessUserMessage m => processUserMessage w m ctx
  | GenerateStageGuidance stage => generateStageGuidance w stage ctx
  | CheckWorkflowProgress stage => checkWorkflowProgress w stage ctx
  | GenerateWelcomeMessage | CheckMarketConditions | CheckDeadlines
  | GetAIStatus | UpdateUserPreferences => ctx
  | Destroy => []
  end.

(** The entries a call pushes, in order. *)
Definition pushedBy (w : World) (op : Op) (ctx : list ContextEntry) : list ContextEntry :=
  match op with
  | AddToContext type data => [mkContextEntry type data (clock w)]
  | ProcessUserMessage m =>
      [mkContextEntry "user_message" (UserData m) (clock w);
       mkContextEntry "ai_response" (ReplyData (generateResponse w m)) (clock w)]
  | GenerateStageGuidance stage =>
      match stageGuidance stage with
      | Some templates =>
          match templates !! randomIndex w (length templates) with
          | Some content =>
              [mkContextEntry "stage_guidance" (GuidanceData stage content) (clock w)]
          | None => []
          end
      | None => []
      end
  | CheckWorkflowProgress stage =>
      if shouldProvideGuidance w ctx then
        match stageGuidance stage with
        | Some templates =>
            match templates !! randomIndex w (length templates) with
            | Some content =>
                [mkContextEntry "stage_guidance" (GuidanceData stage content) (clock w)]
            | None => []
            end
        | None => []
        end
      else []
  | _ => []
  end.

(** A sequence of calls on an agent whose context is [ctx]; next to the
    context, the second component keeps every entry pushed since the
    construction of the agent or its last [destroy()]. *)
Fixpoint run (calls : list (World * Op)) (ctx pushed : list ContextEntry)
    : list ContextEntry * list ContextEntry :=
  match calls with
  | [] => (ctx, pushed)
  | (w, op) :: rest =>
      run rest (step w op ctx)
        (match op with
         | Destroy => []
         | _ => pushed ++ pushedBy w op ctx
         end)
  end.

End Agent.

End AIAgentSystem.

(* ===================================================================== *)
(** * The stage engine over its lifetime                                  *)
(* ===================================================================== *)

Module EngineRuns.
Import WorkflowEngine.

(** What happens to an engine once it is built: the browser runs one of
    its timer callbacks, or its owner calls [setAutoProgress] or
    [destroy]. *)
Inductive Event : Type :=
| Fires (cb : Callback)
| SetAutoProgress (enabled : bool)
| Destroy.

Definition occur (fuel : nat) (env : Env) (ev : Event) (e : Engine) : option Engine :=
  match ev with
  | Fires cb => runCallback fuel env cb e
  | SetAutoProgress enabled => Some (setAutoProgress enabled e)
  | Destroy => Some (destroy e)
  end.

(** A sequence of events, each in its own surroundings.  Whether a timer
    for a callback is pending when it fires is not looked at, so the
    sequences include every one a browser can produce. *)
Fixpoint run (fuel : nat) (events : list (Env * Event)) (e : Engine) : option Engine :=
  match events with
  | [] => Some e
  | (env, ev) :: rest =>
      match occur fuel env ev e with
      | Some e1 => run fuel rest e1
      | None => None
      end
  end.

(** [getWorkflowStatus()], without the time of the call. *)
Definition getWorkflowStatus (e : Engine)
    : Val * list HistoryEntry * list PendingAction * bool :=
  (currentStage e, stageHistory e, pendingActions e, autoProgressEnabled e).

(** ** Vocabulary of the lifetime properties *)

(** The stages that precede DELIVERED. *)
Definition beforeDelivery (stage : Val) : Prop :=
  stage = VStr "NEGOTIATING" \/ stage = VStr "ACCEPTED" \/ stage = VStr "IN_TRANSIT".

(** [left] lists the stages left, in order, on the way from [from] to
    [to], each for its immediate successor. *)
Fixpoint inOrder (from : Val) (left : list Val) (to : Val) : Prop :=
  match left with
  | [] => to = from
  | stage :: rest =>
      stage = from
      /\ exists name next,
          from = VStr name
          /\ linearSuccessor name = Some next
          /\ inOrder (VStr next) rest to
  end.

(** A pending action as the engine makes them. *)
Definition fresh (a : PendingAction) : Prop :=
  pa_status a = "pending" /\ (pa_priority a = "high" \/ pa_priority a = "medium").

(** A timer set by an auto-action. *)
Definition actionTimer (t : Timer) : Prop :=
  callback t <> CbAutomationTick /\ active t = true.

(** From [e] to [e'] the engine only scheduled timers, added pending
    actions (possibly reordering the list) and emitted. *)
Definition extends (e e' : Engine) : Prop :=
  user e' = user e
  /\ workflowTimer e' = workflowTimer e
  /\ autoProgressEnabled e' = autoProgressEnabled e
  /\ (exists scheduled,
        timers e' = timers e ++ scheduled /\ Forall actionTimer scheduled)
  /\ (exists added,
        pendingActions e' ≡ₚ pendingActions e ++ added /\ Forall fresh added)
  /\ (exists out, emitted e' = emitted e ++ out).


(** The automation interval as [startAutomationTimer] registers it. *)
Definition automationTimer (isActive : bool) : Timer :=
  mkTimer 30000 true CbAutomationTick isActive.

(** The automation interval is where [workflowTimer] says, and no other
    active timer runs the automation tick. *)
Definition timersConsistent (e : Engine) : Prop :=
  (forall h, workflowTimer e = Some h ->
             exists t, timers e !! h = Some t /\ callback t = CbAutomationTick)
  /\ (forall i t, timers e !! i = Some t -> callback t = CbAutomationTick ->
                  workflowTimer e = Some i \/ active t = false).

(** The callbacks scheduled by the three auto-actions of DELIVERED, and
    the deal-group property each of them sets. *)
Definition settlement : list Callback :=
  [CbConfirmReceipt; CbProcessPayment; CbReleaseEscrow].

Definition settledProperty (cb : Callback) : string * Val :=
  match cb with
  | CbConfirmReceipt => ("receipt_status", VStr "VERIFIED")
  | CbProcessPayment => ("payment_status", VStr "COMPLETED")
  | _ => ("escrow_status", VStr "RELEASED")
  end.

End EngineRuns.

(* ===================================================================== *)
(** * Error bodies and effects of [authFetch]                             *)
(* ===================================================================== *)

Module ErrorBodies.
Import Js.

(** The value of a field of an error body: a single message, as in
    [{"detail": "Not found."}], or an array of messages. *)
Definition fieldValue (v : string + list string) : JSON :=
  match v with
  | inl message => JStr message
  | inr messages => JArr (List.map JStr messages)
  end.

(** The messages such a value stands for. *)
Definition messagesOf (v : string + list string) : list string :=
  match v with
  | inl message => [message]
  | inr messages => messages
  end.

Definition errorBody (fields : list (string * (string + list string))) : JSON :=
  JObj (List.map (fun field => (fst field, fieldValue (snd field))) fields).

(** [response.json()] was called. *)
Definition isBodyRead (e : Api.Effect) : bool :=
  match e with
  | Api.EJson => true
  | Api.EFetch _ _ => false
  end.

End ErrorBodies.

(* ===================================================================== *)
(** * frontend/src/FarmerDashboard.jsx: voting and editing                *)
(* ===================================================================== *)

Module FarmerActions.
Import Js FarmerDashboard.

(** The double quote. *)
Definition quote : string := String (ascii_of_nat 34) EmptyString.


(** The two choices the vote buttons pass. *)
Inductive Choice : Type :=
| Yes
| No.

Definition choiceText (c : Choice) : string :=
  match c with Yes => "YES" | No => "NO" end.

(** [JSON.stringify({ choice })] *)
Definition choiceBody (c : Choice) : string :=
  "{" +:+ quote +:+ "choice" +:+ quote +:+ ":"
  +:+ quote +:+ choiceText c +:+ quote +:+ "}".


(** The text [alert] shows for [result.message]; [None] when reading the
    property raises, which it does on [null]. *)
Definition resultMessage (result : JSON) : option string :=
  match result with
  | JNull => None
  | JObj props =>
      match List.find (fun p => String.eqb (fst p) "message") props with
      | Some p => Some (toString (snd p))
      | None => Some "undefined"
      end
  | _ => Some "undefined"
  end.

Section Handlers.

Variable API_BASE : string.
Variable net : Api.Network.
Variable token : Scalar.
(** The [message] of what the runtime itself throws or rejects with. *)
Variable runtimeMessage : Api.Thrown -> string.

(** [e.message] *)
Definition messageOf (e : Api.Thrown) : string :=
  match e with
  | Api.ErrError message => message
  | _ => runtimeMessage e
  end.

(** The request [fetchPolls] makes. *)
Definition fetchPolls : list UiEvent :=
  requestsOf (fst (Api.authFetch net (API_BASE +:+ "/api/deals/my-polls/") token
                     Api.OptUndefined)).

(** [handleVote(pollId, choice)] of the active-polls panel. *)
Definition handleVote (pollId : Scalar) (choice : Choice) : list UiEvent :=
  let '(effs, outcome) :=
    Api.authFetch net
      (API_BASE +:+ "/api/deals/polls/" +:+ scalarToString pollId +:+ "/vote/") token
      (Api.OptObject
         {| Api.opt_method := Some "POST";
            Api.opt_body := Api.BodyText (choiceBody choice);
            Api.opt_headers := None |}) in
  match outcome with
  | Api.Resolved result =>
      match resultMessage result with
      | Some text => requestsOf effs ++ Alert text :: fetchPolls
      | None =>
          requestsOf effs
          ++ [Alert ("Error casting vote: " +:+ runtimeMessage Api.ErrTypeError)]
      end
  | Api.Rejected err =>
      requestsOf effs ++ [Alert ("Error casting vote: " +:+ messageOf err)]
  end.



End Handlers.

Definition isAlert (ev : UiEvent) : bool :=
  match ev with Alert _ => true | _ => false end.

(** The integers up to [2^53] in absolute value: each of them is a
    floating-point number, [parseInt] returns it from its decimal
    digits, and [String] writes these digits. *)
Definition exactInteger (z : Z) : Prop := Z.abs z <= 2 ^ 53.



(** The seven grades the grade [<select>] offers. *)
Definition grades : list string :=
  ["FAQ"; "Medium"; "Large"; "Local"; "Non-FAQ"; "Ref grade-1"; "Ref grade-2"].

End FarmerActions.

(* ===================================================================== *)
(** * AIAgentSystem.js: the deadline monitor                              *)
(* ===================================================================== *)

Module AgentMonitors.
Import WorkflowEngine.

(** Which of the two deadline messages is generated, with the hours left
    it reports. *)
Inductive DeadlineAlert : Type :=
| UrgentDeadline (hoursLeft : Q)
| CriticalDeadline (hoursLeft : Q).

(** [checkDeadlines()] on the agent's deal group. *)
Definition checkDeadlines (env : Env) (dealGroup : gmap string Val)
    : option DeadlineAlert :=
  let activePoll := dealGroup !! "active_poll" in
  if negb (truthy activePoll) then None
  else
    match newDate env (prop activePoll "expires_at") with
    | None => None
    | Some expiry =>
        let hoursLeft := (inject_Z (expiry - now env) / inject_Z (1000 * 60 * 60))%Q in
        if Qle_bool hoursLeft 1 && negb (Qle_bool hoursLeft 0) then
          Some (UrgentDeadline hoursLeft)
        else if Qle_bool hoursLeft (1 # 2) && negb (Qle_bool hoursLeft 0) then
          Some (CriticalDeadline hoursLeft)
        else None
    end.

End AgentMonitors.

(* ===================================================================== *)
(** * AutomationDashboard.jsx: the progress bar                           *)
(* ===================================================================== *)

From Stdlib Require Qround DecimalPos.

Module AutomationDashboard.
Import Js WorkflowEngine.

Definition stageOrder : list string :=
  ["NEGOTIATING"; "ACCEPTED"; "IN_TRANSIT"; "DELIVERED"; "COMPLETED"].

(** [arr.indexOf(x)] on an array of strings: strict equality, so only a
    string is found; [None] stands for [-1]. *)
Fixpoint indexOfString (arr : list string) (x : string) : option nat :=
  match arr with
  | [] => None
  | y :: rest =>
      if String.eqb y x then Some 0%nat else S <$> indexOfString rest x
  end.

Definition indexOf (arr : list string) (x : Val) : option nat :=
  match x with
  | VStr s => indexOfString arr s
  | _ => None
  end.

(** The integer [q.toFixed(0)] writes: the nearest one, the larger of two
    equally near. *)
Definition toFixed0 (q : Q) : Z := Qround.Qfloor (q + (1 # 2))%Q.

(** The number the progress bar takes as its width in percent. *)
Definition stagePercent (stage : Val) : Z :=
  match indexOf stageOrder stage with
  | Some currentIndex =>
      toFixed0 (inject_Z (Z.of_nat currentIndex + 1)
                / inject_Z (Z.of_nat (length stageOrder)) * 100)%Q
  | None => 0
  end.

(** [getStageProgress(stage)]: the text of [toFixed], or the number [0]. *)
Definition getStageProgress (stage : Val) : Scalar :=
  match indexOf stageOrder stage with
  | Some _ => SStr (decimal (stagePercent stage))
  | None => SNum 0
  end.

End AutomationDashboard.

(* ===================================================================== *)
(** * Sample data                                                         *)
(* ===================================================================== *)

Module Samples.
Import WorkflowEngine EngineRuns.

(** One tick of the automation timer. *)
Definition tick : list (Env * Event) := [(sampleEnv, Fires CbAutomationTick)].

(** The engine after the events, the engine itself when they fail. *)
Definition after (events : list (Env * Event)) (e : Engine) : Engine :=
  default e (run 5 events e).

Definition farmer : gmap string Val := {["role" := VStr "FARMER"]}.

(** The engine the constructor builds for the sample deal group. *)
Definition built : Engine :=
  default (negotiating agreedGroup) (construct 5 sampleEnv agreedGroup farmer).

(** An engine in the given stage that has not done anything yet. *)
Definition inStage (stage : string) (dealGroup : gmap string Val) : Engine :=
  mkEngine dealGroup farmer (VStr stage) [] [] None true [] [].

Definition settlementEvents : list (Env * Event) :=
  [(sampleEnv, Fires CbProcessPayment); (sampleEnv, Fires CbConfirmReceipt);
   (sampleEnv, Fires CbReleaseEscrow); (sampleEnv, Fires CbProcessPayment)].


Definition samplePoll : gmap string Val :=
  <["total_votes" := VNum (Some 4%Q)]>
    (<["expires_at" := VStr "2024-05-01T11:00:00Z"]> ∅).

(** A poll that expires half an hour after the sample clock. *)
Definition closingGroup : gmap string Val :=
  {["active_poll" := VObj {["expires_at" := VNum (Some 1714566600000%Q)]}]}.

End Samples.

Module FormSamples.
Import Js FarmerDashboard FarmerActions.

(** A backend that accepts everything. *)
Definition accepting : Api.Network :=
  fun _ _ => Some (Api.mkResponse 201 (Some (JObj [("message", JStr "ok")]))).

(** A backend that refuses the quantity. *)
Definition refusing : Api.Network :=
  fun _ _ =>
    Some (Api.mkResponse 400
            (Some (Api.fieldErrors [("quantity_kg", ["A valid integer is required."])]))).

(** A backend that answers without a body. *)
Definition silent : Api.Network := fun _ _ => Some (Api.mkResponse 204 None).

Definition filled : FormState := mkFormState "Wheat" "25" "FAQ" None.

Definition nonEmpty (s : string) : bool := negb (String.eqb s "").

Definition listingPost : UiEvent :=
  Request "/api/products/list-product/"
    (Api.mkConfig (Some "POST") (Api.BodyFormData (listingFormData filled))
       {["Authorization" := "Token t"]}).


End FormSamples.

Module AgentSamples.
Import AIAgentSystem.

(** Two questions put to the agent, 20 and 40 seconds after the start. *)
Definition questions : list (Z * Op unit unit) :=
  [(20000, ProcessUserMessage unit unit tt); (40000, ProcessUserMessage unit unit tt)].

(** Twenty-five questions within the first minute. *)
Definition manyQuestions : list (Z * Op unit unit) :=
  List.map (fun n => (2000 * Z.of_nat n, ProcessUserMessage unit unit tt)) (seq 1 25).

End AgentSamples.

Module RoomSamples.
Import Js GroupRoom.

Definition chat : list ChatMsg :=
  [mkChatMsg (SNum 1) (SStr "Hello") (SStr "Asha") SUndefined (SNum 10);
   mkChatMsg (SNum 2) (SStr "Offer?") (SStr "Ravi") SUndefined (SNum 20)].

Definition hist : list HistoryMsg :=
  [mkHistoryMsg (SNum 1) (SStr "joined") (SStr "system") SUndefined (SNum 5)
     (SStr "status");
   mkHistoryMsg (SNum 2) (SStr "Poll opened") (SStr "AI Agent") SUndefined (SNum 20)
     (SStr "poll")].

End RoomSamples.

(* ===================================================================== *)
(** * Properties of [authFetch]                                           *)
(* ===================================================================== *)

Section ApiFacts.
Import Js Api.

Lemma join_strings (sep : string) (l : list string) :
  join sep (List.map JStr l) = String.concat sep l.
Proof.
  unfold join. f_equal. induction l as [|x l IH]; simpl; [reflexivity|].
  now rewrite IH.
Qed.

Lemma flat_field_arrays (fields : list (string * list string)) :
  flat (List.map snd
          (List.map (fun field => (fst field, JArr (List.map JStr (snd field)))) fields))
  = List.map JStr (List.concat (List.map snd fields)).
Proof.
  unfold flat. induction fields as [|[k ms] fields IH]; simpl; [reflexivity|].
  rewrite IH. now rewrite List.map_app.
Qed.

Lemma errorMessage_fieldErrors (fields : list (string * list string)) :
  errorMessage (fieldErrors fields)
  = Some (orFallback (String.concat " " (List.concat (List.map snd fields)))).
Proof.
  unfold errorMessage, fieldErrors. simpl.
  now rewrite flat_field_arrays, join_strings.
Qed.

Lemma orFallback_nonempty (s : string) : s <> "" -> orFallback s = s.
Proof.
  intros H. unfold orFallback. destruct (String.eqb_spec s ""); congruence.
Qed.

Lemma orFallback_empty : orFallback "" = "An API error occurred.".
Proof. reflexivity. Qed.

(** Once the configuration is built and [fetch] has settled with a
    response, the call is the request followed by the response handling. *)
Lemma authFetch_response (net : Network) url token options cfg r :
  buildConfig token options = Some cfg ->
  net url cfg = Some r ->
  authFetch net url token options
  = (EFetch url cfg :: fst (handleResponse r), snd (handleResponse r)).
Proof.
  intros Hc Hn. unfold authFetch. rewrite Hc, Hn.
  now destruct (handleResponse r).
Qed.

Lemma handleResponse_error (r : Response) :
  ok r = false ->
  handleResponse r
  = ([EJson],
     match json r with
     | None => Rejected (ErrError ("HTTP error! status: " +:+ decimal (status r)))
     | Some errorData =>
         match errorMessage errorData with
         | Some m => Rejected (ErrError m)
         | None => Rejected ErrTypeError
         end
     end).
Proof.
  intros H. unfold handleResponse. rewrite H. simpl.
  destruct (json r) as [d|]; [|reflexivity].
  now destruct (errorMessage d).
Qed.

(** C1, as stated, fails: for the error body [{"field": []}] the flattened
    values join to the empty string, and the message is the fallback text
    instead. *)
Lemma authFetch_error_message_not_always_join :
  ~ (forall (net : Network) url token options cfg (r : Response)
            (fields : list (string * list string)),
        buildConfig token options = Some cfg ->
        net url cfg = Some r ->
        ok r = false ->
        json r = Some (fieldErrors fields) ->
        snd (authFetch net url token options)
        = Rejected (ErrError (String.concat " " (List.concat (List.map snd fields))))).
Proof.
  intros H.
  pose (r := mkResponse 400 (Some (fieldErrors [("field", [])]))).
  specialize (H (fun _ _ => Some r) "/api/x/" (SStr "t") OptUndefined
                _ r [("field", [])] eq_refl eq_refl eq_refl eq_refl).
  vm_compute in H. discriminate H.
Qed.

(** C1 (amended): a non-2xx response whose body is an object of
    field -> array of message strings rejects with the arrays' elements
    flattened in order and joined by single spaces, unless that join is
    empty, in which case the message is the fallback text; a non-2xx
    response whose body does not parse rejects with
    ["HTTP error! status: <status>"]. *)
Theorem authFetch_error_message (net : Network) url token options cfg (r : Response) :
  buildConfig token options = Some cfg ->
  net url cfg = Some r ->
  ok r = false ->
  (forall fields : list (string * list string),
      json r = Some (fieldErrors fields) ->
      let joined := String.concat " " (List.concat (List.map snd fields)) in
      (joined <> "" ->
       snd (authFetch net url token options) = Rejected (ErrError joined))
      /\ (joined = "" ->
          snd (authFetch net url token options)
          = Rejected (ErrError "An API error occurred.")))
  /\ (json r = None ->
      snd (authFetch net url token options)
      = Rejected (ErrError ("HTTP error! status: " +:+ decimal (status r)))).
Proof.
  intros Hc Hn Hok.
  rewrite (authFetch_response net url token options cfg r Hc Hn).
  rewrite (handleResponse_error r Hok). simpl. split.
  - intros fields Hj. rewrite Hj, errorMessage_fieldErrors.
    split; intros Hjoined.
    + now rewrite orFallback_nonempty.
    + now rewrite Hjoined.
  - intros Hj. now rewrite Hj.
Qed.

Lemma authFetch_error_message_witness :
  snd (authFetch
         (fun _ _ => Some (mkResponse 400 (Some (fieldErrors [("field", ["msg1"; "msg2"])]))))
         "/api/auth/login/" (SStr "t") OptUndefined)
  = Rejected (ErrError "msg1 msg2").
Proof.
  refine (proj1 (proj1 (authFetch_error_message
            (fun _ _ => Some (mkResponse 400 (Some (fieldErrors [("field", ["msg1"; "msg2"])]))))
            "/api/auth/login/" (SStr "t") OptUndefined _
            (mkResponse 400 (Some (fieldErrors [("field", ["msg1"; "msg2"])])))
            eq_refl eq_refl eq_refl)
            [("field", ["msg1"; "msg2"])] eq_refl) _).
  discriminate.
Defined.

(** C10: a non-2xx response never resolves: the call rejects, and when the
    error body is an object whose flattened values join to the empty
    string the error carries the fallback text. *)
Theorem authFetch_rejects_on_error (net : Network) url token options cfg (r : Response) :
  buildConfig token options = Some cfg ->
  net url cfg = Some r ->
  ok r = false ->
  (exists e, snd (authFetch net url token options) = Rejected e)
  /\ (forall props,
        json r = Some (JObj props) ->
        join " " (flat (List.map snd props)) = "" ->
        snd (authFetch net url token options)
        = Rejected (ErrError "An API error occurred.")).
Proof.
  intros Hc Hn Hok.
  rewrite (authFetch_response net url token options cfg r Hc Hn).
  rewrite (handleResponse_error r Hok). simpl. split.
  - destruct (json r) as [d|]; [|eauto].
    destruct (errorMessage d); eauto.
  - intros props Hj Hjoin. rewrite Hj. unfold errorMessage. simpl.
    now rewrite Hjoin.
Qed.

Lemma authFetch_rejects_on_error_witness :
  snd (authFetch
         (fun _ _ => Some (mkResponse 500 (Some (JObj [("detail", JArr [])]))))
         "/api/deals/my-polls/" SNull OptUndefined)
  = Rejected (ErrError "An API error occurred.").
Proof.
  exact (proj2 (authFetch_rejects_on_error
           (fun _ _ => Some (mkResponse 500 (Some (JObj [("detail", JArr [])]))))
           "/api/deals/my-polls/" SNull OptUndefined _
           (mkResponse 500 (Some (JObj [("detail", JArr [])])))
           eq_refl eq_refl eq_refl)
           [("detail", JArr [])] eq_refl eq_refl).
Defined.

(** C6, as stated, fails: a successful response other than 204 whose body
    does not parse as JSON (an empty body, a page of HTML) resolves to no
    value at all; the call rejects as [response.json()] does. *)
Lemma authFetch_success_not_always_parsed :
  ~ (forall (net : Network) url token options cfg (r : Response),
        buildConfig token options = Some cfg ->
        net url cfg = Some r ->
        ok r = true ->
        status r <> 204 ->
        exists v, snd (authFetch net url token options) = Resolved v).
Proof.
  intros H.
  destruct (H (fun _ _ => Some (mkResponse 200 None)) "/api/deals/my-polls/"
              (SStr "t") OptUndefined _ (mkResponse 200 None)
              eq_refl eq_refl eq_refl ltac:(discriminate)) as [v Hv].
  vm_compute in Hv. discriminate Hv.
Qed.

(** C6 (amended): a successful response with status 204 resolves to
    [null] and its body is never read; any other successful response
    settles as [response.json()] does: it resolves to the parsed body
    when the body parses as JSON, and rejects with the failure of
    [response.json()] when it does not. *)
Theorem authFetch_success (net : Network) url token options cfg (r : Response) :
  buildConfig token options = Some cfg ->
  net url cfg = Some r ->
  ok r = true ->
  (status r = 204 ->
   authFetch net url token options = ([EFetch url cfg], Resolved JNull))
  /\ (status r <> 204 ->
      fst (authFetch net url token options) = [EFetch url cfg; EJson]
      /\ (forall v, json r = Some v ->
            snd (authFetch net url token options) = Resolved v)
      /\ (json r = None ->
            snd (authFetch net url token options) = Rejected ErrJson)).
Proof.
  intros Hc Hn Hok.
  rewrite (authFetch_response net url token options cfg r Hc Hn).
  unfold handleResponse. rewrite Hok. simpl. split.
  - intros H204. now rewrite H204.
  - intros Hne. apply Z.eqb_neq in Hne. rewrite Hne.
    destruct (json r) as [v|]; simpl; repeat split; congruence.
Qed.

Lemma authFetch_success_witness :
  authFetch (fun _ _ => Some (mkResponse 204 None))
    "/api/deals/polls/7/vote/" (SStr "abc") OptUndefined
  = ([EFetch "/api/deals/polls/7/vote/"
        (mkConfig None BodyAbsent
           (mergeHeaders (defaultHeaders (SStr "abc") false) None))],
     Resolved JNull).
Proof.
  exact (proj1 (authFetch_success (fun _ _ => Some (mkResponse 204 None))
           "/api/deals/polls/7/vote/" (SStr "abc") OptUndefined _
           (mkResponse 204 None) eq_refl eq_refl eq_refl) eq_refl).
Defined.







End ApiFacts.

(* ===================================================================== *)
(** * Properties of the session store                                     *)
(* ===================================================================== *)

Section StoreFacts.
Import Store.
Context {Value : Type}.
Implicit Types (st : gmap string (Slot Value)) (u t : Slot Value).

Lemma setUser_holding u t u0 t0 : setUser u t (holding u0 t0) = holding u t.
Proof.
  apply map_eq. intros k. unfold setUser, set, holding, initialState.
  rewrite lookup_union, !lookup_insert.
  repeat case_decide; subst; done.
Qed.

Lemma initialState_holding : initialState = holding (Value := Value) Null Null.
Proof.
  apply map_eq. intros k. unfold holding, initialState.
  rewrite !lookup_insert. repeat case_decide; subst; done.
Qed.

Lemma logout_holding u0 t0 : logout (holding u0 t0) = holding Null Null.
Proof. apply (setUser_holding Null Null). Qed.

(** Every state the store reaches is the creator's object with some pair
    in its two data properties. *)
Lemma reachable_holding st : reachable st -> exists u t, st = holding u t.
Proof.
  induction 1 as [|u t st _ (u0 & t0 & ->)|st _ (u0 & t0 & ->)].
  - exists Null, Null. apply initialState_holding.
  - exists u, t. apply setUser_holding.
  - exists Null, Null. apply logout_holding.
Qed.

Lemma dom_holding u t :
  dom (holding u t) = ({["user"; "token"; "setUser"; "logout"]} : gset string).
Proof.
  unfold holding, initialState. rewrite !dom_insert_L, dom_empty_L. set_solver.
Qed.

(** C4: whatever the store went through, [setUser(u, t)] leaves it holding
    exactly [user = u] and [token = t], [logout()] leaves both [null], and
    the state object has no property besides the pair and the two
    actions. *)
Theorem session_store_holds_pair st u t :
  reachable st ->
  (setUser u t st !! "user" = Some u
   /\ setUser u t st !! "token" = Some t
   /\ setUser u t st = holding u t)
  /\ (logout st !! "user" = Some Null
      /\ logout st !! "token" = Some Null
      /\ logout st = holding Null Null)
  /\ dom st = ({["user"; "token"; "setUser"; "logout"]} : gset string)
  /\ st !! "setUser" = Some (Fn ASetUser)
  /\ st !! "logout" = Some (Fn ALogout).
Proof.
  intros Hr. destruct (reachable_holding st Hr) as (u0 & t0 & ->).
  rewrite setUser_holding, logout_holding, dom_holding.
  unfold holding, initialState. repeat split; now simplify_map_eq.
Qed.

End StoreFacts.

Lemma session_store_holds_pair_witness :
  Store.setUser (Store.Held "farmer-7") (Store.Held "0a1b2c")
    (Store.logout (Store.setUser (Store.Held "buyer-1") (Store.Held "ffff")
                     Store.initialState))
  = Store.holding (Store.Held "farmer-7") (Store.Held "0a1b2c").
Proof.
  exact (proj2 (proj2 (proj1 (session_store_holds_pair
           (Store.logout (Store.setUser (Store.Held "buyer-1") (Store.Held "ffff")
                            Store.initialState))
           (Store.Held "farmer-7") (Store.Held "0a1b2c")
           (Store.reach_logout _ _
              (Store.reach_setUser _ _ _ _ (Store.reach_init _))))))).
Defined.

(* ===================================================================== *)
(** * Properties of [Array.prototype.sort] as modelled                    *)
(* ===================================================================== *)

Section SortFacts.
Import Js.
Context {A : Type}.
Variable comparefn : A -> A -> Number.

Lemma insertSorted_Permutation (x : A) (l : list A) :
  insertSorted comparefn x l ≡ₚ x :: l.
Proof.
  induction l as [|y l IH]; simpl; [reflexivity|].
  destruct (placedAfter (comparefn x y)); [|reflexivity].
  rewrite IH. apply Permutation_swap.
Qed.

Lemma sort_Permutation (l : list A) : sort comparefn l ≡ₚ l.
Proof.
  induction l as [|x l IH]; simpl; [reflexivity|].
  now rewrite insertSorted_Permutation, IH.
Qed.

(** The comparator is the difference of integer keys on the elements that
    satisfy [P]. *)
Variable key : A -> Z.
Variable P : A -> Prop.
Hypothesis comparefn_key :
  forall a b, P a -> P b -> comparefn a b = Some (key a - key b).



End SortFacts.

(* ===================================================================== *)
(** * Properties of the message merge in [GroupRoom.fetchAll]             *)
(* ===================================================================== *)

Section GroupRoomFacts.
Import Js GroupRoom.
Variable dateParse : string -> Number.

Lemma StronglySorted_weaken {A : Type} (R R' : A -> A -> Prop) (P : A -> Prop)
    (l : list A) :
  (forall a b, P a -> P b -> R a b -> R' a b) ->
  Forall P l -> StronglySorted R l -> StronglySorted R' l.
Proof.
  intros HR HP Hs. induction Hs as [|x l Hs IH Hx]; [constructor|].
  apply Forall_cons in HP as [Px HP]. constructor; [now apply IH|].
  rewrite Forall_forall in *. intros y Hy. apply HR; auto.
Qed.

(** The flattening loop concatenates the array-valued date groups in
    enumeration order. *)
Lemma flattenHistory_groups (groups : list (string * DateGroup)) :
  flattenHistory (Some (mkNegotiationHistory (Some groups)))
  = flat_map (fun g => match snd g with GroupArray l => l | GroupOther => [] end) groups.
Proof.
  simpl.
  enough (H : forall acc,
             fold_left (fun all dateGroup =>
                          match snd dateGroup with
                          | GroupArray l => all ++ l
                          | GroupOther => all
                          end) groups acc
             = acc ++ flat_map (fun g => match snd g with
                                         | GroupArray l => l
                                         | GroupOther => []
                                         end) groups)
    by apply (H []).
  induction groups as [|[k g] groups IH]; intros acc; simpl.
  - now rewrite app_nil_r.
  - rewrite IH. destruct g; simpl; [now rewrite <- app_assoc | reflexivity].
Qed.


(** An entry without a timestamp compares as [NaN] with every entry: the
    comparator orders only entries whose timestamps denote a time. *)
Remark compareTimestamps_missing (a b : Message) :
  timestamp a = SUndefined ->
  compareTimestamps dateParse a b = None /\ compareTimestamps dateParse b a = None.
Proof.
  unfold compareTimestamps. intros ->. simpl. split; [reflexivity|].
  now destruct (timeValue dateParse (timestamp b)).
Qed.






End GroupRoomFacts.


(* ===================================================================== *)
(** * Properties of the listing form                                      *)
(* ===================================================================== *)

Section ListingFormFacts.
Import Js FarmerDashboard.
Variable API_BASE : string.
Variable net : Api.Network.
Variable token : Scalar.
Variable crops : list string.
Variable quantityInputValid : string -> bool.

(** With nothing chosen the crop [<select>] shows its placeholder. *)
Lemma empty_crop_value_missing :
  selectValueMissing (cropOptions crops) "" = true.
Proof. reflexivity. Qed.

(** A crop of the list that is not the empty string satisfies the
    [required] constraint. *)
Lemma listed_crop_not_missing (crop : string) :
  crop <> "" -> In crop crops ->
  selectValueMissing (cropOptions crops) crop = false.
Proof.
  intros Hne Hin. unfold selectValueMissing, cropOptions.
  assert (Hex : existsb (String.eqb crop) crops = true).
  { apply existsb_exists. exists crop. split; [exact Hin | apply String.eqb_refl]. }
  destruct crop as [|c crop']; [congruence|].
  change (selectedIndex ("" :: crops) (String c crop'))
    with (if existsb (String.eqb (String c crop')) crops
          then S (selectedIndex crops (String c crop')) else 0%nat).
  now rewrite Hex.
Qed.

(** The handler itself does not look at the crop: whenever it runs, the
    [POST] to the listing endpoint is the first thing after
    [preventDefault]. *)
Lemma handleSubmitListing_posts (st : FormState) :
  exists cfg rest,
    fst (handleSubmitListing API_BASE net token st)
    = PreventDefault :: Request (API_BASE +:+ "/api/products/list-product/") cfg :: rest
    /\ Api.cfg_method cfg = Some "POST"
    /\ Api.cfg_body cfg = Api.BodyFormData (listingFormData st).
Proof.
  unfold handleSubmitListing, Api.authFetch. simpl.
  match goal with
  | |- context [net ?u ?c] => set (cfg := c); destruct (net u cfg) as [r|]
  end.
  - destruct (Api.handleResponse r) as [effs [v|err]]; simpl;
      eexists cfg, _; split; reflexivity || (split; reflexivity).
  - eexists cfg, _. split; [reflexivity|]. split; reflexivity.
Qed.

(** C7: submitting the form while no crop is selected runs no handler and
    issues no request at all, so no [POST] to
    [/api/products/list-product/]; the form state is left as it was. *)
Theorem empty_crop_blocks_submission (st : FormState) :
  selectedCrop st = "" ->
  submitForm API_BASE net token crops quantityInputValid st = ([], st)
  /\ List.filter isRequest
       (fst (submitForm API_BASE net token crops quantityInputValid st)) = []
  /\ List.filter (isListingPost API_BASE)
       (fst (submitForm API_BASE net token crops quantityInputValid st)) = [].
Proof.
  intros Hcrop.
  assert (H : submitForm API_BASE net token crops quantityInputValid st = ([], st)).
  { unfold submitForm, checkValidity. rewrite Hcrop.
    now rewrite empty_crop_value_missing. }
  rewrite H. repeat split.
Qed.

End ListingFormFacts.

Lemma empty_crop_blocks_submission_witness :
  FarmerDashboard.submitForm "" (fun _ _ => Some (Api.mkResponse 201 (Some Js.JNull)))
    (Js.SStr "abc") ["Wheat"; "Rice"] (fun q => negb (String.eqb q ""))
    (FarmerDashboard.mkFormState "" "120" "FAQ" None)
  = ([], FarmerDashboard.mkFormState "" "120" "FAQ" None).
Proof.
  exact (proj1 (empty_crop_blocks_submission ""
           (fun _ _ => Some (Api.mkResponse 201 (Some Js.JNull)))
           (Js.SStr "abc") ["Wheat"; "Rice"] (fun q => negb (String.eqb q ""))
           (FarmerDashboard.mkFormState "" "120" "FAQ" None) eq_refl)).
Defined.

(** The same form with a crop selected does reach the backend. *)
Example listing_submitted_with_crop :
  List.filter (FarmerDashboard.isListingPost "")
    (fst (FarmerDashboard.submitForm ""
            (fun _ _ => Some (Api.mkResponse 201 (Some Js.JNull)))
            (Js.SStr "abc") ["Wheat"; "Rice"] (fun q => negb (String.eqb q ""))
            (FarmerDashboard.mkFormState "Wheat" "120" "FAQ" None)))
  = [FarmerDashboard.Request "/api/products/list-product/"
       (Api.mkConfig (Some "POST")
          (Api.BodyFormData
             [("crop_name", "Wheat"); ("quantity_kg", "120"); ("grade", "FAQ")])
          (Api.mergeHeaders (Api.defaultHeaders (Js.SStr "abc") true)
             (Some {["Authorization" := "Token abc"]})))].
Proof. vm_compute. reflexivity. Qed.

(* ===================================================================== *)
(** * Properties of the conversation-context log                          *)
(* ===================================================================== *)

Section AgentFacts.
Import AIAgentSystem.
Variables UserMessage Reply World : Type.
Variable clock : World -> Z.
Variable randomIndex : World -> nat -> nat.
Variable generateResponse : World -> UserMessage -> Reply.

Abbreviation Entry := (ContextEntry UserMessage Reply).
Abbreviation sliceLast := (sliceLast UserMessage Reply).
Abbreviation addToContext := (addToContext UserMessage Reply World clock).
Abbreviation step := (step UserMessage Reply World clock randomIndex generateResponse).
Abbreviation pushedBy := (pushedBy UserMessage Reply World clock randomIndex generateResponse).
Abbreviation run := (run UserMessage Reply World clock randomIndex generateResponse).

Lemma length_sliceLast (n : nat) (l : list Entry) :
  (length (sliceLast n l) <= n)%nat.
Proof. unfold AIAgentSystem.sliceLast. rewrite length_drop. lia. Qed.

Lemma sliceLast_short (n : nat) (l : list Entry) :
  (length l <= n)%nat -> sliceLast n l = l.
Proof.
  intros H. unfold AIAgentSystem.sliceLast.
  replace (length l - n)%nat with 0%nat by lia. reflexivity.
Qed.

(** Cutting, appending and cutting again is appending and cutting once. *)
Lemma sliceLast_app (n : nat) (p q : list Entry) :
  sliceLast n (sliceLast n p ++ q) = sliceLast n (p ++ q).
Proof.
  destruct (Nat.le_gt_cases (length p) n) as [Hle|Hgt].
  - now rewrite (sliceLast_short n p Hle).
  - unfold AIAgentSystem.sliceLast.
    rewrite !length_app, length_drop.
    replace (length p - (length p - n) + length q - n)%nat with (length q) by lia.
    replace (length p + length q - n)%nat with ((length p - n) + length q)%nat by lia.
    rewrite <- drop_drop. f_equal.
    rewrite drop_app_le by lia. reflexivity.
Qed.

Lemma addToContext_sliceLast w type data (ctx : list Entry) :
  addToContext w type data ctx
  = sliceLast 50 (ctx ++ [mkContextEntry UserMessage Reply type data (clock w)]).
Proof.
  unfold AIAgentSystem.addToContext.
  destruct (Nat.ltb_spec 50
              (length (ctx ++ [mkContextEntry UserMessage Reply type data (clock w)])))
    as [Hlt|Hge]; [reflexivity|].
  now rewrite sliceLast_short.
Qed.

Lemma length_addToContext w type data (ctx : list Entry) :
  (length (addToContext w type data ctx) <= 50)%nat.
Proof. rewrite addToContext_sliceLast. apply length_sliceLast. Qed.

Lemma sliceLast_idem (n : nat) (l : list Entry) :
  sliceLast n (sliceLast n l) = sliceLast n l.
Proof. apply sliceLast_short, length_sliceLast. Qed.

(** Every call cuts the context exactly as pushing its entries one after
    the other and keeping the last 50 does. *)
Lemma step_sliceLast w op (ctx : list Entry) :
  op <> Destroy UserMessage Reply ->
  sliceLast 50 (step w op ctx) = sliceLast 50 (ctx ++ pushedBy w op ctx).
Proof.
  intros Hop. destruct op; simpl; try congruence;
    rewrite ?app_nil_r; try reflexivity.
  - rewrite addToContext_sliceLast. apply sliceLast_idem.
  - unfold processUserMessage. rewrite !addToContext_sliceLast.
    rewrite sliceLast_idem, sliceLast_app. now rewrite <- app_assoc.
  - unfold generateStageGuidance.
    destruct (stageGuidance stage) as [templates|]; [|now rewrite app_nil_r].
    destruct (templates !! _); [|now rewrite app_nil_r].
    rewrite addToContext_sliceLast. apply sliceLast_idem.
  - unfold checkWorkflowProgress, generateStageGuidance.
    destruct (shouldProvideGuidance _ _ _ _ _ _); [|now rewrite app_nil_r].
    destruct (stageGuidance stage) as [templates|]; [|now rewrite app_nil_r].
    destruct (templates !! _); [|now rewrite app_nil_r].
    rewrite addToContext_sliceLast. apply sliceLast_idem.
Qed.

Lemma length_step w op (ctx : list Entry) :
  (length ctx <= 50)%nat -> (length (step w op ctx) <= 50)%nat.
Proof.
  intros H. destruct op; simpl; try exact H; try (simpl; lia).
  - apply length_addToContext.
  - apply length_addToContext.
  - unfold generateStageGuidance.
    destruct (stageGuidance stage) as [templates|]; [|exact H].
    destruct (templates !! _); [apply length_addToContext | exact H].
  - unfold checkWorkflowProgress, generateStageGuidance.
    destruct (shouldProvideGuidance _ _ _ _ _ _); [|exact H].
    destruct (stageGuidance stage) as [templates|]; [|exact H].
    destruct (templates !! _); [apply length_addToContext | exact H].
Qed.

Lemma run_invariant calls (ctx pushed : list Entry) :
  (length ctx <= 50)%nat ->
  ctx = sliceLast 50 pushed ->
  (length (fst (run calls ctx pushed)) <= 50)%nat
  /\ fst (run calls ctx pushed) = sliceLast 50 (snd (run calls ctx pushed)).
Proof.
  revert ctx pushed. induction calls as [|[w op] calls IH]; intros ctx pushed Hlen Hctx.
  - simpl. auto.
  - simpl. apply IH; [now apply length_step|].
    assert (Hcut : op <> Destroy UserMessage Reply ->
                   step w op ctx = sliceLast 50 (pushed ++ pushedBy w op ctx)).
    { intros Hop.
      rewrite <- (sliceLast_short 50 (step w op ctx)) by now apply length_step.
      rewrite (step_sliceLast w op ctx Hop), Hctx. apply sliceLast_app. }
    destruct op; try reflexivity; apply Hcut; discriminate.
Qed.

(** C9: after every [addToContext] the context has at most 50 entries and
    is the last 50 of what it held plus the new entry; every operation
    keeps the bound; and over any sequence of calls on a fresh agent the
    context is the last 50 of the entries pushed since the agent was
    built (or last destroyed). *)
Theorem conversation_context_bounded :
  (forall w type data (ctx : list Entry),
      (length (addToContext w type data ctx) <= 50)%nat
      /\ addToContext w type data ctx
         = drop (length ctx + 1 - 50)
             (ctx ++ [mkContextEntry UserMessage Reply type data (clock w)]))
  /\ (forall w op (ctx : list Entry),
        (length ctx <= 50)%nat -> (length (step w op ctx) <= 50)%nat)
  /\ (forall calls,
        (length (fst (run calls [] [])) <= 50)%nat
        /\ fst (run calls [] [])
           = drop (length (snd (run calls [] [])) - 50) (snd (run calls [] []))).
Proof.
  split; [|split].
  - intros w type data ctx. split; [apply length_addToContext|].
    rewrite addToContext_sliceLast. unfold AIAgentSystem.sliceLast.
    now rewrite length_app.
  - apply length_step.
  - intros calls. apply run_invariant; [simpl; lia | reflexivity].
Qed.

End AgentFacts.

Lemma conversation_context_bounded_witness :
  (length
     (AIAgentSystem.step string string Z (fun w => w) (fun _ _ => 0%nat) (fun _ m => m)
        1714557600000%Z (AIAgentSystem.ProcessUserMessage string string "what is the price?")
        (repeat (AIAgentSystem.mkContextEntry string string "user_message"
                   (AIAgentSystem.UserData string string "hello") 1714550000000%Z) 50))
   <= 50)%nat.
Proof.
  apply (proj1 (proj2 (conversation_context_bounded string string Z (fun w => w)
                         (fun _ _ => 0%nat) (fun _ m => m)))).
  simpl. lia.
Defined.

(** Fifty-one entries pushed one after the other: the first is gone. *)
Example context_evicts_oldest :
  fst (AIAgentSystem.run string string Z (fun w => w) (fun _ _ => 0%nat) (fun _ m => m)
         (List.map (fun n => (Z.of_nat n,
                              AIAgentSystem.AddToContext string string "user_message"
                                (AIAgentSystem.UserData string string "m")))
            (seq 0 51)) [] [])
  = List.map (fun n => AIAgentSystem.mkContextEntry string string "user_message"
                         (AIAgentSystem.UserData string string "m") (Z.of_nat n))
      (seq 1 50).
Proof. vm_compute. reflexivity. Qed.

(* ===================================================================== *)
(** * Properties of the stage engine                                      *)
(* ===================================================================== *)

Section EngineFacts.
Import WorkflowEngine.
Variable env : Env.

(** The guards read the deal group and the stage, nothing else. *)
Lemma mayAdvance_core (e1 e2 : Engine) :
  dealGroup e1 = dealGroup e2 -> currentStage e1 = currentStage e2 ->
  mayAdvance env e1 -> mayAdvance env e2.
Proof.
  destruct e1, e2. simpl. intros -> ->. intros H. exact H.
Qed.

Lemma advances_core (e1 e2 : Engine) from left to :
  dealGroup e1 = dealGroup e2 ->
  advances env e1 from left to -> advances env e2 from left to.
Proof.
  intros Hdg. revert from. induction left as [|s left IH]; intros from; simpl; [auto|].
  intros (-> & name & next & -> & Hsucc & Hmay & Hrest).
  split; [reflexivity|]. exists name, next. repeat split; auto.
  revert Hmay. apply mayAdvance_core; destruct e1, e2; simpl in *; auto.
Qed.

Lemma followsOrder_refl (e : Engine) : followsOrder env e e.
Proof. split; [reflexivity|]. exists []. now rewrite app_nil_r. Qed.

Lemma followsOrder_core_l (e e1 e2 : Engine) :
  core e1 = core e -> followsOrder env e1 e2 -> followsOrder env e e2.
Proof.
  unfold core. intros Hc (Hdg & h & Hh & Hadv). injection Hc as Hd Hs Hhist.
  split; [congruence|]. exists h. split; [congruence|].
  rewrite <- Hs. revert Hadv. now apply advances_core.
Qed.

Lemma followsOrder_core_r (e e1 e2 : Engine) :
  followsOrder env e e1 -> core e2 = core e1 -> followsOrder env e e2.
Proof.
  unfold core. intros (Hdg & h & Hh & Hadv) Hc. injection Hc as Hd Hs Hhist.
  split; [congruence|]. exists h. split; congruence.
Qed.

Lemma followsOrder_core (e e' : Engine) : core e' = core e -> followsOrder env e e'.
Proof. intros H. eapply followsOrder_core_r; [apply followsOrder_refl | exact H]. Qed.

(** Without a guard nothing moves. *)
Lemma followsOrder_guard (e e' : Engine) :
  followsOrder env e e' -> ~ mayAdvance env e -> core e' = core e.
Proof.
  intros (Hdg & h & Hh & Hadv) Hno. destruct h as [|x h]; simpl in Hadv.
  - unfold core. rewrite Hdg, Hadv, Hh, app_nil_r. reflexivity.
  - destruct Hadv as (_ & name & next & _ & _ & Hmay & _). exfalso. apply Hno.
    revert Hmay. apply mayAdvance_core; destruct e; reflexivity.
Qed.

(** ** Steps that leave stage, history and deal group alone *)

Lemma core_logWorkflowEvent type e : core (logWorkflowEvent type e) = core e.
Proof. reflexivity. Qed.

Lemma core_addPendingAction type data priority message e :
  core (addPendingAction env type data priority message e) = core e.
Proof. reflexivity. Qed.

Lemma core_checkPendingActions e : core (checkPendingActions e) = core e.
Proof. unfold checkPendingActions. now destruct (Nat.eqb _ _). Qed.

Lemma core_suggestCounterOffers e : core (suggestCounterOffers env e) = core e.
Proof.
  unfold suggestCounterOffers. destruct (negb (isString _ _)); [reflexivity|].
  destruct (dealGroup e !! "current_offer") as [offer|]; [|reflexivity].
  now destruct (negb (truthy _)).
Qed.

(** Every auto-action but [check_poll_status] returns, and only schedules
    timers, adds pending actions and emits. *)
Lemma executeAutoAction_simple analyze action e :
  action <> "check_poll_status" ->
  exists e', executeAutoAction analyze env action e = Some e' /\ core e' = core e.
Proof.
  intros Hne. unfold executeAutoAction.
  destruct (String.eqb_spec action "check_poll_status") as [->|_]; [congruence|].
  repeat match goal with
         | |- context [if String.eqb action ?s then _ else _] =>
             destruct (String.eqb action s)
         end;
    eexists; (split; [reflexivity|]);
    first [reflexivity | rewrite core_suggestCounterOffers; reflexivity].
Qed.

Lemma executeAutoAction_check_poll_status analyze e :
  executeAutoAction analyze env "check_poll_status" e
  = checkPollStatus analyze env (logWorkflowEvent "AUTO_ACTION" e).
Proof. reflexivity. Qed.

Lemma forEachAction_simple analyze actions e :
  Forall (fun a => a <> "check_poll_status") actions ->
  exists e', forEachAction analyze env actions e = Some e' /\ core e' = core e.
Proof.
  intros H. revert e. induction H as [|a l Ha _ IH]; intros e; simpl.
  - eauto.
  - destruct (executeAutoAction_simple analyze a e Ha) as (e1 & -> & Hc1).
    destruct (IH e1) as (e2 & -> & Hc2). exists e2. split; congruence.
Qed.

(** ** Leaving a stage *)

Lemma rulesFor_nextStage name rules next :
  rulesFor name = Some rules -> nextStage rules = Some next ->
  linearSuccessor name = Some next
  /\ (analysisDepth (VStr next) < analysisDepth (VStr name))%nat.
Proof.
  unfold rulesFor, linearSuccessor, analysisDepth.
  destruct (String.eqb name "NEGOTIATING");
    [intros [= <-] [= <-]; split; [reflexivity | simpl; lia]|].
  destruct (String.eqb name "ACCEPTED");
    [intros [= <-] [= <-]; split; [reflexivity | simpl; lia]|].
  destruct (String.eqb name "IN_TRANSIT");
    [intros [= <-] [= <-]; split; [reflexivity | simpl; lia]|].
  destruct (String.eqb name "DELIVERED");
    [intros [= <-] [= <-]; split; [reflexivity | simpl; lia]|].
  destruct (existsb _ _); [intros [= <-]; discriminate | discriminate].
Qed.

Lemma rulesFor_conditions name rules next :
  rulesFor name = Some rules -> nextStage rules = Some next ->
  exists conds, conditions rules = Some conds.
Proof.
  unfold rulesFor.
  repeat match goal with
         | |- context [if String.eqb name ?s then _ else _] =>
             destruct (String.eqb name s); [intros [= <-] _; eexists; reflexivity|]
         end.
  destruct (existsb _ _); [intros [= <-]; discriminate | discriminate].
Qed.

(** Only the rule of NEGOTIATING lists [check_poll_status], and lists it
    first. *)
Lemma rulesFor_autoActions name rules actions :
  rulesFor name = Some rules -> autoActions rules = Some actions ->
  Forall (fun a => a <> "check_poll_status") actions
  \/ (name = "NEGOTIATING"
      /\ exists rest,
          actions = "check_poll_status" :: rest
          /\ Forall (fun a => a <> "check_poll_status") rest).
Proof.
  unfold rulesFor.
  destruct (String.eqb_spec name "NEGOTIATING") as [->|_].
  { intros [= <-] [= <-]. right. split; [reflexivity|]. eexists. split; [reflexivity|].
    repeat constructor; discriminate. }
  repeat match goal with
         | |- context [if String.eqb name ?s then _ else _] =>
             destruct (String.eqb name s);
               [intros [= <-] [= <-]; left; repeat constructor; discriminate|]
         end.
  destruct (existsb _ _); [intros [= <-]; discriminate | discriminate].
Qed.

Lemma checkStageConditions_true e conds :
  checkStageConditions env e (Some conds) = true ->
  Forall (fun c => conditionResult env e c = true) conds.
Proof.
  intros H. apply Forall_forall. intros c Hc. apply list_elem_of_In in Hc.
  destruct conds as [|c0 conds]; [destruct Hc|].
  simpl in H. change (forallb (conditionResult env e) (c0 :: conds) = true) in H.
  rewrite forallb_forall in H. now apply H.
Qed.

Section Continuation.
Variable analyze : Engine -> option Engine.
Hypothesis analyze_good : forall x y, analyze x = Some y -> followsOrder env x y.

Lemma progressToNextStage_good e e' :
  (forall rules next,
      automationRules (currentStage e) = Some rules ->
      nextStage rules = Some next -> mayAdvance env e) ->
  progressToNextStage analyze env e = Some e' -> followsOrder env e e'.
Proof.
  intros Hmay. unfold progressToNextStage.
  destruct (automationRules (currentStage e)) as [rules|] eqn:Hrules;
    [|intros [= <-]; apply followsOrder_refl].
  destruct (nextStage rules) as [next|] eqn:Hnext;
    [|intros [= <-]; apply followsOrder_refl].
  specialize (Hmay rules next eq_refl Hnext).
  destruct (currentStage e) as [| | |name| |] eqn:Hstage; try discriminate Hrules.
  simpl in Hrules.
  destruct (rulesFor_nextStage name rules next Hrules Hnext) as [Hsucc _].
  intros Hrun. apply analyze_good in Hrun. destruct Hrun as (Hdg & h & Hh & Hadv).
  split; [exact Hdg|].
  exists (mkHistoryEntry (VStr name) (now env) "Automated progression" :: h).
  split.
  - rewrite Hh. simpl. rewrite Hstage. now rewrite <- app_assoc.
  - simpl. rewrite Hstage. split; [reflexivity|]. exists name, next.
    repeat split; try assumption.
    + revert Hmay. apply mayAdvance_core; destruct e; simpl in *; congruence.
    + revert Hadv. apply advances_core. reflexivity.
Qed.

Lemma checkPollStatus_good e e' :
  currentStage e = VStr "NEGOTIATING" ->
  checkPollStatus analyze env e = Some e' -> followsOrder env e e'.
Proof.
  intros Hstage. unfold checkPollStatus.
  destruct (truthy (dealGroup e !! "active_poll")) eqn:Hpoll; simpl;
    [|intros [= <-]; apply followsOrder_refl].
  destruct (pollExpired env e) eqn:Hexp.
  - unfold handlePollExpiry.
    destruct (checkPollConsensus env _) eqn:Hcons.
    + intros Hrun. eapply followsOrder_core_l; [|eapply progressToNextStage_good; [|exact Hrun]].
      * reflexivity.
      * intros _ _ _ _. right. split; [exact Hstage|].
        repeat split; assumption.
    + intros [= <-]. apply followsOrder_core. reflexivity.
  - destruct (pollDeadlineNear env e); intros [= <-];
      [apply followsOrder_core; reflexivity | apply followsOrder_refl].
Qed.

(** One analysis moves the stage along the order, only past stages that
    could be left. *)
Lemma analyzeStage_good e e' :
  analyzeStage analyze env e = Some e' -> followsOrder env e e'.
Proof.
  unfold analyzeStage.
  destruct (automationRules (currentStage e)) as [rules|] eqn:Hrules;
    [|intros [= <-]; apply followsOrder_refl].
  destruct (currentStage e) as [| | |name| |] eqn:Hstage; try discriminate Hrules.
  simpl in Hrules.
  destruct (checkStageConditions env _ (conditions rules)) eqn:Hcond.
  - intros Hrun. eapply followsOrder_core_l; [|eapply progressToNextStage_good; [|exact Hrun]].
    + reflexivity.
    + intros rules' next Hr Hn. left.
      change (automationRules (currentStage e) = Some rules') in Hr.
      rewrite Hstage in Hr. simpl in Hr. assert (rules' = rules) as -> by congruence.
      destruct (rulesFor_conditions name rules next Hrules Hn) as [conds Hconds].
      exists rules, conds. split; [simpl; rewrite Hstage; exact Hrules|].
      split; [exact Hconds|]. rewrite Hconds in Hcond.
      apply checkStageConditions_true in Hcond. exact Hcond.
  - destruct (autoActions rules) as [actions|] eqn:Hactions; simpl.
    + destruct (rulesFor_autoActions name rules actions Hrules Hactions)
        as [Hsimple|(-> & rest & -> & Hrest)].
      * destruct (forEachAction_simple analyze actions
                    (logWorkflowEvent "STAGE_ANALYSIS" e) Hsimple) as (e2 & -> & Hc).
        intros [= <-]. apply followsOrder_core.
        now rewrite core_checkPendingActions, Hc.
      * cbn [forEachAction]. rewrite executeAutoAction_check_poll_status.
        destruct (checkPollStatus analyze env _) as [e1|] eqn:Hpoll; [|discriminate].
        destruct (forEachAction_simple analyze rest e1 Hrest) as (e2 & -> & Hc).
        intros [= <-].
        eapply followsOrder_core_r;
          [|rewrite core_checkPendingActions; exact Hc].
        eapply followsOrder_core_l; [|eapply checkPollStatus_good; [|exact Hpoll]];
          [reflexivity | exact Hstage].
    + intros [= <-]. apply followsOrder_core. now rewrite core_checkPendingActions.
Qed.

End Continuation.

Section Termination.
Variable analyze : Engine -> option Engine.
Variable n : nat.
Hypothesis analyze_total :
  forall x, (analysisDepth (currentStage x) <= n)%nat -> is_Some (analyze x).

Lemma progressToNextStage_total e :
  (analysisDepth (currentStage e) <= S n)%nat ->
  is_Some (progressToNextStage analyze env e).
Proof.
  intros Hdepth. unfold progressToNextStage.
  destruct (automationRules (currentStage e)) as [rules|] eqn:Hrules; [|eauto].
  destruct (nextStage rules) as [next|] eqn:Hnext; [|eauto].
  destruct (currentStage e) as [| | |name| |] eqn:Hstage; try discriminate Hrules.
  simpl in Hrules.
  destruct (rulesFor_nextStage name rules next Hrules Hnext) as [_ Hlt].
  apply analyze_total. simpl currentStage. lia.
Qed.

Lemma checkPollStatus_total e :
  (analysisDepth (currentStage e) <= S n)%nat ->
  is_Some (checkPollStatus analyze env e).
Proof.
  intros Hdepth. unfold checkPollStatus.
  destruct (truthy (dealGroup e !! "active_poll")); simpl; [|eauto].
  destruct (pollExpired env e).
  - unfold handlePollExpiry. destruct (checkPollConsensus env _); [|eauto].
    apply progressToNextStage_total. exact Hdepth.
  - destruct (pollDeadlineNear env e); eauto.
Qed.

Lemma analyzeStage_total e :
  (analysisDepth (currentStage e) <= S n)%nat ->
  is_Some (analyzeStage analyze env e).
Proof.
  intros Hdepth. unfold analyzeStage.
  destruct (automationRules (currentStage e)) as [rules|] eqn:Hrules; [|eauto].
  destruct (currentStage e) as [| | |name| |] eqn:Hstage; try discriminate Hrules.
  simpl in Hrules.
  destruct (checkStageConditions env _ (conditions rules)).
  - apply progressToNextStage_total. simpl currentStage. now rewrite Hstage.
  - destruct (autoActions rules) as [actions|] eqn:Hactions; simpl; [|eauto].
    destruct (rulesFor_autoActions name rules actions Hrules Hactions)
      as [Hsimple|(-> & rest & -> & Hrest)].
    + destruct (forEachAction_simple analyze actions
                  (logWorkflowEvent "STAGE_ANALYSIS" e) Hsimple) as (e2 & -> & _).
      eauto.
    + cbn [forEachAction]. rewrite executeAutoAction_check_poll_status.
      destruct (checkPollStatus_total
                  (logWorkflowEvent "AUTO_ACTION" (logWorkflowEvent "STAGE_ANALYSIS" e)))
        as [e1 ->]; [simpl currentStage; now rewrite Hstage|].
      destruct (forEachAction_simple analyze rest e1 Hrest) as (e2 & -> & _).
      eauto.
Qed.

End Termination.

Lemma analysisDepth_bounds stage :
  (1 <= analysisDepth stage <= 5)%nat.
Proof.
  destruct stage; simpl; try lia.
  repeat match goal with
         | |- context [if ?b then _ else _] => destruct b; [lia|]
         end.
  lia.
Qed.

(** With a budget that covers the stages still ahead, the analysis
    returns. *)
Lemma analyzeCurrentStage_total fuel e :
  (analysisDepth (currentStage e) <= fuel)%nat ->
  is_Some (analyzeCurrentStage fuel env e).
Proof.
  revert e. induction fuel as [|fuel IH]; intros e Hdepth.
  - pose proof (analysisDepth_bounds (currentStage e)). lia.
  - simpl. apply (analyzeStage_total (analyzeCurrentStage fuel env) fuel IH e Hdepth).
Qed.

Lemma analyzeCurrentStage_good fuel e e' :
  analyzeCurrentStage fuel env e = Some e' -> followsOrder env e e'.
Proof.
  revert e e'. induction fuel as [|fuel IH]; intros e e'; simpl; [discriminate|].
  apply analyzeStage_good. exact IH.
Qed.

(** ** The budget does not matter once it suffices *)

Section MoreFuel.
Variables analyze analyze' : Engine -> option Engine.
Hypothesis analyze_extends : forall x y, analyze x = Some y -> analyze' x = Some y.

Lemma progressToNextStage_extends e e' :
  progressToNextStage analyze env e = Some e' ->
  progressToNextStage analyze' env e = Some e'.
Proof.
  unfold progressToNextStage.
  destruct (automationRules (currentStage e)) as [rules|]; [|auto].
  destruct (nextStage rules); [apply analyze_extends | auto].
Qed.

Lemma executeAutoAction_extends action e e' :
  executeAutoAction analyze env action e = Some e' ->
  executeAutoAction analyze' env action e = Some e'.
Proof.
  unfold executeAutoAction.
  destruct (String.eqb action "check_poll_status"); [|auto].
  unfold checkPollStatus.
  destruct (negb (truthy _)); [auto|].
  destruct (pollExpired env _); [|auto].
  unfold handlePollExpiry.
  destruct (checkPollConsensus env _); [apply progressToNextStage_extends | auto].
Qed.

Lemma forEachAction_extends actions e e' :
  forEachAction analyze env actions e = Some e' ->
  forEachAction analyze' env actions e = Some e'.
Proof.
  revert e. induction actions as [|a l IH]; intros e; simpl; [auto|].
  destruct (executeAutoAction analyze env a e) as [e1|] eqn:Ha; [|discriminate].
  rewrite (executeAutoAction_extends a e e1 Ha). apply IH.
Qed.

Lemma analyzeStage_extends e e' :
  analyzeStage analyze env e = Some e' -> analyzeStage analyze' env e = Some e'.
Proof.
  unfold analyzeStage.
  destruct (automationRules (currentStage e)) as [rules|]; [|auto].
  destruct (checkStageConditions env _ _); [apply progressToNextStage_extends|].
  unfold executeAutoActions. destruct (autoActions rules) as [actions|]; [|auto].
  destruct (forEachAction analyze env actions _) as [e2|] eqn:Hrun; [|discriminate].
  now rewrite (forEachAction_extends actions _ e2 Hrun).
Qed.

End MoreFuel.

Lemma analyzeCurrentStage_more_fuel fuel extra e e' :
  analyzeCurrentStage fuel env e = Some e' ->
  analyzeCurrentStage (fuel + extra) env e = Some e'.
Proof.
  revert e e'. induction fuel as [|fuel IH]; intros e e'; simpl; [discriminate|].
  apply analyzeStage_extends. exact IH.
Qed.

(** The constructor returns an engine. *)
Lemma construct_total (dealGroup user : gmap string Val) :
  is_Some (construct 5 env dealGroup user).
Proof.
  unfold construct.
  destruct (analyzeCurrentStage_total 5
              (logWorkflowEvent "WORKFLOW_INITIALIZED"
                 (mkEngine dealGroup user (initialStage dealGroup) [] [] None true [] [])))
    as [e1 ->]; [apply analysisDepth_bounds | eauto].
Qed.

(** The rule of IN_TRANSIT lists the condition [receipt_ready], for which
    [checkStageConditions] has no case: its conditions never all hold. *)
Lemma in_transit_conditions_never_hold e :
  checkStageConditions env e
    (Some ["shipment_confirmed"; "delivery_scheduled"; "receipt_ready"]) = false.
Proof.
  simpl. change (conditionResult env e "receipt_ready") with false.
  now rewrite !andb_false_r.
Qed.

Lemma analyzeCurrentStage_completed fuel e e' :
  currentStage e = VStr "COMPLETED" ->
  analyzeCurrentStage fuel env e = Some e' -> e' = e.
Proof.
  intros Hstage. destruct fuel as [|fuel]; simpl; [discriminate|].
  unfold analyzeStage. rewrite Hstage. simpl. congruence.
Qed.

(** C3 (amended): an analysis of the current stage returns; the stages it
    leaves are left one at a time, each for its immediate successor in the
    order NEGOTIATING, ACCEPTED, IN_TRANSIT, DELIVERED, COMPLETED, and each
    only when all conditions listed for it hold or -- for NEGOTIATING --
    when the active poll has expired with consensus reached; without such
    a reason the stage and the history stay as they are; from COMPLETED
    nothing happens at all. *)
Theorem stage_transitions_follow_order (e : Engine) :
  (exists e', analyzeCurrentStage 5 env e = Some e')
  /\ (forall fuel e',
        analyzeCurrentStage fuel env e = Some e' ->
        followsOrder env e e'
        /\ (~ mayAdvance env e ->
            currentStage e' = currentStage e /\ stageHistory e' = stageHistory e)
        /\ (currentStage e = VStr "COMPLETED" -> e' = e)).
Proof.
  split.
  - destruct (analyzeCurrentStage_total 5 e) as [e' He'];
      [apply analysisDepth_bounds | eauto].
  - intros fuel e' Hrun.
    pose proof (analyzeCurrentStage_good fuel e e' Hrun) as Hgood.
    split; [exact Hgood|]. split.
    + intros Hno. pose proof (followsOrder_guard e e' Hgood Hno) as Hcore.
      unfold core in Hcore. now injection Hcore as _ -> ->.
    + intros Hstage. now apply (analyzeCurrentStage_completed fuel).
Qed.

End EngineFacts.

(** C3, as stated, fails: the engine leaves NEGOTIATING for a deal group
    whose poll has expired with consensus although the price condition
    does not hold. *)
Lemma transition_without_all_conditions :
  ~ (forall fuel env e e',
        WorkflowEngine.analyzeCurrentStage fuel env e = Some e' ->
        WorkflowEngine.currentStage e' <> WorkflowEngine.currentStage e ->
        WorkflowEngine.allConditionsHold env e).
Proof.
  intros H.
  specialize (H 5%nat WorkflowEngine.sampleEnv
                (WorkflowEngine.negotiating WorkflowEngine.expiredPollGroup)
                (default (WorkflowEngine.negotiating WorkflowEngine.expiredPollGroup)
                   (WorkflowEngine.analyzeCurrentStage 5 WorkflowEngine.sampleEnv
                      (WorkflowEngine.negotiating WorkflowEngine.expiredPollGroup)))).
  destruct H as (rules & conds & Hrules & Hconds & Hall).
  - vm_compute. reflexivity.
  - vm_compute. discriminate.
  - simpl in Hrules. injection Hrules as <-. simpl in Hconds.
    injection Hconds as <-.
    apply Forall_cons in Hall as [_ Hall]. apply Forall_cons in Hall as [Hprice _].
    vm_compute in Hprice. discriminate Hprice.
Qed.

Example expired_poll_advances_to_accepted :
  WorkflowEngine.currentStage
    <$> WorkflowEngine.analyzeCurrentStage 5 WorkflowEngine.sampleEnv
          (WorkflowEngine.negotiating WorkflowEngine.expiredPollGroup)
  = Some (WorkflowEngine.VStr "ACCEPTED").
Proof. vm_compute. reflexivity. Qed.

Lemma stage_transitions_follow_order_witness :
  WorkflowEngine.followsOrder WorkflowEngine.sampleEnv
    (WorkflowEngine.negotiating WorkflowEngine.agreedGroup)
    (default (WorkflowEngine.negotiating WorkflowEngine.agreedGroup)
       (WorkflowEngine.analyzeCurrentStage 5 WorkflowEngine.sampleEnv
          (WorkflowEngine.negotiating WorkflowEngine.agreedGroup))).
Proof.
  apply (proj2 (stage_transitions_follow_order WorkflowEngine.sampleEnv
                  (WorkflowEngine.negotiating WorkflowEngine.agreedGroup)) 5%nat).
  vm_compute. reflexivity.
Defined.

Example agreed_group_advances_by_conditions :
  WorkflowEngine.checkStageConditions WorkflowEngine.sampleEnv
    (WorkflowEngine.negotiating WorkflowEngine.agreedGroup)
    (Some ["poll_consensus"; "price_agreement"; "quantity_confirmed"]) = true
  /\ (WorkflowEngine.currentStage
        <$> WorkflowEngine.analyzeCurrentStage 5 WorkflowEngine.sampleEnv
              (WorkflowEngine.negotiating WorkflowEngine.agreedGroup))
     = Some (WorkflowEngine.VStr "ACCEPTED").
Proof. split; vm_compute; reflexivity. Qed.

Section LogisticsHub.
Import WorkflowEngine.

(** C8: the [assign_logistics_hub] auto-action only schedules a callback
    1500 ms ahead; when that callback runs, on whatever deal group the
    engine holds, it sets [logistics_status] to ['READY'] and
    [assigned_hub] to ['Central Hub - Mumbai'] and adds (and announces) a
    pending [HUB_ASSIGNED] action for the hub ['Central Hub - Mumbai'] in
    ['Mumbai']. *)
Theorem assign_logistics_hub_hardcoded (analyze : Engine -> option Engine)
    (env env' : Env) (fuel : nat) (e e1 : Engine) :
  (exists e',
      executeAutoAction analyze env "assign_logistics_hub" e = Some e'
      /\ core e' = core e
      /\ pendingActions e' = pendingActions e
      /\ timers e' = timers e ++ [mkTimer 1500 false CbAssignHub true])
  /\ (exists e2 action,
        runCallback fuel env' CbAssignHub e1 = Some e2
        /\ dealGroup e2
           = <["assigned_hub" := VStr "Central Hub - Mumbai"]>
               (<["logistics_status" := VStr "READY"]> (dealGroup e1))
        /\ dealGroup e2 !! "logistics_status" = Some (VStr "READY")
        /\ dealGroup e2 !! "assigned_hub" = Some (VStr "Central Hub - Mumbai")
        /\ currentStage e2 = currentStage e1
        /\ pendingActions e2 = pendingActions e1 ++ [action]
        /\ pa_type action = "HUB_ASSIGNED"
        /\ pa_data action
           = <["hub" := VStr "Central Hub - Mumbai"]>
               (<["location" := VStr "Mumbai"]> ∅)
        /\ pa_priority action = "high"
        /\ pa_status action = "pending"
        /\ In (ActionRequired action) (emitted e2)).
Proof.
  split.
  - eexists. split; [reflexivity|]. repeat split.
  - eexists _, _. split; [reflexivity|]. simpl.
    split; [reflexivity|].
    split; [rewrite lookup_insert_ne by discriminate; apply lookup_insert_eq|].
    split; [apply lookup_insert_eq|].
    repeat (split; [reflexivity|]).
    rewrite !in_app_iff. left. right. simpl. auto.
Qed.

End LogisticsHub.

(** On the sample deal group. *)
Example hub_assigned_on_sample :
  (fun e => (WorkflowEngine.dealGroup e !! "assigned_hub",
             WorkflowEngine.dealGroup e !! "logistics_status",
             WorkflowEngine.pa_type <$> WorkflowEngine.pendingActions e))
    <$> WorkflowEngine.runCallback 5 WorkflowEngine.sampleEnv WorkflowEngine.CbAssignHub
          (WorkflowEngine.negotiating WorkflowEngine.expiredPollGroup)
  = Some (Some (WorkflowEngine.VStr "Central Hub - Mumbai"),
          Some (WorkflowEngine.VStr "READY"),
          ["HUB_ASSIGNED"]).
Proof. vm_compute. reflexivity. Qed.

(** One analysis can leave two stages, one after the other. *)
Example settled_group_advances_twice :
  (fun e => (WorkflowEngine.currentStage e,
             WorkflowEngine.he_stage <$> WorkflowEngine.stageHistory e))
    <$> WorkflowEngine.analyzeCurrentStage 5 WorkflowEngine.sampleEnv
          (WorkflowEngine.negotiating WorkflowEngine.settledGroup)
  = Some (WorkflowEngine.VStr "IN_TRANSIT",
          [WorkflowEngine.VStr "NEGOTIATING"; WorkflowEngine.VStr "ACCEPTED"]).
Proof. vm_compute. reflexivity. Qed.

(* ===================================================================== *)
(** * The stage engine over its lifetime: properties                      *)
(* ===================================================================== *)

Section EngineRunFacts.
Import WorkflowEngine EngineRuns.

Lemma extends_refl e : extends e e.
Proof.
  repeat split; try reflexivity.
  - exists []. now rewrite app_nil_r.
  - exists []. now rewrite app_nil_r.
  - exists []. now rewrite app_nil_r.
Qed.

Lemma extends_trans e1 e2 e3 : extends e1 e2 -> extends e2 e3 -> extends e1 e3.
Proof.
  intros (Hu & Hw & Ha & (t1 & Ht1 & Ft1) & (p1 & Hp1 & Fp1) & (o1 & Ho1))
         (Hu' & Hw' & Ha' & (t2 & Ht2 & Ft2) & (p2 & Hp2 & Fp2) & (o2 & Ho2)).
  repeat split; try congruence.
  - exists (t1 ++ t2). split; [|now apply Forall_app].
    rewrite Ht2, Ht1. now rewrite <- app_assoc.
  - exists (p1 ++ p2). split; [|now apply Forall_app].
    rewrite Hp2, Hp1. now rewrite <- app_assoc.
  - exists (o1 ++ o2). rewrite Ho2, Ho1. now rewrite <- app_assoc.
Qed.

Lemma extends_emit x e0 e : extends e0 e -> extends e0 (emit x e).
Proof.
  intros H. eapply extends_trans; [exact H|].
  repeat split; try reflexivity.
  - exists []. now rewrite app_nil_r.
  - exists []. now rewrite app_nil_r.
  - exists [x]. reflexivity.
Qed.

Lemma extends_log type e0 e : extends e0 e -> extends e0 (logWorkflowEvent type e).
Proof. apply extends_emit. Qed.

Lemma extends_setField k v e0 e : extends e0 e -> extends e0 (setField k v e).
Proof.
  intros H. eapply extends_trans; [exact H|].
  repeat split; try reflexivity; exists []; now rewrite app_nil_r.
Qed.

Lemma extends_withCurrentStage s e0 e :
  extends e0 e -> extends e0 (withCurrentStage s e).
Proof.
  intros H. eapply extends_trans; [exact H|].
  repeat split; try reflexivity; exists []; now rewrite app_nil_r.
Qed.

Lemma extends_withStageHistory h e0 e :
  extends e0 e -> extends e0 (withStageHistory h e).
Proof.
  intros H. eapply extends_trans; [exact H|].
  repeat split; try reflexivity; exists []; now rewrite app_nil_r.
Qed.

Lemma extends_setTimeout cb ms e0 e :
  cb <> CbAutomationTick -> extends e0 e -> extends e0 (setTimeout cb ms e).
Proof.
  intros Hcb H. eapply extends_trans; [exact H|].
  repeat split; try reflexivity.
  - exists [mkTimer ms false cb true]. split; [reflexivity|].
    repeat constructor. exact Hcb.
  - exists []. now rewrite app_nil_r.
  - exists []. now rewrite app_nil_r.
Qed.

Lemma extends_setInterval cb ms e0 e :
  cb <> CbAutomationTick -> extends e0 e -> extends e0 (setInterval cb ms e).
Proof.
  intros Hcb H. eapply extends_trans; [exact H|].
  repeat split; try reflexivity.
  - exists [mkTimer ms true cb true]. split; [reflexivity|].
    repeat constructor. exact Hcb.
  - exists []. now rewrite app_nil_r.
  - exists []. now rewrite app_nil_r.
Qed.

Lemma extends_addPendingAction env type data priority message e0 e :
  priority = "high" \/ priority = "medium" ->
  extends e0 e -> extends e0 (addPendingAction env type data priority message e).
Proof.
  intros Hp H. unfold addPendingAction. apply extends_log, extends_emit.
  eapply extends_trans; [exact H|].
  repeat split; try reflexivity.
  - exists []. now rewrite app_nil_r.
  - eexists [_]. split; [simpl; reflexivity|].
    constructor; [split; [reflexivity | exact Hp] | constructor].
  - exists []. now rewrite app_nil_r.
Qed.

Lemma extends_checkPendingActions e0 e :
  extends e0 e -> extends e0 (checkPendingActions e).
Proof.
  intros H. unfold checkPendingActions.
  destruct (Nat.eqb _ _); [exact H|].
  eapply extends_trans; [apply extends_log; exact H|].
  repeat split; try reflexivity.
  - exists []. now rewrite app_nil_r.
  - exists []. split; [|constructor]. rewrite app_nil_r. apply sort_Permutation.
  - exists []. now rewrite app_nil_r.
Qed.

Create HintDb engine.
#[local] Hint Resolve extends_refl extends_emit extends_log extends_setField
  extends_withCurrentStage extends_withStageHistory extends_setTimeout
  extends_setInterval extends_addPendingAction extends_checkPendingActions : engine.
#[local] Hint Extern 1 (_ <> CbAutomationTick) => discriminate : engine.
#[local] Hint Extern 1 (_ = "high" \/ _ = "medium") =>
  first [left; reflexivity | right; reflexivity] : engine.

Ltac extends_steps :=
  repeat match goal with
         | |- context [if ?b then _ else _] => destruct b
         | |- context [match ?o with Some _ => _ | None => _ end] => destruct o
         end;
  auto 12 with engine.

Lemma extends_suggestCounterOffers env e0 e :
  extends e0 e -> extends e0 (suggestCounterOffers env e).
Proof. intros H. unfold suggestCounterOffers. extends_steps. Qed.

Lemma extends_notifyPollDeadline env e0 e :
  extends e0 e -> extends e0 (notifyPollDeadline env e).
Proof. intros H. unfold notifyPollDeadline. auto with engine. Qed.

#[local] Hint Resolve extends_suggestCounterOffers extends_notifyPollDeadline : engine.

Section ExtendsContinuation.
Variable env : Env.
Variable analyze : Engine -> option Engine.
Hypothesis analyze_extends : forall x y, analyze x = Some y -> extends x y.

Lemma extends_progressToNextStage e0 e e' :
  extends e0 e -> progressToNextStage analyze env e = Some e' -> extends e0 e'.
Proof.
  intros H. unfold progressToNextStage.
  destruct (automationRules (currentStage e)); [|now intros [= <-]].
  destruct (nextStage _); [|now intros [= <-]].
  intros Hrun. apply analyze_extends in Hrun.
  eapply extends_trans; [|exact Hrun]. auto 8 with engine.
Qed.

Lemma extends_checkPollStatus e0 e e' :
  extends e0 e -> checkPollStatus analyze env e = Some e' -> extends e0 e'.
Proof.
  intros H. unfold checkPollStatus, handlePollExpiry.
  destruct (negb (truthy _)); [now intros [= <-]|].
  destruct (pollExpired env e).
  - destruct (checkPollConsensus env _).
    + apply extends_progressToNextStage. auto with engine.
    + intros [= <-]. auto 8 with engine.
  - destruct (pollDeadlineNear env e); intros [= <-]; auto 8 with engine.
Qed.

Lemma extends_executeAutoAction action e0 e e' :
  extends e0 e -> executeAutoAction analyze env action e = Some e' -> extends e0 e'.
Proof.
  intros H. unfold executeAutoAction.
  destruct (String.eqb action "check_poll_status");
    [apply extends_checkPollStatus; auto with engine|].
  unfold performMarketAnalysis, assignLogisticsHub, createEscrowContract,
    notifyBuyer, trackShipment, updateStatus, coordinateDelivery, confirmReceipt,
    processPayment, releaseEscrow.
  repeat match goal with
         | |- context [if String.eqb action ?s then _ else _] =>
             destruct (String.eqb action s)
         end;
    intros [= <-]; auto 10 with engine.
Qed.

Lemma extends_forEachAction actions e0 e e' :
  extends e0 e -> forEachAction analyze env actions e = Some e' -> extends e0 e'.
Proof.
  revert e. induction actions as [|a l IH]; intros e H; simpl.
  - now intros [= <-].
  - destruct (executeAutoAction analyze env a e) as [e1|] eqn:Ha; [|discriminate].
    apply IH. eapply extends_executeAutoAction; eauto.
Qed.

Lemma extends_analyzeStage e e' :
  analyzeStage analyze env e = Some e' -> extends e e'.
Proof.
  unfold analyzeStage.
  destruct (automationRules (currentStage e)) as [rules|];
    [|intros [= <-]; apply extends_refl].
  destruct (checkStageConditions env _ _).
  - apply extends_progressToNextStage. auto with engine.
  - unfold executeAutoActions. destruct (autoActions rules) as [actions|].
    + destruct (forEachAction analyze env actions _) as [e2|] eqn:Hrun; [|discriminate].
      intros [= <-]. apply extends_checkPendingActions.
      eapply extends_forEachAction; [|exact Hrun]. auto with engine.
    + intros [= <-]. auto with engine.
Qed.

End ExtendsContinuation.

(** An analysis only schedules, adds and emits. *)
Lemma extends_analyzeCurrentStage fuel env e e' :
  analyzeCurrentStage fuel env e = Some e' -> extends e e'.
Proof.
  revert e e'. induction fuel as [|fuel IH]; intros e e'; simpl; [discriminate|].
  apply extends_analyzeStage. exact IH.
Qed.

(** So does every timer callback. *)
Lemma extends_runCallback fuel env cb e e' :
  runCallback fuel env cb e = Some e' -> extends e e'.
Proof.
  destruct cb; simpl.
  - destruct (autoProgressEnabled e);
      [apply extends_analyzeCurrentStage | intros [= <-]; apply extends_refl].
  - intros [= <-]. auto 10 with engine.
  - intros [= <-]. auto 10 with engine.
  - intros [= <-]. destruct (_ !! "total_value"); auto 10 with engine.
  - intros [= <-]. auto 10 with engine.
  - intros [= <-]. auto 10 with engine.
  - intros [= <-]. auto 10 with engine.
  - intros [= <-]. auto 10 with engine.
  - intros [= <-]. auto 10 with engine.
Qed.

(** ** Stage and history over a run *)

Lemma runCallback_trail fuel env cb e e' :
  cb <> CbAutomationTick ->
  runCallback fuel env cb e = Some e' ->
  currentStage e' = currentStage e /\ stageHistory e' = stageHistory e.
Proof.
  intros Hcb. destruct cb; try congruence; simpl; intros [= <-]; split; reflexivity.
Qed.

Lemma advances_inOrder env e from left to :
  advances env e from left to -> inOrder from left to.
Proof.
  revert from. induction left as [|s left IH]; intros from; simpl; [auto|].
  intros (-> & name & next & -> & Hsucc & _ & Hrest).
  split; [reflexivity|]. exists name, next. auto.
Qed.

Lemma inOrder_app a l1 b l2 c :
  inOrder a l1 b -> inOrder b l2 c -> inOrder a (l1 ++ l2) c.
Proof.
  revert a. induction l1 as [|s l1 IH]; intros a; simpl.
  - now intros ->.
  - intros (-> & name & next & -> & Hsucc & Hrest) H2.
    split; [reflexivity|]. exists name, next. auto.
Qed.

Lemma occur_inOrder fuel env ev e e' :
  occur fuel env ev e = Some e' ->
  exists h,
    stageHistory e' = stageHistory e ++ h
    /\ inOrder (currentStage e) (List.map he_stage h) (currentStage e').
Proof.
  destruct ev as [cb|b|]; simpl.
  - assert (cb = CbAutomationTick \/ cb <> CbAutomationTick) as [->|Hcb]
      by (destruct cb; auto; right; discriminate).
    + simpl. destruct (autoProgressEnabled e).
      * intros Hrun. apply analyzeCurrentStage_good in Hrun.
        destruct Hrun as (_ & h & Hh & Hadv). exists h. split; [exact Hh|].
        eapply advances_inOrder; exact Hadv.
      * intros [= <-]. exists []. now rewrite app_nil_r.
    + intros Hrun. destruct (runCallback_trail fuel env cb e e' Hcb Hrun) as [Hs Hh].
      exists []. rewrite app_nil_r. simpl. auto.
  - intros [= <-]. exists []. now rewrite app_nil_r.
  - unfold destroy, stopAutomationTimer.
    destruct (workflowTimer e); intros [= <-]; exists []; rewrite app_nil_r;
      split; reflexivity.
Qed.

Lemma run_inOrder fuel events e e' :
  run fuel events e = Some e' ->
  exists h,
    stageHistory e' = stageHistory e ++ h
    /\ inOrder (currentStage e) (List.map he_stage h) (currentStage e').
Proof.
  revert e. induction events as [|[env ev] events IH]; intros e; simpl.
  - intros [= <-]. exists []. now rewrite app_nil_r.
  - destruct (occur fuel env ev e) as [e1|] eqn:Hoccur; [|discriminate].
    intros Hrun. destruct (occur_inOrder fuel env ev e e1 Hoccur) as (h1 & Hh1 & Ho1).
    destruct (IH e1 Hrun) as (h2 & Hh2 & Ho2).
    exists (h1 ++ h2). split.
    + rewrite Hh2, Hh1. now rewrite <- app_assoc.
    + rewrite List.map_app. eapply inOrder_app; eauto.
Qed.

(** X1: over any sequence of timer callbacks and method calls the stage
    history only grows, by the stages left one after the other, each for
    its immediate successor, and the last of them for the stage the
    engine is in: the engine never steps back, skips a stage or rewrites
    its history. *)
Theorem engine_history_in_order fuel events e e' :
  run fuel events e = Some e' ->
  exists left,
    List.map he_stage (stageHistory e')
    = List.map he_stage (stageHistory e) ++ left
    /\ inOrder (currentStage e) left (currentStage e')
    /\ (forall i entry, stageHistory e !! i = Some entry ->
                        stageHistory e' !! i = Some entry).
Proof.
  intros Hrun. destruct (run_inOrder fuel events e e' Hrun) as (h & Hh & Ho).
  exists (List.map he_stage h). split; [|split].
  - now rewrite Hh, List.map_app.
  - exact Ho.
  - intros i entry Hi. rewrite Hh. now apply lookup_app_l_Some.
Qed.

(** ** IN_TRANSIT is a dead end *)

Lemma in_transit_cannot_advance env e :
  currentStage e = VStr "IN_TRANSIT" -> ~ mayAdvance env e.
Proof.
  intros Hstage [(rules & conds & Hrules & Hconds & Hall)|[Hneg _]].
  - rewrite Hstage in Hrules. simpl in Hrules. injection Hrules as <-.
    simpl in Hconds. injection Hconds as <-.
    apply Forall_cons in Hall as [_ Hall]. apply Forall_cons in Hall as [_ Hall].
    apply Forall_cons in Hall as [Hready _].
    change (conditionResult env e "receipt_ready") with false in Hready.
    discriminate Hready.
  - rewrite Hstage in Hneg. discriminate Hneg.
Qed.

Lemma advances_beforeDelivery env e from left to :
  beforeDelivery from -> advances env e from left to -> beforeDelivery to.
Proof.
  revert from. induction left as [|s left IH]; intros from Hfrom; simpl.
  - now intros ->.
  - intros (-> & name & next & Hname & Hsucc & Hmay & Hrest).
    destruct Hfrom as [ -> | [ -> | -> ] ]; injection Hname as <-.
    + injection Hsucc as <-. apply (IH (VStr "ACCEPTED")); [|exact Hrest].
      right. left. reflexivity.
    + injection Hsucc as <-. apply (IH (VStr "IN_TRANSIT")); [|exact Hrest].
      right. right. reflexivity.
    + exfalso. revert Hmay. apply in_transit_cannot_advance. reflexivity.
Qed.

Lemma occur_beforeDelivery fuel env ev e e' :
  beforeDelivery (currentStage e) ->
  occur fuel env ev e = Some e' -> beforeDelivery (currentStage e').
Proof.
  intros Hstage. destruct ev as [cb|b|]; simpl.
  - assert (cb = CbAutomationTick \/ cb <> CbAutomationTick) as [->|Hcb]
      by (destruct cb; auto; right; discriminate).
    + simpl. destruct (autoProgressEnabled e); [|now intros [= <-]].
      intros Hrun. apply analyzeCurrentStage_good in Hrun.
      destruct Hrun as (_ & h & _ & Hadv).
      eapply advances_beforeDelivery; eauto.
    + intros Hrun. destruct (runCallback_trail fuel env cb e e' Hcb Hrun) as [-> _].
      exact Hstage.
  - now intros [= <-].
  - unfold destroy, stopAutomationTimer.
    destruct (workflowTimer e); now intros [= <-].
Qed.

(** X2: an engine that is in NEGOTIATING, ACCEPTED or IN_TRANSIT stays
    within these three stages whatever its timers and its owner do and
    whatever the deal group holds: the rule of IN_TRANSIT asks for the
    condition [receipt_ready], which [checkStageConditions] does not know,
    so DELIVERED and COMPLETED are out of its reach. *)
Theorem engine_never_reaches_delivery fuel events e e' :
  beforeDelivery (currentStage e) ->
  run fuel events e = Some e' ->
  beforeDelivery (currentStage e').
Proof.
  revert e. induction events as [|[env ev] events IH]; intros e Hstage; simpl.
  - now intros [= <-].
  - destruct (occur fuel env ev e) as [e1|] eqn:Hoccur; [|discriminate].
    apply IH. eapply occur_beforeDelivery; eauto.
Qed.

(** ** Pending actions and timers over a run *)

Lemma occur_pending fuel env ev e e' :
  occur fuel env ev e = Some e' ->
  exists added,
    pendingActions e' ≡ₚ pendingActions e ++ added /\ Forall fresh added.
Proof.
  destruct ev as [cb|b|]; simpl.
  - intros Hrun. apply extends_runCallback in Hrun.
    destruct Hrun as (_ & _ & _ & _ & Hp & _). exact Hp.
  - intros [= <-]. exists []. now rewrite app_nil_r.
  - unfold destroy, stopAutomationTimer.
    destruct (workflowTimer e); intros [= <-]; exists []; now rewrite app_nil_r.
Qed.

(** X3: nothing ever takes a pending action off the list or changes its
    status: after any sequence of timer callbacks and method calls the
    list holds the actions it held before (possibly reordered) together
    with new ones, each of status ['pending'] and of priority ['high'] or
    ['medium']. *)
Theorem pending_actions_only_accumulate fuel events e e' :
  run fuel events e = Some e' ->
  exists added,
    pendingActions e' ≡ₚ pendingActions e ++ added /\ Forall fresh added.
Proof.
  revert e. induction events as [|[env ev] events IH]; intros e; simpl.
  - intros [= <-]. exists []. now rewrite app_nil_r.
  - destruct (occur fuel env ev e) as [e1|] eqn:Hoccur; [|discriminate].
    intros Hrun. destruct (occur_pending fuel env ev e e1 Hoccur) as (a1 & Hp1 & Hf1).
    destruct (IH e1 Hrun) as (a2 & Hp2 & Hf2).
    exists (a1 ++ a2). split; [|now apply Forall_app].
    rewrite Hp2, Hp1. now rewrite <- app_assoc.
Qed.

Lemma timersConsistent_construct fuel env dealGroup user e :
  construct fuel env dealGroup user = Some e -> timersConsistent e.
Proof.
  unfold construct.
  destruct (analyzeCurrentStage fuel env _) as [e1|] eqn:Hrun; [|discriminate].
  intros [= <-]. apply extends_analyzeCurrentStage in Hrun.
  destruct Hrun as (_ & _ & _ & (scheduled & Ht & Hs) & _). simpl in Ht.
  split.
  - intros h [= <-]. exists (automationTimer true). split; [|reflexivity].
    simpl. rewrite lookup_app_r by lia. now rewrite Nat.sub_diag.
  - intros i t Hi Hcb. left. simpl in *.
    destruct (Nat.lt_ge_cases i (length (timers e1))) as [Hlt|Hge].
    + rewrite lookup_app_l in Hi by exact Hlt. rewrite Ht in Hi.
      rewrite Forall_forall in Hs. exfalso.
      apply (Hs t); [eapply list_elem_of_lookup_2; exact Hi | exact Hcb].
    + rewrite lookup_app_r in Hi by exact Hge.
      destruct (i - length (timers e1))%nat as [|k] eqn:Hk; [|discriminate Hi].
      f_equal. lia.
Qed.

Lemma timersConsistent_extends e e' :
  extends e e' -> timersConsistent e -> timersConsistent e'.
Proof.
  intros (_ & Hw & _ & (scheduled & Ht & Hs) & _) [Hauto Hothers]. split.
  - intros h Hh. rewrite Hw in Hh. destruct (Hauto h Hh) as (t & Hlook & Hcb).
    exists t. split; [|exact Hcb]. rewrite Ht.
    rewrite lookup_app_l; [exact Hlook | eapply lookup_lt_Some; exact Hlook].
  - intros i t Hi Hcb. rewrite Hw. rewrite Ht in Hi.
    apply lookup_app_Some in Hi as [Hi|[_ Hi]]; [now apply Hothers|].
    rewrite Forall_forall in Hs. exfalso.
    apply (Hs t); [eapply list_elem_of_lookup_2; exact Hi | exact Hcb].
Qed.

Lemma timersConsistent_destroy e :
  timersConsistent e -> timersConsistent (destroy e).
Proof.
  intros [Hauto Hothers]. unfold destroy, stopAutomationTimer.
  destruct (workflowTimer e) as [h|] eqn:Hw; split; simpl.
  - discriminate.
  - intros i t Hi Hcb. right. unfold clearInterval in Hi. simpl in Hi.
    destruct (decide (i = h)) as [->|Hne].
    + rewrite list_lookup_alter_eq in Hi.
      destruct (timers e !! h); [|discriminate Hi]. now injection Hi as <-.
    + rewrite list_lookup_alter_ne in Hi by congruence.
      destruct (Hothers i t Hi Hcb) as [Hsome|Hoff]; [congruence | exact Hoff].
  - rewrite Hw. discriminate.
  - intros i t Hi Hcb. rewrite Hw. simpl in Hi.
    destruct (Hothers i t Hi Hcb) as [Hsome|Hoff]; [congruence | auto].
Qed.

Lemma timersConsistent_occur fuel env ev e e' :
  occur fuel env ev e = Some e' -> timersConsistent e -> timersConsistent e'.
Proof.
  destruct ev as [cb|b|]; simpl.
  - intros Hrun. apply timersConsistent_extends. eapply extends_runCallback; eauto.
  - intros [= <-]. auto.
  - intros [= <-]. apply timersConsistent_destroy.
Qed.

Lemma timersConsistent_run fuel events e e' :
  run fuel events e = Some e' -> timersConsistent e -> timersConsistent e'.
Proof.
  revert e. induction events as [|[env ev] events IH]; intros e; simpl.
  - now intros [= <-].
  - destruct (occur fuel env ev e) as [e1|] eqn:Hoccur; [|discriminate].
    intros Hrun Hc. apply (IH e1 Hrun). eapply timersConsistent_occur; eauto.
Qed.

(** X4: on an engine built by the constructor, whatever happened to it
    since, [destroy()] forgets the automation interval and leaves none of
    its kind active, but it clears nothing else: every timer an auto-action
    set, such as the 30-second shipment tracking interval, keeps running
    on the destroyed engine. *)
Theorem destroy_clears_only_automation_timer fuel env dealGroup user events e0 e :
  construct fuel env dealGroup user = Some e0 ->
  run fuel events e0 = Some e ->
  workflowTimer (destroy e) = None
  /\ (forall i t, timers (destroy e) !! i = Some t ->
                  callback t = CbAutomationTick -> active t = false)
  /\ (forall i t, timers e !! i = Some t ->
                  callback t <> CbAutomationTick ->
                  timers (destroy e) !! i = Some t).
Proof.
  intros Hbuild Hrun.
  pose proof (timersConsistent_run fuel events e0 e Hrun
                (timersConsistent_construct fuel env dealGroup user e0 Hbuild)) as Hc.
  pose proof (timersConsistent_destroy e Hc) as [Hauto' Hothers'].
  assert (Hnone : workflowTimer (destroy e) = None).
  { unfold destroy, stopAutomationTimer.
    destruct (workflowTimer e) eqn:Hw; [reflexivity | exact Hw]. }
  split; [exact Hnone|]. split.
  - intros i t Hi Hcb. destruct (Hothers' i t Hi Hcb) as [Hsome|Hoff];
      [congruence | exact Hoff].
  - intros i t Hi Hcb. destruct Hc as [Hauto _].
    unfold destroy, stopAutomationTimer.
    destruct (workflowTimer e) as [h|] eqn:Hw; simpl; [|exact Hi].
    destruct (Hauto h eq_refl) as (t' & Hh & Hcb').
    rewrite list_lookup_alter_ne; [exact Hi|]. intros ->. congruence.
Qed.

(** ** DELIVERED settles itself *)

Lemma runCallback_settlement fuel env cb e :
  In cb settlement ->
  exists e',
    runCallback fuel env cb e = Some e'
    /\ dealGroup e' = <[fst (settledProperty cb) := snd (settledProperty cb)]> (dealGroup e)
    /\ currentStage e' = currentStage e
    /\ stageHistory e' = stageHistory e.
Proof.
  intros [<-|[<-|[<-|[]]]]; eexists; (split; [reflexivity|]); repeat split.
Qed.

Lemma settledProperty_key cb cb' :
  In cb settlement -> In cb' settlement ->
  fst (settledProperty cb) = fst (settledProperty cb') -> cb = cb'.
Proof.
  intros [<-|[<-|[<-|[]]]] [<-|[<-|[<-|[]]]]; simpl; congruence.
Qed.

Lemma run_settlement fuel events e :
  Forall (fun ev => exists cb, snd ev = Fires cb /\ In cb settlement) events ->
  exists e1,
    run fuel events e = Some e1
    /\ currentStage e1 = currentStage e
    /\ stageHistory e1 = stageHistory e
    /\ (forall cb, In cb settlement ->
          dealGroup e !! fst (settledProperty cb) = Some (snd (settledProperty cb))
          \/ (exists env, In (env, Fires cb) events) ->
          dealGroup e1 !! fst (settledProperty cb) = Some (snd (settledProperty cb))).
Proof.
  intros Hall. revert e. induction Hall as [|[env ev] events (cb0 & Hev & Hcb0) _ IH];
    intros e; simpl.
  - exists e. repeat split. intros cb _ [H|[env []]]. exact H.
  - simpl in Hev. subst ev. simpl.
    destruct (runCallback_settlement fuel env cb0 e Hcb0) as (e' & -> & Hdg & Hs & Hh).
    destruct (IH e') as (e1 & -> & Hs1 & Hh1 & Hset).
    exists e1. split; [reflexivity|]. split; [congruence|]. split; [congruence|].
    intros cb Hcb Hor. apply Hset; [exact Hcb|].
    destruct (decide (fst (settledProperty cb0) = fst (settledProperty cb))) as [Hkey|Hkey].
    + left. rewrite Hdg.
      rewrite (settledProperty_key cb0 cb Hcb0 Hcb Hkey). apply lookup_insert_eq.
    + destruct Hor as [Hhad|(env' & [Hhere|Hlater])].
      * left. rewrite Hdg. now rewrite lookup_insert_ne.
      * injection Hhere as _ ->. congruence.
      * right. eauto.
Qed.

Lemma analyze_settled_delivery env e :
  currentStage e = VStr "DELIVERED" ->
  dealGroup e !! "receipt_status" = Some (VStr "VERIFIED") ->
  dealGroup e !! "payment_status" = Some (VStr "COMPLETED") ->
  dealGroup e !! "escrow_status" = Some (VStr "RELEASED") ->
  exists e2,
    analyzeCurrentStage 5 env e = Some e2
    /\ currentStage e2 = VStr "COMPLETED"
    /\ stageHistory e2
       = stageHistory e ++ [mkHistoryEntry (VStr "DELIVERED") (now env) "Automated progression"].
Proof.
  intros Hstage Hreceipt Hpayment Hescrow.
  assert (Hcond : checkStageConditions env (logWorkflowEvent "STAGE_ANALYSIS" e)
                    (Some ["receipt_verified"; "payment_completed"; "escrow_cleared"])
                  = true).
  { unfold checkStageConditions. cbn [forallb].
    change (conditionResult env ?x "receipt_verified") with (checkReceiptVerified x).
    change (conditionResult env ?x "payment_completed") with (checkPaymentCompleted x).
    change (conditionResult env ?x "escrow_cleared") with (checkEscrowCleared x).
    unfold checkReceiptVerified, checkPaymentCompleted, checkEscrowCleared.
    cbn [dealGroup logWorkflowEvent emit]. rewrite Hreceipt, Hpayment, Hescrow.
    reflexivity. }
  change (analyzeCurrentStage 5 env e)
    with (analyzeStage (analyzeCurrentStage 4 env) env e).
  unfold analyzeStage. rewrite Hstage. cbn [automationRules].
  change (rulesFor "DELIVERED") with
    (Some (mkStageRules
             (Some ["confirm_receipt"; "process_payment"; "release_escrow"])
             (Some ["receipt_confirmed"; "payment_processed"; "escrow_released"])
             (Some "COMPLETED")
             (Some ["receipt_verified"; "payment_completed"; "escrow_cleared"]))).
  cbn [conditions]. rewrite Hcond.
  unfold progressToNextStage. cbn [currentStage logWorkflowEvent emit].
  rewrite Hstage. cbn [automationRules].
  change (rulesFor "DELIVERED") with
    (Some (mkStageRules
             (Some ["confirm_receipt"; "process_payment"; "release_escrow"])
             (Some ["receipt_confirmed"; "payment_processed"; "escrow_released"])
             (Some "COMPLETED")
             (Some ["receipt_verified"; "payment_completed"; "escrow_cleared"]))).
  cbn [nextStage].
  eexists. split; [reflexivity|]. split; reflexivity.
Qed.

(** X5: an engine in DELIVERED finishes by itself: once the callbacks of
    its three auto-actions (receipt, payment, escrow release) have run, in
    whatever order and however often, the next analysis finds all three
    conditions met, whatever the deal group held before, and moves to
    COMPLETED, recording DELIVERED in the history. *)
Theorem delivered_completes_after_callbacks fuel events e :
  currentStage e = VStr "DELIVERED" ->
  Forall (fun ev => exists cb, snd ev = Fires cb /\ In cb settlement) events ->
  (forall cb, In cb settlement -> exists env, In (env, Fires cb) events) ->
  exists e1,
    run fuel events e = Some e1
    /\ forall env, exists e2,
         analyzeCurrentStage 5 env e1 = Some e2
         /\ currentStage e2 = VStr "COMPLETED"
         /\ List.map he_stage (stageHistory e2)
            = List.map he_stage (stageHistory e) ++ [VStr "DELIVERED"].
Proof.
  intros Hstage Hall Hevery.
  destruct (run_settlement fuel events e Hall) as (e1 & Hrun & Hs & Hh & Hset).
  exists e1. split; [exact Hrun|]. intros env.
  destruct (analyze_settled_delivery env e1) as (e2 & Hrun2 & Hs2 & Hh2).
  - congruence.
  - apply (Hset CbConfirmReceipt); [simpl; auto | right; apply Hevery; simpl; auto].
  - apply (Hset CbProcessPayment); [simpl; auto | right; apply Hevery; simpl; auto].
  - apply (Hset CbReleaseEscrow); [simpl; auto | right; apply Hevery; simpl; auto].
  - exists e2. split; [exact Hrun2|]. split; [exact Hs2|].
    rewrite Hh2, Hh, List.map_app. reflexivity.
Qed.

(** ** ACCEPTED repeats its auto-actions *)

Lemma pendingActions_checkPendingActions e :
  pendingActions (checkPendingActions e) ≡ₚ pendingActions e.
Proof.
  unfold checkPendingActions. destruct (Nat.eqb _ _); [reflexivity|].
  apply sort_Permutation.
Qed.

Lemma timers_checkPendingActions e : timers (checkPendingActions e) = timers e.
Proof. unfold checkPendingActions. now destruct (Nat.eqb _ _). Qed.

(** X6: every analysis of ACCEPTED that finds its conditions unmet sets the
    hub and escrow timers again and adds one more BUYER_NOTIFICATION to
    the pending actions: nothing checks whether the action was taken
    before, so both lists grow with every tick of the automation timer. *)
Theorem accepted_analysis_repeats_actions fuel env e :
  currentStage e = VStr "ACCEPTED" ->
  checkStageConditions env e
    (Some ["escrow_confirmed"; "logistics_ready"; "collection_confirmed"]) = false ->
  exists e' notification,
    analyzeCurrentStage (S fuel) env e = Some e'
    /\ currentStage e' = VStr "ACCEPTED"
    /\ pendingActions e' ≡ₚ pendingActions e ++ [notification]
    /\ pa_type notification = "BUYER_NOTIFICATION"
    /\ timers e'
       = timers e ++ [mkTimer 1500 false CbAssignHub true;
                      mkTimer 2000 false CbCreateEscrow true].
Proof.
  intros Hstage Hcond.
  change (analyzeCurrentStage (S fuel) env e)
    with (analyzeStage (analyzeCurrentStage fuel env) env e).
  unfold analyzeStage. rewrite Hstage. cbn [automationRules].
  change (rulesFor "ACCEPTED") with
    (Some (mkStageRules
             (Some ["assign_logistics_hub"; "create_escrow_contract"; "notify_buyer"])
             (Some ["escrow_deposited"; "hub_assigned"; "collection_scheduled"])
             (Some "IN_TRANSIT")
             (Some ["escrow_confirmed"; "logistics_ready"; "collection_confirmed"]))).
  cbn [conditions autoActions].
  change (checkStageConditions env (logWorkflowEvent "STAGE_ANALYSIS" e) ?c)
    with (checkStageConditions env e c).
  rewrite Hcond.
  cbn [executeAutoActions forEachAction].
  change (executeAutoAction (analyzeCurrentStage fuel env) env "assign_logistics_hub" ?x)
    with (Some (assignLogisticsHub (logWorkflowEvent "AUTO_ACTION" x))).
  cbn iota.
  change (executeAutoAction (analyzeCurrentStage fuel env) env "create_escrow_contract" ?x)
    with (Some (createEscrowContract (logWorkflowEvent "AUTO_ACTION" x))).
  cbn iota.
  change (executeAutoAction (analyzeCurrentStage fuel env) env "notify_buyer" ?x)
    with (Some (notifyBuyer env (logWorkflowEvent "AUTO_ACTION" x))).
  cbn iota.
  eexists _, _. split; [reflexivity|].
  rewrite pendingActions_checkPendingActions, timers_checkPendingActions.
  split; [|split; [unfold notifyBuyer, addPendingAction;
                   cbn [pendingActions logWorkflowEvent emit withPendingActions
                          createEscrowContract assignLogisticsHub setTimeout withTimers];
                   reflexivity
                 | split; [reflexivity|]]].
  2: { unfold notifyBuyer, addPendingAction, createEscrowContract, assignLogisticsHub.
       cbn [timers logWorkflowEvent emit withPendingActions setTimeout withTimers].
       now rewrite <- app_assoc. }
  pose proof (core_checkPendingActions
                (notifyBuyer env
                   (logWorkflowEvent "AUTO_ACTION"
                      (createEscrowContract
                         (logWorkflowEvent "AUTO_ACTION"
                            (assignLogisticsHub
                               (logWorkflowEvent "AUTO_ACTION"
                                  (logWorkflowEvent "STAGE_ANALYSIS" e))))))))
    as Hcore.
  unfold core in Hcore. injection Hcore as _ Hs _. rewrite Hs. exact Hstage.
Qed.

(** ** The order of the pending actions *)


(** ** Stages without a rule *)

(** X8: a deal group whose status is a text that names no rule (FORMED,
    SOLD, COMPLETED, ...) gives an engine that does nothing at all: built,
    it holds no pending action and no timer but the automation interval,
    and every tick of that interval leaves it exactly as it is. *)
Theorem engine_inert_without_rule fuel env (dealGroup user : gmap string Val) status :
  dealGroup !! "status" = Some (VStr status) ->
  status <> "" ->
  rulesFor status = None ->
  exists e0,
    construct (S fuel) env dealGroup user = Some e0
    /\ currentStage e0 = VStr status
    /\ stageHistory e0 = []
    /\ pendingActions e0 = []
    /\ timers e0 = [automationTimer true]
    /\ forall fuel' env',
         runCallback (S fuel') env' CbAutomationTick e0 = Some e0.
Proof.
  intros Hstatus Hne Hrules.
  assert (Hinit : initialStage dealGroup = VStr status).
  { unfold initialStage, orElse. rewrite Hstatus. simpl.
    destruct (String.eqb_spec status ""); [congruence | reflexivity]. }
  unfold construct.
  change (analyzeCurrentStage (S fuel) env ?x)
    with (analyzeStage (analyzeCurrentStage fuel env) env x).
  unfold analyzeStage. cbn [currentStage logWorkflowEvent emit].
  rewrite Hinit. cbn [automationRules]. rewrite Hrules.
  eexists. split; [reflexivity|]. repeat (split; [reflexivity|]).
  intros fuel' env'. cbn [runCallback autoProgressEnabled startAutomationTimer
                          withWorkflowTimer setInterval withTimers logWorkflowEvent emit].
  change (analyzeCurrentStage (S fuel') env' ?x)
    with (analyzeStage (analyzeCurrentStage fuel' env') env' x).
  unfold analyzeStage.
  change (automationRules (currentStage _)) with (rulesFor status).
  now rewrite Hrules.
Qed.

(** ** The consensus threshold *)

(** The threshold in exact arithmetic. *)
Lemma checkPollConsensus_exact env e (poll : gmap string Val) (v m : Q) :
  dealGroup e !! "active_poll" = Some (VObj poll) ->
  poll !! "total_votes" = Some (VNum (Some v)) ->
  dealGroup e !! "members_count" = Some (VNum (Some m)) ->
  (0 < m)%Q ->
  (checkPollConsensus env e = true <-> (3 * m <= 4 * v)%Q).
Proof.
  intros Hpoll Hvotes Hmembers Hpos. unfold checkPollConsensus.
  rewrite Hpoll, Hmembers. cbn [truthy negb prop]. rewrite Hvotes.
  assert (Hm : Qeq_bool m 0 = false).
  { apply not_true_iff_false. rewrite Qeq_bool_iff. intros Hz. rewrite Hz in Hpos.
    now apply Qlt_irrefl in Hpos. }
  unfold orElse at 2. cbn [truthy]. rewrite Hm. cbn [negb toNumber].
  assert (Hdiv : forall x : Q, (x == v)%Q ->
            (atLeast (div (Some x) (Some m)) (3 # 4) = true <-> (3 * m <= 4 * v)%Q)).
  { intros x Hx. unfold div. rewrite Hm. cbn [atLeast]. rewrite Qle_bool_iff, Hx.
    split; intros H.
    - apply (Qmult_le_r _ _ m Hpos) in H.
      assert (Hmne : ~ (m == 0)%Q) by (intros Hz; rewrite Hz in Hpos;
                                        now apply Qlt_irrefl in Hpos).
      rewrite (Qmult_comm (v / m)), (Qmult_div_r _ _ Hmne) in H.
      apply (Qmult_le_l _ _ 4 eq_refl) in H.
      rewrite Qmult_assoc in H.
      assert (H4 : (4 * (3 # 4) == 3)%Q) by reflexivity.
      now rewrite H4 in H.
    - apply Qle_shift_div_l; [exact Hpos|].
      apply (Qmult_le_l _ _ 4 eq_refl). rewrite Qmult_assoc.
      assert (H4 : (4 * (3 # 4) == 3)%Q) by reflexivity.
      now rewrite H4. }
  unfold orElse. cbn [truthy].
  destruct (Qeq_bool v 0) eqn:Hv; cbn [negb toNumber].
  + apply Hdiv. apply Qeq_bool_iff in Hv. now rewrite Hv.
  + apply Hdiv. reflexivity.
Qed.

(** X9: with an active poll that counts [v] votes in a group of [m]
    members, both whole numbers up to [2^32] and [m] positive,
    [checkPollConsensus] holds exactly when [3 m <= 4 v], that is when at
    least three quarters of the members have voted; without an active
    poll it never holds.  (For such counts the quotient the code computes
    in floating point lies on the same side of [0.75] as the exact
    one.) *)
Theorem checkPollConsensus_threshold env e (poll : gmap string Val) (v m : Z) :
  (dealGroup e !! "active_poll" = None -> checkPollConsensus env e = false)
  /\ (dealGroup e !! "active_poll" = Some (VObj poll) ->
      poll !! "total_votes" = Some (VNum (Some (inject_Z v))) ->
      dealGroup e !! "members_count" = Some (VNum (Some (inject_Z m))) ->
      0 <= v <= 2 ^ 32 ->
      0 < m <= 2 ^ 32 ->
      (checkPollConsensus env e = true <-> 3 * m <= 4 * v)).
Proof.
  split.
  - intros Hnone. unfold checkPollConsensus. now rewrite Hnone.
  - intros Hpoll Hvotes Hmembers Hv Hm.
    rewrite (checkPollConsensus_exact env e poll (inject_Z v) (inject_Z m)
               Hpoll Hvotes Hmembers)
      by (unfold Qlt; simpl; lia).
    unfold Qle. simpl. lia.
Qed.

End EngineRunFacts.

(* ===================================================================== *)
(** * Further properties of [authFetch]                                   *)
(* ===================================================================== *)

Section ApiMoreFacts.
Import Js Api ErrorBodies.

Lemma flat_fieldValues (fields : list (string * (string + list string))) :
  flat (List.map snd
          (List.map (fun field => (fst field, fieldValue (snd field))) fields))
  = List.map JStr (flat_map messagesOf (List.map snd fields)).
Proof.
  unfold flat. induction fields as [|[k [m|ms]] fields IH]; simpl.
  - reflexivity.
  - now rewrite IH.
  - rewrite IH. now rewrite List.map_app.
Qed.

(** X10: a non-2xx response whose body is an object of single messages and
    arrays of messages, such as [{"detail": "Not found."}], rejects with
    all these messages in order, joined by single spaces (with the
    fallback text when that is empty). *)
Theorem authFetch_error_detail (net : Network) url token options cfg (r : Response)
    (fields : list (string * (string + list string))) :
  buildConfig token options = Some cfg ->
  net url cfg = Some r ->
  ok r = false ->
  json r = Some (errorBody fields) ->
  snd (authFetch net url token options)
  = Rejected (ErrError
      (if String.eqb (String.concat " " (flat_map messagesOf (List.map snd fields))) ""
       then "An API error occurred."
       else String.concat " " (flat_map messagesOf (List.map snd fields)))).
Proof.
  intros Hc Hn Hok Hj.
  rewrite (authFetch_response net url token options cfg r Hc Hn).
  rewrite (handleResponse_error r Hok), Hj. simpl.
  unfold errorMessage, errorBody. simpl.
  now rewrite flat_fieldValues, join_strings.
Qed.

(** X11: a non-2xx response whose body is JSON but not an object: [null]
    makes the call reject with the runtime's [TypeError] instead of an
    [Error] with a message; a number or a boolean gives the fallback
    text; an array of strings gives its elements joined by single
    spaces. *)
Theorem authFetch_error_body_not_object (net : Network) url token options cfg
    (r : Response) :
  buildConfig token options = Some cfg ->
  net url cfg = Some r ->
  ok r = false ->
  (json r = Some JNull ->
   snd (authFetch net url token options) = Rejected ErrTypeError)
  /\ (forall b, json r = Some (JBool b) ->
        snd (authFetch net url token options)
        = Rejected (ErrError "An API error occurred."))
  /\ (forall n, json r = Some (JNum n) ->
        snd (authFetch net url token options)
        = Rejected (ErrError "An API error occurred."))
  /\ (forall messages, json r = Some (JArr (List.map JStr messages)) ->
        String.concat " " messages <> "" ->
        snd (authFetch net url token options)
        = Rejected (ErrError (String.concat " " messages))).
Proof.
  intros Hc Hn Hok.
  rewrite (authFetch_response net url token options cfg r Hc Hn).
  rewrite (handleResponse_error r Hok). simpl.
  split; [now intros ->|]. split; [now intros b ->|]. split; [now intros n ->|].
  intros messages -> Hne. unfold errorMessage. simpl.
  assert (Hflat : flat (List.map JStr messages) = List.map JStr messages).
  { clear. unfold flat. induction messages as [|m l IH]; simpl; [reflexivity|].
    now f_equal. }
  rewrite Hflat, join_strings. now rewrite orFallback_nonempty.
Qed.

(** X12: a call makes at most one request and reads at most one body, and it
    does not try again: when [fetch] itself rejects, the call rejects with
    that failure after the one request, without reading anything. *)
Theorem authFetch_single_attempt (net : Network) url token options :
  (length (requests (fst (authFetch net url token options))) <= 1)%nat
  /\ (length (List.filter isBodyRead (fst (authFetch net url token options))) <= 1)%nat
  /\ (forall cfg, buildConfig token options = Some cfg ->
        net url cfg = None ->
        authFetch net url token options = ([EFetch url cfg], Rejected ErrFetch)).
Proof.
  unfold authFetch.
  destruct (buildConfig token options) as [cfg|]; [|simpl; repeat split; try lia; discriminate].
  destruct (net url cfg) as [r|] eqn:Hn.
  - assert (Hshape : fst (handleResponse r) = [] \/ fst (handleResponse r) = [EJson]).
    { unfold handleResponse. destruct (negb (ok r)).
      - destruct (json r) as [d|]; [destruct (errorMessage d)|]; auto.
      - destruct (status r =? 204); [auto|]. destruct (json r); auto. }
    destruct (handleResponse r) as [effs out]. simpl in Hshape.
    repeat split.
    + destruct Hshape as [-> | ->]; simpl; lia.
    + destruct Hshape as [-> | ->]; simpl; lia.
    + intros cfg' [= <-]. congruence.
  - simpl. repeat split; try lia. now intros cfg' [= <-].
Qed.

End ApiMoreFacts.

Lemma authFetch_error_detail_witness :
  snd (Api.authFetch
         (fun _ _ => Some (Api.mkResponse 404
                             (Some (ErrorBodies.errorBody [("detail", inl "Not found.")]))))
         "/api/deals/groups/9/" (Js.SStr "t") Api.OptUndefined)
  = Api.Rejected (Api.ErrError "Not found.").
Proof.
  exact (authFetch_error_detail
           (fun _ _ => Some (Api.mkResponse 404
                               (Some (ErrorBodies.errorBody [("detail", inl "Not found.")]))))
           "/api/deals/groups/9/" (Js.SStr "t") Api.OptUndefined _
           (Api.mkResponse 404 (Some (ErrorBodies.errorBody [("detail", inl "Not found.")])))
           [("detail", inl "Not found.")] eq_refl eq_refl eq_refl eq_refl).
Defined.

Lemma authFetch_error_body_not_object_witness :
  snd (Api.authFetch (fun _ _ => Some (Api.mkResponse 500 (Some Js.JNull)))
         "/api/deals/my-polls/" (Js.SStr "t") Api.OptUndefined)
  = Api.Rejected Api.ErrTypeError.
Proof.
  exact (proj1 (authFetch_error_body_not_object
                  (fun _ _ => Some (Api.mkResponse 500 (Some Js.JNull)))
                  "/api/deals/my-polls/" (Js.SStr "t") Api.OptUndefined _
                  (Api.mkResponse 500 (Some Js.JNull)) eq_refl eq_refl eq_refl)
           eq_refl).
Defined.

Lemma authFetch_single_attempt_witness :
  Api.authFetch (fun _ _ => None) "/api/notifications/my/" (Js.SStr "t") Api.OptUndefined
  = ([Api.EFetch "/api/notifications/my/"
        (Api.mkConfig None Api.BodyAbsent
           (Api.mergeHeaders (Api.defaultHeaders (Js.SStr "t") false) None))],
     Api.Rejected Api.ErrFetch).
Proof.
  exact (proj2 (proj2 (authFetch_single_attempt (fun _ _ => None)
                         "/api/notifications/my/" (Js.SStr "t") Api.OptUndefined))
           _ eq_refl eq_refl).
Defined.

(* ===================================================================== *)
(** * The farmer dashboard: submitting, editing and voting                *)
(* ===================================================================== *)

Section ParseIntFacts.
Import Js FarmerDashboard.

Lemma leadingDigits_cons (c : ascii) (d : Z) (rest : string) (acc : option Z) :
  digitOf c = Some d ->
  leadingDigits (String c rest) acc = leadingDigits rest (Some (10 * default 0 acc + d)).
Proof. intros H. cbn [leadingDigits]. now rewrite H. Qed.

Ltac leading_digit :=
  cbn [NilEmpty.string_of_uint];
  change (String ?c ?s +:+ ?t) with (String c (s +:+ t));
  erewrite leadingDigits_cons by (vm_compute; reflexivity);
  cbn [default option_rect from_option id].

(** Reading the digits of [d], then going on with [t]. *)
Lemma leadingDigits_acc (d : Decimal.uint) (acc : positive) (t : string) :
  leadingDigits (NilEmpty.string_of_uint d +:+ t) (Some (Z.pos acc))
  = leadingDigits t (Some (Z.pos (Pos.of_uint_acc d acc))).
Proof.
  revert acc. induction d; intros acc; [reflexivity|..];
    leading_digit; cbn [Pos.of_uint_acc]; rewrite <- IHd; do 2 f_equal; lia.
Qed.

Lemma leadingDigits_zero (d : Decimal.uint) (t : string) :
  leadingDigits (NilEmpty.string_of_uint d +:+ t) (Some 0)
  = leadingDigits t (Some (Z.of_N (Pos.of_uint d))).
Proof.
  induction d; [reflexivity|..]; leading_digit; cbn [Pos.of_uint];
    [exact IHd|..]; apply leadingDigits_acc.
Qed.

Lemma leadingDigits_start (d : Decimal.uint) (t : string) :
  d <> Decimal.Nil ->
  leadingDigits (NilEmpty.string_of_uint d +:+ t) None
  = leadingDigits t (Some (Z.of_N (Pos.of_uint d))).
Proof.
  intros Hd. rewrite <- leadingDigits_zero.
  destruct d; [congruence|..]; now do 2 leading_digit.
Qed.

Lemma leadingDigits_to_uint (p : positive) (t : string) :
  leadingDigits (NilEmpty.string_of_uint (Pos.to_uint p) +:+ t) None
  = leadingDigits t (Some (Z.pos p)).
Proof.
  rewrite leadingDigits_start by apply DecimalPos.Unsigned.to_uint_nonnil.
  now rewrite DecimalPos.Unsigned.of_to.
Qed.

(** [parseInt] reads the decimal text of an integer back, and ignores
    whatever follows it from the first character on that is not a
    digit. *)
Lemma parseInt10_decimal_then (z : Z) (t : string) :
  (forall acc, leadingDigits t acc = acc) ->
  parseInt10 (decimal z +:+ t) = Some z.
Proof.
  intros Ht. unfold decimal. destruct z as [|p|p].
  - change (parseInt10 (String "0" t) = Some 0). unfold parseInt10.
    change (skipWhiteSpace (String "0" t)) with (String "0" t). cbn iota.
    erewrite leadingDigits_cons by (vm_compute; reflexivity). apply Ht.
  - pose proof (leadingDigits_to_uint p t) as Hp. rewrite Ht in Hp.
    pose proof (DecimalPos.Unsigned.to_uint_nonnil p) as Hn.
    cbn [Z.to_int NilZero.string_of_int]. unfold NilZero.string_of_uint.
    destruct (Pos.to_uint p); [congruence|..]; exact Hp.
  - pose proof (leadingDigits_to_uint p t) as Hp. rewrite Ht in Hp.
    pose proof (DecimalPos.Unsigned.to_uint_nonnil p) as Hn.
    cbn [Z.to_int NilZero.string_of_int]. unfold NilZero.string_of_uint.
    unfold parseInt10.
    change (String "-" ?s +:+ t) with (String "-" (s +:+ t)).
    change (skipWhiteSpace (String "-" ?s)) with (String "-" s).
    cbn iota.
    replace (match Pos.to_uint p with
             | Decimal.Nil => "0"
             | _ => NilEmpty.string_of_uint (Pos.to_uint p)
             end) with (NilEmpty.string_of_uint (Pos.to_uint p))
      by (destruct (Pos.to_uint p); [congruence|..]; reflexivity).
    now rewrite Hp.
Qed.

Lemma append_empty (s : string) : s +:+ "" = s.
Proof.
  induction s as [|c s IH]; [reflexivity|].
  change (String c (s +:+ "") = String c s). now f_equal.
Qed.

(** [parseInt(String(z), 10)] gives [z] back. *)
Lemma parseInt10_decimal (z : Z) : parseInt10 (decimal z) = Some z.
Proof.
  rewrite <- (append_empty (decimal z)). now apply parseInt10_decimal_then.
Qed.

End ParseIntFacts.

Section FarmerActionFacts.
Import Js FarmerDashboard FarmerActions.
Variable API_BASE : string.
Variable net : Api.Network.
Variable token : Scalar.
Variable crops : list string.
Variable quantityInputValid : string -> bool.
Variable runtimeMessage : Api.Thrown -> string.

Lemma requestsOf_app (a b : list Api.Effect) :
  requestsOf (a ++ b) = requestsOf a ++ requestsOf b.
Proof. unfold requestsOf. apply flat_map_app. Qed.

Lemma requestsOf_handleResponse (r : Api.Response) :
  requestsOf (fst (Api.handleResponse r)) = [].
Proof.
  unfold Api.handleResponse. destruct (negb (Api.ok r)).
  - destruct (Api.json r) as [d|]; [destruct (Api.errorMessage d)|]; reflexivity.
  - destruct (Api.status r =? 204); [reflexivity|]. now destruct (Api.json r).
Qed.

(** The requests a call makes: the one built from its arguments, none
    when building the configuration raises. *)
Lemma requestsOf_authFetch url options :
  requestsOf (fst (Api.authFetch net url token options))
  = match Api.buildConfig token options with
    | Some cfg => [Request url cfg]
    | None => []
    end.
Proof.
  unfold Api.authFetch. destruct (Api.buildConfig token options) as [cfg|]; [|reflexivity].
  destruct (net url cfg) as [r|]; [|reflexivity].
  pose proof (requestsOf_handleResponse r) as Hr.
  destruct (Api.handleResponse r) as [effs out]. simpl in *. now rewrite Hr.
Qed.

Lemma isAlert_requestsOf effs : List.filter isAlert (requestsOf effs) = [].
Proof.
  induction effs as [|[url cfg|] effs IH]; simpl; [reflexivity|exact IH|exact IH].
Qed.

(** A select with a placeholder shows a value of its own only for a
    non-empty value that is one of its options. *)
Lemma selectValueMissing_false (options : list string) (value : string) :
  selectValueMissing ("" :: options) value = false ->
  value <> "" /\ In value options.
Proof.
  unfold selectValueMissing.
  change (selectedIndex ("" :: options) value)
    with (if String.eqb "" value then 0%nat
          else if existsb (String.eqb value) options
               then S (selectedIndex options value) else 0%nat).
  destruct (String.eqb_spec "" value) as [|Hne]; [discriminate|].
  destruct (existsb (String.eqb value) options) eqn:Hex; [|discriminate].
  intros _. split; [congruence|].
  apply existsb_exists in Hex as (x & Hin & Hx).
  apply String.eqb_eq in Hx. now subst.
Qed.

Lemma listing_headers (st : FormState) :
  Api.buildConfig token (listingRequestOptions token st)
  = Some (Api.mkConfig (Some "POST") (Api.BodyFormData (listingFormData st))
            {["Authorization" := "Token " +:+ scalarToString token]}).
Proof. reflexivity. Qed.

(** The events of a run of the submit handler. *)
Lemma handleSubmitListing_events (st : FormState) :
  let url := API_BASE +:+ "/api/products/list-product/" in
  let cfg := Api.mkConfig (Some "POST") (Api.BodyFormData (listingFormData st))
               {["Authorization" := "Token " +:+ scalarToString token]} in
  handleSubmitListing API_BASE net token st
  = match snd (Api.authFetch net url token (listingRequestOptions token st)) with
    | Api.Resolved _ =>
        (PreventDefault :: Request url cfg
           :: Alert "Listing created successfully!" :: fetchData API_BASE net token,
         mkFormState "" "" "" None)
    | Api.Rejected err =>
        ([PreventDefault; Request url cfg],
         mkFormState (selectedCrop st) (quantity st) (selectedGrade st) (Some err))
    end.
Proof.
  intros url cfg. unfold handleSubmitListing. fold url.
  pose proof (requestsOf_authFetch url (listingRequestOptions token st)) as Hreq.
  assert (Hcfg : Api.buildConfig token (listingRequestOptions token st) = Some cfg).
  { apply listing_headers. }
  rewrite Hcfg in Hreq.
  destruct (Api.authFetch net url token (listingRequestOptions token st))
    as [effs [v|err]]; simpl in *; now rewrite Hreq.
Qed.

Lemma fetchData_not_listing_post ev :
  In ev (fetchData API_BASE net token) -> isListingPost API_BASE ev = false.
Proof.
  unfold fetchData. rewrite !requestsOf_authFetch. simpl.
  intros [<-|[<-|[]]]; simpl; apply andb_false_r.
Qed.

(** X13: every request for a new listing that submitting the form makes
    carries a crop of the offered list, not the empty one, one of the
    seven grades, and a quantity text the browser accepted; its form
    data is [crop_name], [quantity_kg] and [grade] in this order, where
    the quantity is the number itself when the quantity text is the
    decimal form of an integer up to [2^53] in absolute value. *)
Theorem submitted_listing_is_valid (st : FormState) (ev : UiEvent) :
  In ev (fst (submitForm API_BASE net token crops quantityInputValid st)) ->
  isListingPost API_BASE ev = true ->
  (exists cfg q,
     ev = Request (API_BASE +:+ "/api/products/list-product/") cfg
     /\ Api.cfg_body cfg
        = Api.BodyFormData
            [("crop_name", selectedCrop st);
             ("quantity_kg", q);
             ("grade", selectedGrade st)]
     /\ (forall z, quantity st = decimal z -> exactInteger z -> q = decimal z))
  /\ selectedCrop st <> "" /\ In (selectedCrop st) crops
  /\ In (selectedGrade st) grades
  /\ quantityInputValid (quantity st) = true.
Proof.
  unfold submitForm. destruct (checkValidity crops quantityInputValid st) eqn:Hv;
    [|intros []].
  unfold checkValidity in Hv.
  apply andb_prop in Hv as [Hv Hgrade]. apply andb_prop in Hv as [Hcrop Hqty].
  apply negb_true_iff in Hcrop, Hgrade.
  apply selectValueMissing_false in Hcrop as [Hne Hin].
  apply selectValueMissing_false in Hgrade as [_ Hg].
  intros Hev Hpost. split; [|auto].
  assert (Hq : forall z, quantity st = decimal z -> exactInteger z ->
                 numberToString (parseInt10 (quantity st)) = decimal z).
  { intros z -> _. now rewrite parseInt10_decimal. }
  rewrite handleSubmitListing_events in Hev.
  destruct (snd (Api.authFetch net _ token (listingRequestOptions token st)));
    simpl in Hev.
  - destruct Hev as [<-|[<-|[<-|Hev]]]; try discriminate.
    + eexists _, _. split; [reflexivity|]. split; [reflexivity|exact Hq].
    + apply fetchData_not_listing_post in Hev. congruence.
  - destruct Hev as [<-|[<-|[]]]; try discriminate.
    eexists _, _. split; [reflexivity|]. split; [reflexivity|exact Hq].
Qed.

(** X14: the request for a new listing has exactly one header,
    [Authorization], whatever the token is; when the backend refuses it
    with field errors, the form keeps what was entered, shows the joined
    messages as its error, and neither alerts nor reloads the lists. *)
Theorem listing_refused_keeps_form (st : FormState) (r : Api.Response)
    (fields : list (string * list string)) :
  let cfg := Api.mkConfig (Some "POST") (Api.BodyFormData (listingFormData st))
               {["Authorization" := "Token " +:+ scalarToString token]} in
  net (API_BASE +:+ "/api/products/list-product/") cfg = Some r ->
  Api.ok r = false ->
  Api.json r = Some (Api.fieldErrors fields) ->
  handleSubmitListing API_BASE net token st
  = ([PreventDefault; Request (API_BASE +:+ "/api/products/list-product/") cfg],
     mkFormState (selectedCrop st) (quantity st) (selectedGrade st)
       (Some (Api.ErrError
                (Api.orFallback
                   (String.concat " " (List.concat (List.map snd fields))))))).
Proof.
  intros cfg Hn Hok Hj. rewrite handleSubmitListing_events. fold cfg.
  assert (Hcfg : Api.buildConfig token (listingRequestOptions token st) = Some cfg).
  { apply listing_headers. }
  rewrite (authFetch_response net _ token _ cfg r Hcfg Hn).
  rewrite (handleResponse_error r Hok), Hj, errorMessage_fieldErrors.
  reflexivity.
Qed.



(** X16: a vote shows exactly one alert, whatever the backend does; when
    the backend answers 204, so that there is no body, the vote has been
    sent but the alert reports an error, and the polls are not loaded
    again. *)
Theorem handleVote_alerts_once (pollId : Scalar) (choice : Choice) :
  let url := API_BASE +:+ "/api/deals/polls/" +:+ scalarToString pollId +:+ "/vote/" in
  let cfg := Api.mkConfig (Some "POST") (Api.BodyText (choiceBody choice))
               (Api.defaultHeaders token false) in
  length (List.filter isAlert
            (handleVote API_BASE net token runtimeMessage pollId choice)) = 1%nat
  /\ (forall r, net url cfg = Some r -> Api.status r = 204 ->
        handleVote API_BASE net token runtimeMessage pollId choice
        = [Request url cfg;
           Alert ("Error casting vote: " +:+ runtimeMessage Api.ErrTypeError)]).
Proof.
  intros url cfg. split.
  - unfold handleVote.
    destruct (Api.authFetch net _ token _) as [effs [v|err]];
      [destruct (resultMessage v)|]; unfold fetchPolls;
      rewrite List.filter_app, isAlert_requestsOf; simpl;
      now rewrite ?isAlert_requestsOf.
  - intros r Hn Hs. unfold handleVote. fold url.
    rewrite (authFetch_response net url token
               (Api.OptObject (Api.mkOptions (Some "POST")
                                 (Api.BodyText (choiceBody choice)) None))
               cfg r eq_refl Hn).
    unfold Api.handleResponse, Api.ok. rewrite Hs. reflexivity.
Qed.

End FarmerActionFacts.

(* ===================================================================== *)
(** * The group room: a list that is already in order                     *)
(* ===================================================================== *)

Section SortedInputFacts.
Import Js.
Context {A : Type}.
Variable comparefn : A -> A -> Number.

(** Sorting leaves a list alone when no element has to follow a later
    one. *)
Lemma sort_in_order (l : list A) :
  StronglySorted (fun a b => placedAfter (comparefn a b) = false) l ->
  sort comparefn l = l.
Proof.
  induction 1 as [|x l Hs IH Hx]; simpl; [reflexivity|].
  rewrite IH. destruct l as [|y l]; simpl; [reflexivity|].
  apply Forall_cons in Hx as [Hxy _]. now rewrite Hxy.
Qed.

End SortedInputFacts.

Section GroupRoomOrderFacts.
Import Js GroupRoom.
Variable dateParse : string -> Number.

Lemma notLater_placedAfter (a b : Message) :
  notLater dateParse a b -> placedAfter (compareTimestamps dateParse a b) = false.
Proof.
  unfold notLater, compareTimestamps.
  destruct (timeValue dateParse (timestamp a)) as [x|]; [|intros []].
  destruct (timeValue dateParse (timestamp b)) as [y|]; [|intros []].
  simpl. intros Hxy. apply Z.ltb_ge. lia.
Qed.

(** X17: when the chat entries followed by the negotiation entries are
    already in chronological order, the merge hands them on as collected:
    nothing is moved, and entries with equal timestamps stay where they
    were, chat before negotiation history. *)
Theorem mergeMessages_in_order_unchanged (chat : list ChatMsg) (hist : list HistoryMsg) :
  StronglySorted (notLater dateParse) (collectMessages chat hist) ->
  mergeMessages dateParse chat hist
  = List.map formatChat chat
    ++ List.map formatHistory (List.filter isNegotiationOrPoll hist).
Proof.
  intros Hs. unfold mergeMessages. fold (collectMessages chat hist).
  apply sort_in_order.
  apply (StronglySorted_weaken (notLater dateParse) _ (fun _ => True)).
  - intros a b _ _. apply notLater_placedAfter.
  - apply Forall_forall. auto.
  - exact Hs.
Qed.

End GroupRoomOrderFacts.

(* ===================================================================== *)
(** * The agent's monitors                                                *)
(* ===================================================================== *)

Section AgentMonitorFacts.
Import WorkflowEngine AgentMonitors.

Lemma hoursLeft_at_most (t k : Z) (d : positive) :
  Qle_bool (inject_Z t / inject_Z 3600000) (k # d) = true
  <-> t * Z.pos d <= k * 3600000.
Proof.
  rewrite Qle_bool_iff. unfold Qle, Qdiv, Qmult, Qinv, inject_Z. simpl. lia.
Qed.

(** X18: the deadline monitor never produces the critical alert: whenever
    half an hour or less is left, the urgent alert of the first branch has
    already been chosen.  With a poll whose expiry can be read, an alert
    is produced exactly when more than nothing and at most one hour is
    left. *)
Theorem checkDeadlines_never_critical (env : Env) (dealGroup : gmap string Val) :
  (forall hoursLeft, checkDeadlines env dealGroup <> Some (CriticalDeadline hoursLeft))
  /\ (forall expiry,
        truthy (dealGroup !! "active_poll") = true ->
        newDate env (prop (dealGroup !! "active_poll") "expires_at") = Some expiry ->
        (0 < expiry - now env <= 3600000
         <-> exists hoursLeft,
               checkDeadlines env dealGroup = Some (UrgentDeadline hoursLeft))).
Proof.
  unfold checkDeadlines. split.
  - intros h. destruct (negb (truthy (dealGroup !! "active_poll"))); [discriminate|].
    destruct (newDate env _) as [expiry|]; [|discriminate].
    change (inject_Z (1000 * 60 * 60)) with (inject_Z 3600000).
    destruct (Qle_bool (inject_Z (expiry - now env) / inject_Z 3600000) 1) eqn:H1;
      destruct (Qle_bool (inject_Z (expiry - now env) / inject_Z 3600000) 0) eqn:H0;
      destruct (Qle_bool (inject_Z (expiry - now env) / inject_Z 3600000) (1 # 2)) eqn:H2;
      simpl; try discriminate.
    apply hoursLeft_at_most in H2.
    assert (Hn : Qle_bool (inject_Z (expiry - now env) / inject_Z 3600000) (1 # 1) = true)
      by (apply hoursLeft_at_most; lia).
    change (1 # 1)%Q with 1%Q in Hn. congruence.
  - intros expiry -> ->. simpl.
    change (inject_Z (1000 * 60 * 60)) with (inject_Z 3600000).
    pose proof (hoursLeft_at_most (expiry - now env) 1 1) as H1.
    pose proof (hoursLeft_at_most (expiry - now env) 0 1) as H0.
    change (1 # 1)%Q with 1%Q in H1. change (0 # 1)%Q with 0%Q in H0.
    destruct (Qle_bool (inject_Z (expiry - now env) / inject_Z 3600000) 1);
      destruct (Qle_bool (inject_Z (expiry - now env) / inject_Z 3600000) 0);
      destruct (Qle_bool (inject_Z (expiry - now env) / inject_Z 3600000) (1 # 2));
      simpl; (split; [intros Ht | intros [h Hh]]); try discriminate; eauto;
      try (assert (Htt : true = true) by reflexivity; apply H0 in Htt; lia);
      try (assert (Hle : (expiry - now env) * 1 <= 1 * 3600000) by lia;
           apply H1 in Hle; discriminate);
      assert (Htt : true = true) by reflexivity; apply H1 in Htt;
      destruct (Z_le_gt_dec ((expiry - now env) * 1) (0 * 3600000)) as [Hle|Hgt];
      try (apply H0 in Hle; discriminate); lia.
Qed.

End AgentMonitorFacts.

Section AgentGuidanceFacts.
Import AIAgentSystem.
Variables UserMessage Reply World : Type.
Variable clock : World -> Z.
Variable randomIndex : World -> nat -> nat.
Variable generateResponse : World -> UserMessage -> Reply.

Abbreviation Entry := (ContextEntry UserMessage Reply).
Abbreviation run := (run UserMessage Reply World clock randomIndex generateResponse).
Abbreviation pushedBy :=
  (pushedBy UserMessage Reply World clock randomIndex generateResponse).
Abbreviation checkWorkflowProgress :=
  (checkWorkflowProgress UserMessage Reply World clock randomIndex).
Abbreviation lastGuidance := (lastGuidance UserMessage Reply).

Lemma lastGuidance_addToContext w data (ctx : list Entry) :
  lastGuidance
    (addToContext UserMessage Reply World clock w "stage_guidance" data ctx)
  = Some (mkContextEntry UserMessage Reply "stage_guidance" data (clock w)).
Proof.
  rewrite addToContext_sliceLast. unfold sliceLast, AIAgentSystem.lastGuidance.
  rewrite drop_app_le by (rewrite length_app; simpl; lia).
  rewrite List.filter_app. simpl. apply last_snoc.
Qed.

(** What a call pushes carries the time of the call. *)
Lemma pushedBy_timestamp w op (ctx : list Entry) entry :
  In entry (pushedBy w op ctx) -> ce_timestamp UserMessage Reply entry = clock w.
Proof.
  destruct op; simpl; try (now intros []).
  - intros [<-|[]]. reflexivity.
  - intros [<-|[<-|[]]]; reflexivity.
  - destruct (stageGuidance stage) as [templates|]; [|now intros []].
    destruct (templates !! _); [|now intros []]. intros [<-|[]]. reflexivity.
  - destruct (shouldProvideGuidance _ _ _ _ _ _); [|now intros []].
    destruct (stageGuidance stage) as [templates|]; [|now intros []].
    destruct (templates !! _); [|now intros []]. intros [<-|[]]. reflexivity.
Qed.

(** The context after a run does not depend on the record of what was
    pushed before. *)
Lemma run_context calls (ctx pushed pushed' : list Entry) :
  fst (run calls ctx pushed) = fst (run calls ctx pushed').
Proof.
  revert ctx pushed pushed'. induction calls as [|[w op] calls IH]; intros; simpl;
    [reflexivity | apply IH].
Qed.

(** Without a [destroy()] the record only grows, by entries stamped with
    the times of the calls. *)
Lemma run_pushed calls (ctx pushed : list Entry) :
  Forall (fun call => snd call <> Destroy UserMessage Reply) calls ->
  snd (run calls ctx pushed) = pushed ++ snd (run calls ctx [])
  /\ Forall (fun entry => exists call, In call calls
                                       /\ ce_timestamp UserMessage Reply entry = clock (fst call))
            (snd (run calls ctx [])).
Proof.
  intros Hcalls. revert ctx pushed.
  induction Hcalls as [|[w op] calls Hop _ IH]; intros ctx pushed; simpl.
  - split; [now rewrite app_nil_r | constructor].
  - simpl in Hop.
    assert (Hstep : forall p, match op with
                              | Destroy _ _ => []
                              | _ => p ++ pushedBy w op ctx
                              end = p ++ pushedBy w op ctx)
      by (intros p; destruct op; congruence).
    assert (Hstep0 : match op with
                     | Destroy _ _ => []
                     | _ => pushedBy w op ctx
                     end = pushedBy w op ctx)
      by (destruct op; congruence).
    rewrite ?Hstep, ?Hstep0.
    destruct (IH (step UserMessage Reply World clock randomIndex generateResponse
                    w op ctx) (pushed ++ pushedBy w op ctx)) as [Hp _].
    destruct (IH (step UserMessage Reply World clock randomIndex generateResponse
                    w op ctx) (pushedBy w op ctx)) as [Hq Hstamps].
    split.
    + rewrite Hp, Hq. now rewrite app_assoc.
    + rewrite Hq. apply Forall_app. split.
      * apply Forall_forall. intros entry Hentry. exists (w, op).
        split; [now left|]. apply (pushedBy_timestamp w op ctx).
        now apply list_elem_of_In.
      * eapply Forall_impl; [exact Hstamps|].
        intros entry (call & Hin & Hts). exists call. split; [now right | exact Hts].
Qed.

(** X19: once the progress check has recorded guidance, a later progress
    check records nothing, whatever the stage then is and whatever was
    called in between, provided that there was no [destroy()], that
    fewer than 50 entries were pushed in between (so that the guidance
    entry is still among the last 50), and that the first check and the
    calls in between lie at most ten minutes before it. *)
Theorem guidance_once_in_ten_minutes w1 w2 stage1 stage2 templates content
    (ctx : list Entry) (calls : list (World * Op UserMessage Reply)) :
  shouldProvideGuidance UserMessage Reply World clock w1 ctx = true ->
  stageGuidance stage1 = Some templates ->
  templates !! randomIndex w1 (length templates) = Some content ->
  Forall (fun call => snd call <> Destroy UserMessage Reply) calls ->
  (length (snd (run calls (checkWorkflowProgress w1 stage1 ctx) [])) < 50)%nat ->
  clock w2 - clock w1 <= 10 * 60 * 1000 ->
  Forall (fun call => clock w2 - clock (fst call) <= 10 * 60 * 1000) calls ->
  lastGuidance (checkWorkflowProgress w1 stage1 ctx)
  = Some (mkContextEntry UserMessage Reply "stage_guidance"
            (GuidanceData UserMessage Reply stage1 content) (clock w1))
  /\ checkWorkflowProgress w2 stage2
       (fst (run calls (checkWorkflowProgress w1 stage1 ctx) []))
     = fst (run calls (checkWorkflowProgress w1 stage1 ctx) []).
Proof.
  intros Hshould Htemplates Hcontent Hcalls Hfew Hclock Hclocks.
  set (g := mkContextEntry UserMessage Reply "stage_guidance"
              (GuidanceData UserMessage Reply stage1 content) (clock w1)).
  assert (Hfirst :
            checkWorkflowProgress w1 stage1 ctx
            = addToContext UserMessage Reply World clock w1 "stage_guidance"
                (GuidanceData UserMessage Reply stage1 content) ctx).
  { unfold AIAgentSystem.checkWorkflowProgress, generateStageGuidance.
    now rewrite Hshould, Htemplates, Hcontent. }
  rewrite Hfirst in *. split; [apply lastGuidance_addToContext|].
  set (c1 := addToContext UserMessage Reply World clock w1 "stage_guidance"
               (GuidanceData UserMessage Reply stage1 content) ctx) in *.
  set (P := snd (run calls c1 [])) in *.
  destruct (run_pushed calls c1 c1 Hcalls) as [Hsnd Hstamps]. fold P in Hsnd, Hstamps.
  assert (Hlen : (length c1 <= 50)%nat) by apply length_addToContext.
  assert (Hctx : fst (run calls c1 []) = sliceLast UserMessage Reply 50 ((ctx ++ [g]) ++ P)).
  { rewrite (run_context calls c1 [] c1).
    destruct (run_invariant UserMessage Reply World clock randomIndex generateResponse
                calls c1 c1 Hlen) as [_ Hinv].
    { symmetry. now apply sliceLast_short. }
    rewrite Hinv, Hsnd. unfold c1. rewrite addToContext_sliceLast.
    apply sliceLast_app. }
  assert (Hlast : exists entry,
             lastGuidance (fst (run calls c1 [])) = Some entry
             /\ clock w2 - ce_timestamp UserMessage Reply entry <= 10 * 60 * 1000).
  { rewrite Hctx. unfold sliceLast, AIAgentSystem.lastGuidance.
    rewrite <- app_assoc.
    rewrite drop_app_le by (rewrite !length_app; simpl; lia).
    rewrite List.filter_app.
    change (List.filter
              (fun c : Entry => String.eqb (ce_type UserMessage Reply c) "stage_guidance")
              ([g] ++ P))
      with (g :: List.filter
                   (fun c : Entry =>
                      String.eqb (ce_type UserMessage Reply c) "stage_guidance") P).
    rewrite last_app_cons, last_cons.
    destruct (last (List.filter _ P)) as [entry|] eqn:Hentry.
    - exists entry. split; [reflexivity|].
      apply last_Some in Hentry as [l' Hl'].
      assert (Hin : In entry (List.filter
                                (fun c : Entry => String.eqb (ce_type UserMessage Reply c) "stage_guidance") P)).
      { rewrite Hl'. apply in_or_app. right. now left. }
      apply filter_In in Hin as [Hin _].
      rewrite Forall_forall in Hstamps.
      destruct (Hstamps entry) as (call & Hcall & ->).
      { now apply list_elem_of_In. }
      rewrite Forall_forall in Hclocks. apply Hclocks. now apply list_elem_of_In.
    - exists g. split; [reflexivity | exact Hclock]. }
  destruct Hlast as (entry & Hentry & Hrecent).
  unfold AIAgentSystem.checkWorkflowProgress, shouldProvideGuidance.
  fold lastGuidance. rewrite Hentry.
  destruct (Z.ltb_spec (10 * 60 * 1000) (clock w2 - ce_timestamp UserMessage Reply entry));
    [lia | reflexivity].
Qed.

End AgentGuidanceFacts.

(* ===================================================================== *)
(** * The dashboard's progress bar over the engine's lifetime             *)
(* ===================================================================== *)

Section DashboardFacts.
Import Js WorkflowEngine EngineRuns AutomationDashboard.

(** The width the template literal prints. *)
Lemma getStageProgress_text (stage : Val) :
  scalarToString (getStageProgress stage) = decimal (stagePercent stage).
Proof.
  unfold getStageProgress, stagePercent.
  now destruct (indexOf stageOrder stage).
Qed.

Lemma linearSuccessor_percent (name next : string) :
  linearSuccessor name = Some next ->
  stagePercent (VStr next) = stagePercent (VStr name) + 20.
Proof.
  unfold linearSuccessor.
  destruct (String.eqb_spec name "NEGOTIATING") as [->|_]; [now intros [= <-]|].
  destruct (String.eqb_spec name "ACCEPTED") as [->|_]; [now intros [= <-]|].
  destruct (String.eqb_spec name "IN_TRANSIT") as [->|_]; [now intros [= <-]|].
  destruct (String.eqb_spec name "DELIVERED") as [->|_]; [now intros [= <-]|].
  discriminate.
Qed.

Lemma inOrder_percent (from : Val) (left : list Val) (to : Val) :
  inOrder from left to ->
  stagePercent to = stagePercent from + 20 * Z.of_nat (length left).
Proof.
  revert from. induction left as [|s left IH]; intros from; simpl inOrder.
  - intros ->. simpl. lia.
  - intros (-> & name & next & -> & Hsucc & Hrest).
    rewrite (IH _ Hrest), (linearSuccessor_percent _ _ Hsucc).
    cbn [length]. lia.
Qed.

(** X20: the dashboard's stage order is the engine's: over any sequence of
    timer callbacks and method calls, the progress shown for the engine's
    stage grows by 20 for every stage the engine leaves, so it never goes
    back. *)
Theorem dashboard_progress_follows_engine fuel events e e' :
  run fuel events e = Some e' ->
  exists h,
    stageHistory e' = stageHistory e ++ h
    /\ stagePercent (currentStage e')
       = stagePercent (currentStage e) + 20 * Z.of_nat (length h)
    /\ scalarToString (getStageProgress (currentStage e'))
       = decimal (stagePercent (currentStage e) + 20 * Z.of_nat (length h)).
Proof.
  intros Hrun.
  enough (H : exists h,
             stageHistory e' = stageHistory e ++ h
             /\ inOrder (currentStage e) (List.map he_stage h) (currentStage e')).
  { destruct H as (h & Hh & Ho). exists h. split; [exact Hh|].
    apply inOrder_percent in Ho. rewrite length_map in Ho.
    rewrite getStageProgress_text, Ho. auto. }
  exact (run_inOrder fuel events e e' Hrun).
Qed.

End DashboardFacts.

(* ===================================================================== *)
(** * The session store: logging out and overwriting                      *)
(* ===================================================================== *)

Section StoreMoreFacts.
Import Store.
Context {Value : Type}.

(** X21: logging out puts the store back exactly into the state it was
    created in, and a [setUser] makes the store forget what an earlier
    [setUser] or [logout] did to it. *)
Theorem logout_restores_initial_state (st : gmap string (Slot Value))
    (u t u' t' : Slot Value) :
  reachable st ->
  logout st = initialState
  /\ setUser u t (setUser u' t' st) = setUser u t st
  /\ setUser u t (logout st) = setUser u t st.
Proof.
  intros Hr. destruct (reachable_holding st Hr) as (u0 & t0 & ->).
  rewrite logout_holding, !setUser_holding.
  split; [|split]; first [reflexivity | symmetry; apply initialState_holding].
Qed.

End StoreMoreFacts.

(* ===================================================================== *)
(** * A paused engine                                                     *)
(* ===================================================================== *)

Section PausedEngineFacts.
Import WorkflowEngine EngineRuns.

Lemma occur_paused fuel env ev e :
  autoProgressEnabled e = false ->
  ev <> SetAutoProgress true ->
  exists e',
    occur fuel env ev e = Some e'
    /\ autoProgressEnabled e' = false
    /\ currentStage e' = currentStage e
    /\ stageHistory e' = stageHistory e.
Proof.
  intros Hoff Hev. destruct ev as [cb|[|]|]; [|congruence|..].
  - destruct cb; simpl; rewrite ?Hoff;
      try destruct (_ !! "total_value"); eexists; (split; [reflexivity|]);
      repeat split; assumption.
  - eexists. split; [reflexivity|]. repeat split.
  - unfold occur, destroy, stopAutomationTimer. eexists. split; [reflexivity|].
    destruct (workflowTimer e); repeat split; assumption.
Qed.

(** X22: while auto-progress is switched off, nothing moves the stage:
    whatever timer callbacks run and whatever else is called, as long as
    [setAutoProgress(true)] is not, every event succeeds and the stage
    and its history stay as they were. *)
Theorem paused_engine_keeps_stage fuel events e :
  autoProgressEnabled e = false ->
  Forall (fun ev => snd ev <> SetAutoProgress true) events ->
  exists e',
    run fuel events e = Some e'
    /\ autoProgressEnabled e' = false
    /\ currentStage e' = currentStage e
    /\ stageHistory e' = stageHistory e.
Proof.
  intros Hoff Hevents. revert e Hoff.
  induction Hevents as [|[env ev] events Hev _ IH]; intros e Hoff; simpl.
  - exists e. auto.
  - destruct (occur_paused fuel env ev e Hoff Hev) as (e1 & -> & Hoff1 & Hs1 & Hh1).
    destruct (IH e1 Hoff1) as (e' & Hrun & Hoff' & Hs & Hh).
    exists e'. rewrite Hs, Hh. auto.
Qed.

End PausedEngineFacts.

Section ListingQuantityFacts.
Import Js FarmerDashboard FarmerActions.
Variable API_BASE : string.
Variable net : Api.Network.
Variable token : Scalar.

(** X23: the quantity sent for a new listing is the integer the quantity
    text starts with: whatever follows its digits, from the first
    character on that is not a digit (a decimal point, an exponent, a
    unit), is dropped without notice.  This is stated for integers up to
    [2^53] in absolute value. *)
Theorem listing_quantity_leading_integer (st : FormState) (z : Z)
    (c : ascii) (rest : string) :
  exactInteger z ->
  digitOf c = None ->
  quantity st = decimal z +:+ String c rest ->
  exists cfg events,
    fst (handleSubmitListing API_BASE net token st)
    = PreventDefault
      :: Request (API_BASE +:+ "/api/products/list-product/") cfg
      :: events
    /\ Api.cfg_body cfg
       = Api.BodyFormData
           [("crop_name", selectedCrop st);
            ("quantity_kg", decimal z);
            ("grade", selectedGrade st)].
Proof.
  intros _ Hc Hq. rewrite handleSubmitListing_events.
  assert (Hparse : parseInt10 (quantity st) = Some z).
  { rewrite Hq. apply parseInt10_decimal_then. intros acc.
    cbn [leadingDigits]. now rewrite Hc. }
  destruct (snd (Api.authFetch net _ token (listingRequestOptions token st)));
    eexists _, _; (split; [reflexivity|]); cbn [Api.cfg_body];
    unfold listingFormData; now rewrite Hparse.
Qed.

End ListingQuantityFacts.

(* ===================================================================== *)
(** * The properties at sample data                                       *)
(* ===================================================================== *)

Lemma engine_history_in_order_witness :
  exists left,
    List.map WorkflowEngine.he_stage
      (WorkflowEngine.stageHistory
         (Samples.after Samples.tick (WorkflowEngine.negotiating WorkflowEngine.agreedGroup)))
    = List.map WorkflowEngine.he_stage
        (WorkflowEngine.stageHistory (WorkflowEngine.negotiating WorkflowEngine.agreedGroup))
      ++ left
    /\ EngineRuns.inOrder
         (WorkflowEngine.currentStage (WorkflowEngine.negotiating WorkflowEngine.agreedGroup))
         left
         (WorkflowEngine.currentStage
            (Samples.after Samples.tick
               (WorkflowEngine.negotiating WorkflowEngine.agreedGroup)))
    /\ (forall i entry,
          WorkflowEngine.stageHistory
            (WorkflowEngine.negotiating WorkflowEngine.agreedGroup) !! i = Some entry ->
          WorkflowEngine.stageHistory
            (Samples.after Samples.tick
               (WorkflowEngine.negotiating WorkflowEngine.agreedGroup)) !! i = Some entry).
Proof.
  apply (engine_history_in_order 5 Samples.tick).
  vm_compute. reflexivity.
Defined.

Lemma engine_never_reaches_delivery_witness :
  EngineRuns.beforeDelivery
    (WorkflowEngine.currentStage
       (Samples.after (Samples.tick ++ Samples.tick)
          (WorkflowEngine.negotiating WorkflowEngine.settledGroup))).
Proof.
  apply (engine_never_reaches_delivery 5 (Samples.tick ++ Samples.tick)
           (WorkflowEngine.negotiating WorkflowEngine.settledGroup)).
  - left. reflexivity.
  - vm_compute. reflexivity.
Defined.

Lemma pending_actions_only_accumulate_witness :
  exists added,
    WorkflowEngine.pendingActions
      (Samples.after Samples.tick (WorkflowEngine.negotiating WorkflowEngine.agreedGroup))
    ≡ₚ WorkflowEngine.pendingActions
         (WorkflowEngine.negotiating WorkflowEngine.agreedGroup) ++ added
    /\ Forall EngineRuns.fresh added.
Proof.
  apply (pending_actions_only_accumulate 5 Samples.tick).
  vm_compute. reflexivity.
Defined.

Lemma destroy_clears_only_automation_timer_witness :
  WorkflowEngine.workflowTimer
    (WorkflowEngine.destroy (Samples.after Samples.tick Samples.built)) = None.
Proof.
  apply (destroy_clears_only_automation_timer 5 WorkflowEngine.sampleEnv
           WorkflowEngine.agreedGroup Samples.farmer Samples.tick Samples.built).
  - vm_compute. reflexivity.
  - vm_compute. reflexivity.
Defined.

Lemma delivered_completes_after_callbacks_witness :
  exists e1,
    EngineRuns.run 5 Samples.settlementEvents
      (Samples.inStage "DELIVERED" WorkflowEngine.agreedGroup) = Some e1
    /\ forall env, exists e2,
         WorkflowEngine.analyzeCurrentStage 5 env e1 = Some e2
         /\ WorkflowEngine.currentStage e2 = WorkflowEngine.VStr "COMPLETED"
         /\ List.map WorkflowEngine.he_stage (WorkflowEngine.stageHistory e2)
            = List.map WorkflowEngine.he_stage
                (WorkflowEngine.stageHistory
                   (Samples.inStage "DELIVERED" WorkflowEngine.agreedGroup))
              ++ [WorkflowEngine.VStr "DELIVERED"].
Proof.
  apply (delivered_completes_after_callbacks 5 Samples.settlementEvents).
  - reflexivity.
  - repeat constructor; eexists; (split; [reflexivity | simpl; auto]).
  - intros cb [<-|[<-|[<-|[]]]]; exists WorkflowEngine.sampleEnv; simpl; auto.
Defined.

Lemma accepted_analysis_repeats_actions_witness :
  exists e' notification,
    WorkflowEngine.analyzeCurrentStage 1 WorkflowEngine.sampleEnv
      (Samples.inStage "ACCEPTED" WorkflowEngine.agreedGroup) = Some e'
    /\ WorkflowEngine.currentStage e' = WorkflowEngine.VStr "ACCEPTED"
    /\ WorkflowEngine.pendingActions e'
       ≡ₚ WorkflowEngine.pendingActions
            (Samples.inStage "ACCEPTED" WorkflowEngine.agreedGroup) ++ [notification]
    /\ WorkflowEngine.pa_type notification = "BUYER_NOTIFICATION"
    /\ WorkflowEngine.timers e'
       = WorkflowEngine.timers (Samples.inStage "ACCEPTED" WorkflowEngine.agreedGroup)
         ++ [WorkflowEngine.mkTimer 1500 false WorkflowEngine.CbAssignHub true;
             WorkflowEngine.mkTimer 2000 false WorkflowEngine.CbCreateEscrow true].
Proof.
  apply (accepted_analysis_repeats_actions 0 WorkflowEngine.sampleEnv
           (Samples.inStage "ACCEPTED" WorkflowEngine.agreedGroup)).
  - reflexivity.
  - vm_compute. reflexivity.
Defined.


Lemma engine_inert_without_rule_witness :
  exists e0,
    WorkflowEngine.construct 1 WorkflowEngine.sampleEnv
      {["status" := WorkflowEngine.VStr "FORMED"]} Samples.farmer = Some e0
    /\ WorkflowEngine.currentStage e0 = WorkflowEngine.VStr "FORMED"
    /\ WorkflowEngine.stageHistory e0 = []
    /\ WorkflowEngine.pendingActions e0 = []
    /\ WorkflowEngine.timers e0 = [EngineRuns.automationTimer true]
    /\ forall fuel' env',
         WorkflowEngine.runCallback (S fuel') env' WorkflowEngine.CbAutomationTick e0
         = Some e0.
Proof.
  apply (engine_inert_without_rule 0 WorkflowEngine.sampleEnv
           {["status" := WorkflowEngine.VStr "FORMED"]} Samples.farmer "FORMED").
  - reflexivity.
  - discriminate.
  - reflexivity.
Defined.

Lemma checkPollConsensus_threshold_witness :
  WorkflowEngine.checkPollConsensus WorkflowEngine.sampleEnv
    (WorkflowEngine.negotiating WorkflowEngine.expiredPollGroup) = true
  <-> 3 * 4 <= 4 * 4.
Proof.
  apply (proj2 (checkPollConsensus_threshold WorkflowEngine.sampleEnv
                  (WorkflowEngine.negotiating WorkflowEngine.expiredPollGroup)
                  Samples.samplePoll 4 4)).
  - reflexivity.
  - reflexivity.
  - reflexivity.
  - lia.
  - lia.
Defined.

Lemma dashboard_progress_follows_engine_witness :
  exists h,
    WorkflowEngine.stageHistory
      (Samples.after Samples.tick (WorkflowEngine.negotiating WorkflowEngine.agreedGroup))
    = WorkflowEngine.stageHistory (WorkflowEngine.negotiating WorkflowEngine.agreedGroup)
      ++ h
    /\ AutomationDashboard.stagePercent
         (WorkflowEngine.currentStage
            (Samples.after Samples.tick
               (WorkflowEngine.negotiating WorkflowEngine.agreedGroup)))
       = AutomationDashboard.stagePercent
           (WorkflowEngine.currentStage
              (WorkflowEngine.negotiating WorkflowEngine.agreedGroup))
         + 20 * Z.of_nat (length h)
    /\ Js.scalarToString
         (AutomationDashboard.getStageProgress
            (WorkflowEngine.currentStage
               (Samples.after Samples.tick
                  (WorkflowEngine.negotiating WorkflowEngine.agreedGroup))))
       = Js.decimal
           (AutomationDashboard.stagePercent
              (WorkflowEngine.currentStage
                 (WorkflowEngine.negotiating WorkflowEngine.agreedGroup))
            + 20 * Z.of_nat (length h)).
Proof.
  apply (dashboard_progress_follows_engine 5 Samples.tick).
  vm_compute. reflexivity.
Defined.

Lemma submitted_listing_is_valid_witness :
  FarmerDashboard.selectedCrop FormSamples.filled <> ""
  /\ In (FarmerDashboard.selectedCrop FormSamples.filled) ["Rice"; "Wheat"]
  /\ In (FarmerDashboard.selectedGrade FormSamples.filled) FarmerActions.grades
  /\ FormSamples.nonEmpty (FarmerDashboard.quantity FormSamples.filled) = true.
Proof.
  apply (submitted_listing_is_valid "" FormSamples.accepting (Js.SStr "t")
           ["Rice"; "Wheat"] FormSamples.nonEmpty FormSamples.filled
           FormSamples.listingPost).
  - vm_compute. right. left. reflexivity.
  - vm_compute. reflexivity.
Defined.

Lemma listing_refused_keeps_form_witness :
  FarmerDashboard.handleSubmitListing "" FormSamples.refusing (Js.SStr "t")
    FormSamples.filled
  = ([FarmerDashboard.PreventDefault; FormSamples.listingPost],
     FarmerDashboard.mkFormState "Wheat" "25" "FAQ"
       (Some (Api.ErrError
                (Api.orFallback
                   (String.concat " "
                      (List.concat
                         (List.map snd
                            [("quantity_kg", ["A valid integer is required."])]))))))).
Proof.
  apply (listing_refused_keeps_form "" FormSamples.refusing (Js.SStr "t")
           FormSamples.filled
           (Api.mkResponse 400
              (Some (Api.fieldErrors
                       [("quantity_kg", ["A valid integer is required."])])))
           [("quantity_kg", ["A valid integer is required."])]).
  - reflexivity.
  - reflexivity.
  - reflexivity.
Defined.


Lemma handleVote_alerts_once_witness :
  FarmerActions.handleVote "" FormSamples.silent (Js.SStr "t")
    (fun _ => "Cannot read properties of null (reading 'message')")
    (Js.SNum 3) FarmerActions.Yes
  = [FarmerDashboard.Request
       ("" +:+ "/api/deals/polls/" +:+ Js.scalarToString (Js.SNum 3) +:+ "/vote/")
       (Api.mkConfig (Some "POST")
          (Api.BodyText (FarmerActions.choiceBody FarmerActions.Yes))
          (Api.defaultHeaders (Js.SStr "t") false));
     FarmerDashboard.Alert
       ("Error casting vote: "
        +:+ "Cannot read properties of null (reading 'message')")].
Proof.
  apply (proj2 (handleVote_alerts_once "" FormSamples.silent (Js.SStr "t")
                  (fun _ => "Cannot read properties of null (reading 'message')")
                  (Js.SNum 3) FarmerActions.Yes)
           (Api.mkResponse 204 None)).
  - reflexivity.
  - reflexivity.
Defined.

Lemma mergeMessages_in_order_unchanged_witness :
  GroupRoom.mergeMessages (fun _ => None) RoomSamples.chat RoomSamples.hist
  = List.map GroupRoom.formatChat RoomSamples.chat
    ++ List.map GroupRoom.formatHistory
         (List.filter GroupRoom.isNegotiationOrPoll RoomSamples.hist).
Proof.
  apply (mergeMessages_in_order_unchanged (fun _ => None)
           RoomSamples.chat RoomSamples.hist).
  repeat constructor; vm_compute; discriminate.
Defined.

Lemma checkDeadlines_never_critical_witness :
  exists hoursLeft,
    AgentMonitors.checkDeadlines WorkflowEngine.sampleEnv Samples.closingGroup
    = Some (AgentMonitors.UrgentDeadline hoursLeft).
Proof.
  apply (proj1 (proj2 (checkDeadlines_never_critical WorkflowEngine.sampleEnv
                         Samples.closingGroup)
                  1714566600000 eq_refl eq_refl)).
  vm_compute. split; [reflexivity | discriminate].
Defined.

Lemma guidance_once_in_ten_minutes_witness :
  AIAgentSystem.checkWorkflowProgress unit unit Z (fun w => w) (fun _ _ => 1%nat)
    600000 "ACCEPTED"
    (fst (AIAgentSystem.run unit unit Z (fun w => w) (fun _ _ => 1%nat) (fun _ m => m)
            AgentSamples.questions
            (AIAgentSystem.checkWorkflowProgress unit unit Z (fun w => w)
               (fun _ _ => 1%nat) 0 "NEGOTIATING" []) []))
  = fst (AIAgentSystem.run unit unit Z (fun w => w) (fun _ _ => 1%nat) (fun _ m => m)
           AgentSamples.questions
           (AIAgentSystem.checkWorkflowProgress unit unit Z (fun w => w)
              (fun _ _ => 1%nat) 0 "NEGOTIATING" []) []).
Proof.
  apply (guidance_once_in_ten_minutes unit unit Z (fun w => w) (fun _ _ => 1%nat)
           (fun _ m => m) 0 600000 "NEGOTIATING" "ACCEPTED"
           ["We're in the negotiation phase. Consider these factors for the best deal:";
            "During negotiations, focus on price, quality, and delivery terms.";
            "Remember: a good deal benefits both parties. Let's find the sweet spot!"]
           "During negotiations, focus on price, quality, and delivery terms." []
           AgentSamples.questions).
  - reflexivity.
  - reflexivity.
  - reflexivity.
  - repeat constructor; discriminate.
  - vm_compute. lia.
  - simpl. lia.
  - repeat constructor; simpl; lia.
Defined.

(** Twenty-five questions push fifty entries: the guidance entry is gone,
    and the next progress check, a minute after the first, records
    guidance again. *)
Example guidance_again_after_eviction :
  AIAgentSystem.lastGuidance unit unit
    (fst (AIAgentSystem.run unit unit Z (fun w => w) (fun _ _ => 1%nat) (fun _ m => m)
            AgentSamples.manyQuestions
            (AIAgentSystem.checkWorkflowProgress unit unit Z (fun w => w)
               (fun _ _ => 1%nat) 0 "NEGOTIATING" []) []))
  = None
  /\ AIAgentSystem.lastGuidance unit unit
       (AIAgentSystem.checkWorkflowProgress unit unit Z (fun w => w) (fun _ _ => 1%nat)
          60000 "NEGOTIATING"
          (fst (AIAgentSystem.run unit unit Z (fun w => w) (fun _ _ => 1%nat)
                  (fun _ m => m) AgentSamples.manyQuestions
                  (AIAgentSystem.checkWorkflowProgress unit unit Z (fun w => w)
                     (fun _ _ => 1%nat) 0 "NEGOTIATING" []) [])))
     = Some (AIAgentSystem.mkContextEntry unit unit "stage_guidance"
               (AIAgentSystem.GuidanceData unit unit "NEGOTIATING"
                  "During negotiations, focus on price, quality, and delivery terms.")
               60000).
Proof. split; vm_compute; reflexivity. Qed.

Lemma logout_restores_initial_state_witness :
  Store.logout (Store.setUser (Store.Held 1) (Store.Held 2) Store.initialState)
  = Store.initialState (Value := Z).
Proof.
  apply (logout_restores_initial_state
           (Store.setUser (Store.Held 1) (Store.Held 2) Store.initialState)
           Store.Null Store.Null Store.Null Store.Null).
  apply Store.reach_setUser, Store.reach_init.
Defined.

Lemma paused_engine_keeps_stage_witness :
  exists e',
    EngineRuns.run 5
      [(WorkflowEngine.sampleEnv, EngineRuns.Fires WorkflowEngine.CbAutomationTick);
       (WorkflowEngine.sampleEnv, EngineRuns.Fires WorkflowEngine.CbAssignHub)]
      (WorkflowEngine.withAutoProgress false
         (WorkflowEngine.negotiating WorkflowEngine.agreedGroup)) = Some e'
    /\ WorkflowEngine.autoProgressEnabled e' = false
    /\ WorkflowEngine.currentStage e' = WorkflowEngine.VStr "NEGOTIATING"
    /\ WorkflowEngine.stageHistory e' = [].
Proof.
  apply (paused_engine_keeps_stage 5
           [(WorkflowEngine.sampleEnv, EngineRuns.Fires WorkflowEngine.CbAutomationTick);
            (WorkflowEngine.sampleEnv, EngineRuns.Fires WorkflowEngine.CbAssignHub)]
           (WorkflowEngine.withAutoProgress false
              (WorkflowEngine.negotiating WorkflowEngine.agreedGroup))).
  - reflexivity.
  - repeat constructor; simpl; discriminate.
Defined.

Lemma listing_quantity_leading_integer_witness :
  exists cfg events,
    fst (FarmerDashboard.handleSubmitListing "" FormSamples.accepting (Js.SStr "t")
           (FarmerDashboard.mkFormState "Wheat" "1e3" "FAQ" None))
    = FarmerDashboard.PreventDefault
      :: FarmerDashboard.Request ("" +:+ "/api/products/list-product/") cfg
      :: events
    /\ Api.cfg_body cfg
       = Api.BodyFormData
           [("crop_name", "Wheat"); ("quantity_kg", Js.decimal 1); ("grade", "FAQ")].
Proof.
  apply (listing_quantity_leading_integer "" FormSamples.accepting (Js.SStr "t")
           (FarmerDashboard.mkFormState "Wheat" "1e3" "FAQ" None) 1 "e" "3").
  - unfold FarmerActions.exactInteger. simpl. lia.
  - reflexivity.
  - reflexivity.
Defined.
